(** * Churn extraction and information-quality validation

    A shallow embedding of [code_churn_extractor.py] and [iq_system.py].

    Modelling choices, all taken from the two scripts:
    - A DataFrame is the ordered list of its rows; [col f df] is the column
      [df["f"]].  The frame is a mutable object shared by the functions of
      the validator, so those functions are state transformers over it.
    - The frame has the eight columns of the CSV header; a frame that lacks
      one of them is not a value of the model.
    - A cell loaded from the CSV file is missing ([NaN]), an integer or a
      text.  A text is the sequence of its characters, one [ascii] each, so
      that [String.length] is Python's [len].  A number is kept as the
      integer it denotes and the arithmetic of its column is applied where
      the script computes with it: the sum of two int64 columns wraps
      around at 64 bits, a float64 column (one with a missing cell) rounds
      to 53 bits.  Numbers with a fractional part are left out.
    - A datetime64 value is a number of nanoseconds since the epoch, or NaT;
      a timezone-aware value carries its UTC offset as well.  How pandas
      reads the texts of a column as dates is a parameter
      ([parse_datetime]); so is the clock ([today]), which every call of
      the battery reads anew.
    - A Python exception is a value of [exn]; a computation that may raise
      returns a [result].
    - The timeliness score is the exact quotient of the two lengths, of
      which the Python float is the correctly rounded image. *)

From Stdlib Require Import ZArith QArith List String Ascii Bool Lia.
From Stdlib Require Import DecimalString.
From Stdlib Require Import Sorted Permutation.
Import ListNotations.

Local Open Scope string_scope.
Local Open Scope list_scope.
Local Open Scope Z_scope.

(* ================================================================= *)
(** ** Python: exceptions, results, strings *)

Module Py.

Inductive exn : Type :=
| TypeError
| ValueError
| ZeroDivisionError
| OutOfBoundsDatetime
| GitCommandError.

Inductive result (A : Type) : Type :=
| Ok (a : A)
| Raise (e : exn).

Arguments Ok {A} a.
Arguments Raise {A} e.

Definition rbind {A B} (r : result A) (k : A -> result B) : result B :=
  match r with
  | Ok a => k a
  | Raise e => Raise e
  end.

Fixpoint mapM {A B} (f : A -> result B) (l : list A) : result (list B) :=
  match l with
  | [] => Ok []
  | x :: l' =>
      rbind (f x) (fun y => rbind (mapM f l') (fun ys => Ok (y :: ys)))
  end.

(** Element-wise application of a binary operator to two sequences. *)
Fixpoint zipM {A B C} (f : A -> B -> result C) (l1 : list A) (l2 : list B)
  : result (list C) :=
  match l1, l2 with
  | x :: l1', y :: l2' =>
      rbind (f x y) (fun z => rbind (zipM f l1' l2') (fun zs => Ok (z :: zs)))
  | _, _ => Ok []
  end.

(** [a and b] where both operands may raise: [b] is evaluated only when
    [a] is true. *)
Definition and_then (a : result bool) (b : result bool) : result bool :=
  rbind a (fun x => if x then b else Ok false).

(** [all(...)] and [any(...)] *)
Definition all (l : list bool) : bool := forallb (fun b => b) l.
Definition any (l : list bool) : bool := existsb (fun b => b) l.

(** [s[:n]] *)
Definition prefix (n : nat) (s : string) : string := substring 0 n s.

(** ["/" in s] *)
Fixpoint has_slash (s : string) : bool :=
  match s with
  | EmptyString => false
  | String a s' => Ascii.eqb a "/" || has_slash s'
  end.

(** [s.split("/")[0]] *)
Fixpoint before_slash (s : string) : string :=
  match s with
  | EmptyString => EmptyString
  | String a s' => if Ascii.eqb a "/" then EmptyString
                   else String a (before_slash s')
  end.

(** A dict used as an insertion-ordered record of named results:
    [d[k] = v] replaces the value of an existing key and appends a new one. *)
Definition dict (V : Type) : Type := list (string * V).

Fixpoint dict_set {V} (k : string) (v : V) (d : dict V) : dict V :=
  match d with
  | [] => [(k, v)]
  | (k', v') :: d' =>
      if String.eqb k k' then (k, v) :: d' else (k', v') :: dict_set k v d'
  end.

Fixpoint dict_get {V} (k : string) (d : dict V) : option V :=
  match d with
  | [] => None
  | (k', v') :: d' => if String.eqb k k' then Some v' else dict_get k d'
  end.

End Py.

Import Py.

(* ================================================================= *)
(** ** pandas: cells, columns and the Series operations the scripts use *)

Module Pandas.

(** A cell of a column read from the CSV file. *)
Inductive cell : Type :=
| NaN
| Num (z : Z)
| Str (s : string).

(** A cell of the [date] column: as loaded, or a datetime value once
    [pd.to_datetime] has been assigned to the column.  [Stamp None] is NaT,
    [Stamp (Some t)] a timezone-naive datetime, [Aware tz t] the instant [t]
    with the UTC offset [tz]. *)
Inductive dcell : Type :=
| Raw (c : cell)
| Stamp (t : option Z)
| Aware (tz : Z) (t : Z).

Definition NaT : dcell := Stamp None.

(** What [pd.to_datetime] reads in a text: nothing, or an instant, with
    the UTC offset if the text gives one. *)
Inductive parsed : Type :=
| Unparsed
| Instant (t : Z) (tz : option Z).

Definition cell_eqb (a b : cell) : bool :=
  match a, b with
  | NaN, NaN => true
  | Num x, Num y => (x =? y)
  | Str s, Str t => String.eqb s t
  | _, _ => false
  end.

Definition dcell_eqb (a b : dcell) : bool :=
  match a, b with
  | Raw x, Raw y => cell_eqb x y
  | Stamp None, Stamp None => true
  | Stamp (Some x), Stamp (Some y) => (x =? y)
  | Aware tz x, Aware tz' y => (tz =? tz') && (x =? y)
  | _, _ => false
  end.

Definition is_str (c : cell) : bool :=
  match c with Str _ => true | _ => false end.

(** [isnull] / [notna] *)
Definition isnull (c : cell) : bool :=
  match c with NaN => true | _ => false end.

Definition notna (c : cell) : bool := negb (isnull c).

Definition disnull (c : dcell) : bool :=
  match c with
  | Raw c => isnull c
  | Stamp None => true
  | Stamp (Some _) => false
  | Aware _ _ => false
  end.

Definition dnotna (c : dcell) : bool := negb (disnull c).

(** The dtype pandas gives a column of loaded cells. *)
Inductive dtype : Type := int64 | float64 | object.

Definition dtype_of (s : list cell) : dtype :=
  if existsb is_str s then object
  else if existsb isnull s then float64
  else int64.

(** [str(x)] for an element of a column of the given dtype.  A float is
    printed as its integer part followed by [.0], which is what Python does
    below 10^16. *)
Definition py_str (dt : dtype) (c : cell) : string :=
  match c with
  | Str s => s
  | NaN => "nan"
  | Num z =>
      let digits := NilZero.string_of_int (Z.to_int z) in
      match dt with
      | float64 => (digits ++ ".0")%string
      | _ => digits
      end
  end.

(** [series >= k], [series < k] for an integer [k]: a text operand makes
    Python's comparison raise, a missing one compares false. *)
Definition ge_int (k : Z) (c : cell) : result bool :=
  match c with
  | Num z => Ok (k <=? z)
  | NaN => Ok false
  | Str _ => Raise TypeError
  end.

Definition lt_int (k : Z) (c : cell) : result bool :=
  match c with
  | Num z => Ok (z <? k)
  | NaN => Ok false
  | Str _ => Raise TypeError
  end.

(** The least int64, which datetime64 uses for NaT. *)
Definition int64_min : Z := - 2 ^ 63.

(** int64 arithmetic wraps around. *)
Definition wrap64 (z : Z) : Z := (z + 2 ^ 63) mod 2 ^ 64 - 2 ^ 63.

(** The float64 nearest to an integer: 53 significant bits, ties to the
    even one. *)
Definition round53 (z : Z) : Z :=
  let a := Z.abs z in
  if a <? 2 ^ 53 then z
  else
    let e := Z.log2 a - 52 in
    let q := Z.shiftr a e in
    let r := Z.land a (Z.ones e) in
    let half := Z.shiftl 1 (e - 1) in
    let q' := if (half <? r) || ((half =? r) && Z.odd q) then q + 1 else q in
    Z.sgn z * Z.shiftl q' e.

(** The dtype of [a + b]. *)
Definition sum_dtype (da db : dtype) : dtype :=
  match da, db with
  | object, _ | _, object => object
  | int64, int64 => int64
  | _, _ => float64
  end.

(** [a + b], element-wise, in a sum of dtype [dt]: a missing operand gives
    a missing sum, numbers add in the arithmetic of [dt], texts
    concatenate, a number and a text raise. *)
Definition add (dt : dtype) (a b : cell) : result cell :=
  match a, b with
  | NaN, _ => Ok NaN
  | _, NaN => Ok NaN
  | Num x, Num y =>
      Ok (Num (match dt with
               | int64 => wrap64 (x + y)
               | float64 => round53 (round53 x + round53 y)
               | object => x + y
               end))
  | Str s, Str t => Ok (Str (s ++ t)%string)
  | _, _ => Raise TypeError
  end.

(** [a == b], element-wise, between columns of dtypes [da] and [db]: never
    raises, NaN equals nothing, an int64 compared with a float64 is
    converted to float64 first. *)
Definition eq (da db : dtype) (a b : cell) : bool :=
  match a, b with
  | Num x, Num y =>
      match da, db with
      | int64, float64 | float64, int64 | float64, float64 =>
          (round53 x =? round53 y)
      | _, _ => (x =? y)
      end
  | Str s, Str t => String.eqb s t
  | _, _ => false
  end.

Definition series_ge (s : list cell) (k : Z) : result (list bool) :=
  mapM (ge_int k) s.

Definition series_lt (s : list cell) (k : Z) : result (list bool) :=
  mapM (lt_int k) s.

Definition series_add (a b : list cell) : result (list cell) :=
  zipM (add (sum_dtype (dtype_of a) (dtype_of b))) a b.

Fixpoint series_eq (da db : dtype) (a b : list cell) : list bool :=
  match a, b with
  | x :: a', y :: b' => eq da db x y :: series_eq da db a' b'
  | _, _ => []
  end.

(** *** Operations on the [date] column *)

(** [series <= t] against the timezone-naive datetime [t]
    ([dt.datetime.today()]): NaT compares false; a timezone-aware value
    cannot be compared with a naive one, nor can a column that was never
    converted. *)
Definition le_stamp (t : Z) (c : dcell) : result bool :=
  match c with
  | Stamp (Some x) => Ok (x <=? t)
  | Stamp None => Ok false
  | Aware _ _ => Raise TypeError
  | Raw _ => Raise TypeError
  end.

Definition is_text (d : dcell) : bool :=
  match d with
  | Raw (Str _) => true
  | _ => false
  end.

Definition is_raw (d : dcell) : bool :=
  match d with
  | Raw _ => true
  | _ => false
  end.

(** [series >= cutoff], the cutoff being what [max() - Timedelta] gave: a
    datetime of the column's own timezone, or NaT.  Against NaT every
    comparison is false, except that a numeric column cannot be compared
    with it; against a datetime, NaT compares false and a value that was
    never converted raises. *)
Definition ge_instant (c : Z) (d : dcell) : result bool :=
  match d with
  | Stamp (Some x) => Ok (c <=? x)
  | Stamp None => Ok false
  | Aware _ x => Ok (c <=? x)
  | Raw _ => Raise TypeError
  end.

Definition series_ge_stamp (cutoff : option Z) (s : list dcell)
  : result (list bool) :=
  match cutoff with
  | None =>
      if existsb is_raw s && negb (existsb is_text s) then Raise TypeError
      else Ok (map (fun _ => false) s)
  | Some c => mapM (ge_instant c) s
  end.

(** The order used by [max] and by the monotonicity tests: defined between
    two non-null values of the same kind. *)
Definition dcell_le (a b : dcell) : option bool :=
  match a, b with
  | Stamp (Some x), Stamp (Some y) => Some (x <=? y)
  | Aware _ x, Aware _ y => Some (x <=? y)
  | Raw (Num x), Raw (Num y) => Some (x <=? y)
  | Raw (Str s), Raw (Str t) => Some (String.leb s t)
  | _, _ => None
  end.

(** [series.max()]: nulls are skipped, and an all-null or empty column has
    a null maximum; but in a column of texts a missing value is not
    skipped, it is compared with the texts, which raises. *)
Fixpoint max_from (m : dcell) (l : list dcell) : result dcell :=
  match l with
  | [] => Ok m
  | x :: l' =>
      match dcell_le x m with
      | Some true => max_from m l'
      | Some false => max_from x l'
      | None => Raise TypeError
      end
  end.

Definition series_max (s : list dcell) : result dcell :=
  if existsb is_text s && existsb disnull s then Raise TypeError
  else
    match filter dnotna s with
    | [] => Ok NaT
    | x :: l => max_from x l
    end.

(** [pd.Timedelta(days=90)], in nanoseconds. *)
Definition days90 : Z := 90 * 86400 * 1000000000.

(** The texts [pd.Timedelta] reads as NaT. *)
Definition is_nat_text (s : string) : bool :=
  existsb (String.eqb s) [""; "NaT"; "nat"; "NAT"; "nan"; "NaN"; "NAN"].

(** A datetime minus 90 days, in int64 nanoseconds: a difference below the
    int64 range raises, the least int64 is NaT. *)
Definition minus_days90 (t : Z) : result (option Z) :=
  let v := t - days90 in
  if v <? int64_min then Raise OutOfBoundsDatetime
  else if v =? int64_min then Ok None
  else Ok (Some v).

(** [latest - pd.Timedelta(days=90)]: defined on a datetime; a null gives
    NaT, and so does a text that [pd.Timedelta] reads as NaT; any other
    text and a number end in a TypeError. *)
Definition sub_days90 (latest : dcell) : result (option Z) :=
  match latest with
  | Stamp (Some t) => minus_days90 t
  | Aware _ t => minus_days90 t
  | Stamp None => Ok None
  | Raw NaN => Ok None
  | Raw (Num _) => Raise TypeError
  | Raw (Str s) => if is_nat_text s then Ok None else Raise TypeError
  end.

(** [series.is_monotonic_increasing] / [is_monotonic_decreasing]: true on
    an empty column; false as soon as a null or two incomparable values
    occur. *)
Fixpoint monotonic_from (up : bool) (prev : dcell) (l : list dcell) : bool :=
  match l with
  | [] => true
  | cur :: l' =>
      match (if up then dcell_le prev cur else dcell_le cur prev) with
      | Some true => monotonic_from up cur l'
      | _ => false
      end
  end.

Definition is_monotonic (up : bool) (s : list dcell) : bool :=
  match s with
  | [] => true
  | x :: l => dnotna x && monotonic_from up x l
  end.

Definition is_monotonic_increasing := is_monotonic true.
Definition is_monotonic_decreasing := is_monotonic false.

End Pandas.

Import Pandas.

(* ================================================================= *)
(** ** iq_system.py: the IQ validator *)

Module Validator.

(** One row of [churn_data.csv], columns in the order of its header. *)
Record ChurnRecord : Type := mkRecord {
  commit_hash : cell;
  author : cell;
  date : dcell;
  file_path : cell;
  module : cell;
  loc_added : cell;
  loc_deleted : cell;
  loc_modified : cell
}.

Definition DataFrame : Type := list ChurnRecord.

(** [df["f"]] *)
Definition col {X} (f : ChurnRecord -> X) (df : DataFrame) : list X :=
  map f df.

Definition with_date (d : dcell) (r : ChurnRecord) : ChurnRecord :=
  {| commit_hash := commit_hash r; author := author r; date := d;
     file_path := file_path r; module := module r;
     loc_added := loc_added r; loc_deleted := loc_deleted r;
     loc_modified := loc_modified r |}.

(** [df["date"] = s]: the column is replaced position by position; a row
    the series has no value for gets a missing date. *)
Fixpoint set_date (s : list dcell) (df : DataFrame) : DataFrame :=
  match df with
  | [] => []
  | r :: df' =>
      match s with
      | d :: s' => with_date d r :: set_date s' df'
      | [] => with_date (Raw NaN) r :: set_date [] df'
      end
  end.

Definition row_eqb (a b : ChurnRecord) : bool :=
  cell_eqb (commit_hash a) (commit_hash b) &&
  cell_eqb (author a) (author b) &&
  dcell_eqb (date a) (date b) &&
  cell_eqb (file_path a) (file_path b) &&
  cell_eqb (module a) (module b) &&
  cell_eqb (loc_added a) (loc_added b) &&
  cell_eqb (loc_deleted a) (loc_deleted b) &&
  cell_eqb (loc_modified a) (loc_modified b).

(** [df.duplicated()]: a row is flagged when an earlier row equals it on
    every column (nulls count as equal). *)
Fixpoint duplicated_from (seen : list ChurnRecord) (df : DataFrame)
  : list bool :=
  match df with
  | [] => []
  | r :: df' => existsb (row_eqb r) seen :: duplicated_from (r :: seen) df'
  end.

Definition duplicated (df : DataFrame) : list bool := duplicated_from [] df.

(** [df.isnull().sum()]: the number of nulls of each column. *)
Definition count_true (l : list bool) : nat := List.length (filter (fun b => b) l).

Definition isnull_sum (df : DataFrame) : list nat :=
  [ count_true (map isnull (col commit_hash df));
    count_true (map isnull (col author df));
    count_true (map disnull (col date df));
    count_true (map isnull (col file_path df));
    count_true (map isnull (col module df));
    count_true (map isnull (col loc_added df));
    count_true (map isnull (col loc_deleted df));
    count_true (map isnull (col loc_modified df)) ].

(** [df[mask]] *)
Fixpoint select (mask : list bool) (df : DataFrame) : DataFrame :=
  match mask, df with
  | b :: mask', r :: df' =>
      if b then r :: select mask' df' else select mask' df'
  | _, _ => []
  end.

(** [a / b] on two lengths. *)
Definition truediv (a b : nat) : result Q :=
  match b with
  | O => Raise ZeroDivisionError
  | S _ => Ok (Z.of_nat a # Pos.of_nat b)
  end.

(** *** Computations over the shared frame

    A function that receives [df] may read it, assign to it and raise; the
    frame it leaves behind is part of the outcome, also when it raises. *)
Definition M (A : Type) : Type := DataFrame -> result A * DataFrame.

Definition ret {A} (a : A) : M A := fun df => (Ok a, df).

Definition bind {A B} (m : M A) (k : A -> M B) : M B :=
  fun df =>
    match m df with
    | (Ok a, df') => k a df'
    | (Raise e, df') => (Raise e, df')
    end.

Notation "x <- m ;; k" := (bind m (fun x => k))
  (at level 61, m at next level, right associativity).

(** Evaluate an expression over the frame. *)
Definition read {A} (f : DataFrame -> A) : M A := fun df => (Ok (f df), df).

(** Evaluate an expression that may raise. *)
Definition try_read {A} (f : DataFrame -> result A) : M A :=
  fun df => (f df, df).

Definition lift {A} (r : result A) : M A := fun df => (r, df).

(** [df["date"] = conv(df["date"])]: when the right-hand side raises,
    nothing is assigned. *)
Definition assign_date (conv : list dcell -> result (list dcell)) : M unit :=
  fun df =>
    match conv (col date df) with
    | Ok s => (Ok tt, set_date s df)
    | Raise e => (Raise e, df)
    end.

Definition IQCheckResult : Type := dict bool.

(** A value that fits a nanosecond timestamp: an int64 other than the one
    that stands for NaT. *)
Definition in_bounds (t : Z) : bool := (int64_min <? t) && (t <? 2 ^ 63).

(** The timezone of a converted value, if it is a datetime. *)
Definition tz_of (c : dcell) : list (option Z) :=
  match c with
  | Stamp (Some _) => [None]
  | Aware tz _ => [Some tz]
  | _ => []
  end.

Definition tz_eqb (a b : option Z) : bool :=
  match a, b with
  | None, None => true
  | Some x, Some y => (x =? y)
  | _, _ => false
  end.

(** The datetimes of the column have one timezone, or none has any. *)
Definition same_tz (s : list dcell) : bool :=
  match flat_map tz_of s with
  | [] => true
  | k :: ks => forallb (tz_eqb k) ks
  end.

Section Checks.

(** What [pd.to_datetime] makes of the texts of the column, and
    [dt.datetime.today()]. *)
Variable parse_datetime : string -> parsed.
Variable today : Z.

(** [pd.to_datetime(..., errors="coerce")] on one value: a text that does
    not parse and a missing value become NaT, a number counts nanoseconds
    and is NaT outside their range, a datetime is kept. *)
Definition to_datetime_cell (c : dcell) : dcell :=
  match c with
  | Stamp t => Stamp t
  | Aware tz t => Aware tz t
  | Raw NaN => NaT
  | Raw (Num z) => if in_bounds z then Stamp (Some z) else NaT
  | Raw (Str s) =>
      match parse_datetime s with
      | Unparsed => NaT
      | Instant t None => Stamp (Some t)
      | Instant t (Some tz) => Aware tz t
      end
  end.

(** [pd.to_datetime(series, errors="coerce")]: datetimes of different
    timezones do not make a column, whatever [errors] says. *)
Definition to_datetime (s : list dcell) : result (list dcell) :=
  let converted := map to_datetime_cell s in
  if same_tz converted then Ok converted else Raise ValueError.

(** The ten checks, each as the expression assigned to its key. *)

Definition missing_values (df : DataFrame) : bool :=
  Nat.eqb (list_sum (isnull_sum df)) 0.

(** Check 2 is two statements: the assignment that converts the column,
    then the expression over the converted column. *)
Definition dates_valid (df : DataFrame) : result bool :=
  and_then (Ok (all (map dnotna (col date df))))
           (rbind (mapM (le_stamp today) (col date df))
                  (fun m => Ok (all m))).

Definition valid_dates : M bool :=
  _ <- assign_date to_datetime ;;
  try_read dates_valid.

Definition no_duplicates (df : DataFrame) : bool :=
  negb (any (duplicated df)).

Definition non_negative_LOC (df : DataFrame) : result bool :=
  and_then
    (and_then
       (rbind (series_ge (col loc_added df) 0) (fun m => Ok (all m)))
       (rbind (series_ge (col loc_deleted df) 0) (fun m => Ok (all m))))
    (rbind (series_ge (col loc_modified df) 0) (fun m => Ok (all m))).

Definition LOC_consistency (df : DataFrame) : result bool :=
  rbind (series_add (col loc_added df) (col loc_deleted df))
        (fun s =>
           Ok (all (series_eq (dtype_of (col loc_modified df))
                              (sum_dtype (dtype_of (col loc_added df))
                                         (dtype_of (col loc_deleted df)))
                              (col loc_modified df) s))).

Definition reasonable_LOC_bounds (df : DataFrame) : result bool :=
  rbind (series_lt (col loc_modified df) 10000) (fun m => Ok (all m)).

Definition valid_commit_hash (df : DataFrame) : bool :=
  let s := col commit_hash df in
  all (map (fun x => Nat.eqb (String.length (py_str (dtype_of s) x)) 8) s).

Definition author_validity (df : DataFrame) : bool :=
  all (map (fun x => match x with
                     | Str s => Nat.ltb 1 (String.length s)
                     | _ => false
                     end) (col author df)).

Definition module_field_presence (df : DataFrame) : bool :=
  all (map notna (col module df)).

Definition chronological_order (df : DataFrame) : bool :=
  is_monotonic_increasing (col date df) || is_monotonic_decreasing (col date df).

(** [free_of_error_checks(df)] *)
Definition free_of_error_checks : M IQCheckResult :=
  let checks := [] in
  b <- read missing_values ;;
  let checks := dict_set "missing_values" b checks in
  b <- valid_dates ;;
  let checks := dict_set "valid_dates" b checks in
  b <- read no_duplicates ;;
  let checks := dict_set "no_duplicates" b checks in
  b <- try_read non_negative_LOC ;;
  let checks := dict_set "non_negative_LOC" b checks in
  b <- try_read LOC_consistency ;;
  let checks := dict_set "LOC_consistency" b checks in
  b <- try_read reasonable_LOC_bounds ;;
  let checks := dict_set "reasonable_LOC_bounds" b checks in
  b <- read valid_commit_hash ;;
  let checks := dict_set "valid_commit_hash" b checks in
  b <- read author_validity ;;
  let checks := dict_set "author_validity" b checks in
  b <- read module_field_presence ;;
  let checks := dict_set "module_field_presence" b checks in
  b <- read chronological_order ;;
  let checks := dict_set "chronological_order" b checks in
  ret checks.

(** [compute_timeliness(df)] *)
Definition compute_timeliness : M Q :=
  latest_date <- try_read (fun df => series_max (col date df)) ;;
  cutoff_date <- lift (sub_days90 latest_date) ;;
  recent_records <-
    try_read (fun df => rbind (series_ge_stamp cutoff_date (col date df))
                              (fun mask => Ok (select mask df))) ;;
  timeliness_score <-
    try_read (fun df => truediv (List.length recent_records) (List.length df)) ;;
  ret timeliness_score.

(** The ten checks by name, each as it is evaluated on its own. *)
Definition the_checks : list (string * M bool) :=
  [ ("missing_values", read missing_values);
    ("valid_dates", valid_dates);
    ("no_duplicates", read no_duplicates);
    ("non_negative_LOC", try_read non_negative_LOC);
    ("LOC_consistency", try_read LOC_consistency);
    ("reasonable_LOC_bounds", try_read reasonable_LOC_bounds);
    ("valid_commit_hash", read valid_commit_hash);
    ("author_validity", read author_validity);
    ("module_field_presence", read module_field_presence);
    ("chronological_order", read chronological_order) ].

(** The frame with its [date] column converted. *)
Definition coerce (df : DataFrame) : DataFrame :=
  map (fun r => with_date (to_datetime_cell (date r)) r) df.

(** [main()], from the loaded frame on: the battery, then the score, on
    the same frame object. *)
Definition main : M (IQCheckResult * Q) :=
  results <- free_of_error_checks ;;
  timeliness <- compute_timeliness ;;
  ret (results, timeliness).

End Checks.

End Validator.

(* ================================================================= *)
(** ** code_churn_extractor.py: the churn extractor *)

Module Extractor.

(** The per-file entry of [commit.stats.files]: a dict in which either key
    may be absent. *)
Record FileStats : Type := mkStats {
  insertions : option Z;
  deletions : option Z
}.

(** [file_stats.get(key, 0)] *)
Definition get0 (v : option Z) : Z :=
  match v with
  | Some z => z
  | None => 0
  end.

(** What the loop reads of a commit: [hexsha], [author.name] ([None] when
    [commit.author] is falsy), [committed_datetime.strftime("%Y-%m-%d")]
    and [stats.files], whose retrieval runs git and may raise. *)
Record Commit : Type := mkCommit {
  hexsha : string;
  author_name : option string;
  committed_day : string;
  stats_files : result (list (string * FileStats))
}.

(** One appended record, fields in the order of the CSV header. *)
Record Row : Type := mkRow {
  commit_hash : string;
  author : string;
  date : string;
  file_path : string;
  module : string;
  loc_added : Z;
  loc_deleted : Z;
  loc_modified : Z
}.

Definition record_of (commit : Commit) (path : string) (file_stats : FileStats)
  : Row :=
  let added := get0 (insertions file_stats) in
  let deleted := get0 (deletions file_stats) in
  let modified := added + deleted in
  {| commit_hash := prefix 8 (hexsha commit);
     author := match author_name commit with
               | Some name => name
               | None => "Unknown"
               end;
     date := committed_day commit;
     file_path := path;
     module := if has_slash path then before_slash path else "root";
     loc_added := added;
     loc_deleted := deleted;
     loc_modified := modified |}.

(** The body of the [try].  Reading [commit.stats.files] runs git and is
    the step that can raise; on statistics typed as GitPython types them
    the loop over its items reads attributes, looks keys up with a default,
    adds integers and slices texts.  The records are appended to the shared
    list as the loop goes.  [Body] below has the loop on items that make it
    raise. *)
Definition try_body (commit : Commit) (churn_records : list Row)
  : result unit * list Row :=
  match stats_files commit with
  | Raise e => (Raise e, churn_records)
  | Ok stats =>
      (Ok tt,
       fold_left (fun acc kv => acc ++ [record_of commit (fst kv) (snd kv)])
                 stats churn_records)
  end.

(** The records collected so far and the skip warnings printed so far. *)
Definition State : Type := (list Row * list (string * exn))%type.

(** One iteration of the loop over the commits: [except Exception] prints
    a warning and the loop goes on. *)
Definition loop_step (st : State) (commit : Commit) : State :=
  let '(churn_records, warnings) := st in
  match try_body commit churn_records with
  | (Ok _, records) => (records, warnings)
  | (Raise e, records) =>
      (records, warnings ++ [(prefix 8 (hexsha commit), e)])
  end.

(** [extract_code_churn], from the list of commits on: the rows written
    under the CSV header, and the warnings. *)
Definition extract_code_churn (commits : list Commit) : State :=
  fold_left loop_step commits ([], []).

Definition churn_records (commits : list Commit) : list Row :=
  fst (extract_code_churn commits).

(** The records one commit contributes. *)
Definition records_of (commit : Commit) : list Row :=
  match stats_files commit with
  | Raise _ => []
  | Ok stats => map (fun kv => record_of commit (fst kv) (snd kv)) stats
  end.

End Extractor.

(* ================================================================= *)
(** ** The [try] body on items of any kind

    [Extractor] takes a commit as GitPython types it: the statistics are a
    dict of dicts of integers, and the body of the inner loop cannot raise.
    Python does not check those types.  On a [file_stats] without [get], on
    counts that do not add, on an author or a date that cannot be read,
    the body raises in the middle of the inner loop, after the records of
    the earlier files were appended.  Here an item of [stats.items()] is
    either one the body processes or one on which it raises. *)

Module Body.

Import Extractor.

Inductive item : Type :=
| File (file_path : string) (file_stats : FileStats)
| Faulty (e : exn).

Record Commit : Type := mkCommit {
  hexsha : string;
  author_name : option string;
  committed_day : string;
  stats_files : result (list item)
}.

Definition record_of (commit : Commit) (path : string) (file_stats : FileStats)
  : Row :=
  let added := get0 (insertions file_stats) in
  let deleted := get0 (deletions file_stats) in
  let modified := added + deleted in
  {| commit_hash := prefix 8 (hexsha commit);
     author := match author_name commit with
               | Some name => name
               | None => "Unknown"
               end;
     date := committed_day commit;
     file_path := path;
     module := if has_slash path then before_slash path else "root";
     loc_added := added;
     loc_deleted := deleted;
     loc_modified := modified |}.

(** The inner loop: each record is appended to the shared list before the
    next item is looked at, so what was appended when an item raises
    stays. *)
Fixpoint for_items (commit : Commit) (items : list item)
                   (churn_records : list Row) : result unit * list Row :=
  match items with
  | [] => (Ok tt, churn_records)
  | File path file_stats :: rest =>
      for_items commit rest
                (churn_records ++ [record_of commit path file_stats])
  | Faulty e :: _ => (Raise e, churn_records)
  end.

Definition try_body (commit : Commit) (churn_records : list Row)
  : result unit * list Row :=
  match stats_files commit with
  | Raise e => (Raise e, churn_records)
  | Ok stats => for_items commit stats churn_records
  end.

Definition loop_step (st : State) (commit : Commit) : State :=
  let '(churn_records, warnings) := st in
  match try_body commit churn_records with
  | (Ok _, records) => (records, warnings)
  | (Raise e, records) =>
      (records, warnings ++ [(prefix 8 (hexsha commit), e)])
  end.

Definition extract_code_churn (commits : list Commit) : State :=
  fold_left loop_step commits ([], []).

(** A commit of [Extractor], whose items are all processed. *)
Definition of_typed (c : Extractor.Commit) : Commit :=
  {| hexsha := Extractor.hexsha c;
     author_name := Extractor.author_name c;
     committed_day := Extractor.committed_day c;
     stats_files :=
       match Extractor.stats_files c with
       | Ok stats => Ok (map (fun kv => File (fst kv) (snd kv)) stats)
       | Raise e => Raise e
       end |}.

(** The records of the items before the first one that raises. *)
Fixpoint processed (commit : Commit) (items : list item) : list Row :=
  match items with
  | File path file_stats :: rest =>
      record_of commit path file_stats :: processed commit rest
  | _ => []
  end.

(** The exception of the first item that raises. *)
Fixpoint first_fault (items : list item) : option exn :=
  match items with
  | [] => None
  | File _ _ :: rest => first_fault rest
  | Faulty e :: _ => Some e
  end.

(** The records a commit leaves in the output, and the exception its
    [try] body ends with, if any. *)
Definition records_of (commit : Commit) : list Row :=
  match stats_files commit with
  | Raise _ => []
  | Ok items => processed commit items
  end.

Definition failure_of (commit : Commit) : option exn :=
  match stats_files commit with
  | Raise e => Some e
  | Ok items => first_fault items
  end.

Definition warning_of (commit : Commit) : list (string * exn) :=
  match failure_of commit with
  | Some e => [(prefix 8 (hexsha commit), e)]
  | None => []
  end.

End Body.

(* ================================================================= *)
(** ** A date parser for the texts the extractor writes

    [%Y-%m-%d] texts, read as midnight of that day.  It instantiates
    [parse_datetime] when the model is run on examples. *)

Module IsoDate.

Definition ns_per_day : Z := 86400 * 1000000000.

Definition digit (a : ascii) : option Z :=
  let n := Z.of_nat (nat_of_ascii a) in
  if (48 <=? n) && (n <=? 57) then Some (n - 48) else None.

Fixpoint number (acc : Z) (s : string) : option Z :=
  match s with
  | EmptyString => Some acc
  | String a s' =>
      match digit a with
      | Some d => number (10 * acc + d) s'
      | None => None
      end
  end.

Definition is_leap (y : Z) : bool :=
  ((y mod 4 =? 0) && negb (y mod 100 =? 0)) || (y mod 400 =? 0).

Definition days_in_month (y m : Z) : Z :=
  if m =? 2 then (if is_leap y then 29 else 28)
  else if (m =? 4) || (m =? 6) || (m =? 9) || (m =? 11) then 30
  else 31.

(** Days from 1970-01-01 to the given civil date. *)
Definition days_from_civil (y m d : Z) : Z :=
  let y' := if m <=? 2 then y - 1 else y in
  let era := y' / 400 in
  let yoe := y' - era * 400 in
  let mp := if 2 <? m then m - 3 else m + 9 in
  let doy := (153 * mp + 2) / 5 + d - 1 in
  let doe := yoe * 365 + yoe / 4 - yoe / 100 + doy in
  era * 146097 + doe - 719468.

(** The day a [%Y-%m-%d] text names, in days from the epoch. *)
Definition parse_day (s : string) : option Z :=
  if Nat.eqb (String.length s) 10
     && String.eqb (substring 4 1 s) "-"
     && String.eqb (substring 7 1 s) "-"
  then
    match number 0 (substring 0 4 s), number 0 (substring 5 2 s),
          number 0 (substring 8 2 s) with
    | Some y, Some m, Some d =>
        if (1 <=? m) && (m <=? 12) && (1 <=? d) && (d <=? days_in_month y m)
        then Some (days_from_civil y m d)
        else None
    | _, _, _ => None
    end
  else None.

(** A column of [%Y-%m-%d] texts: timezone-naive datetimes. *)
Definition parse (s : string) : parsed :=
  match parse_day s with
  | Some d => Instant (d * ns_per_day) None
  | None => Unparsed
  end.

(** A two-digit field below [bound]. *)
Definition field (bound : Z) (s : string) : option Z :=
  if Nat.eqb (String.length s) 2 then
    match number 0 s with
    | Some n => if n <? bound then Some n else None
    | None => None
    end
  else None.

(** A column of [%Y-%m-%d %H:%M:%S%z] texts, the offset written [+HH:MM]
    or [-HH:MM]: timezone-aware datetimes.  The instant is the local time
    less the offset; the offset is kept in seconds. *)
Definition parse_offset (s : string) : parsed :=
  if Nat.eqb (String.length s) 25
     && String.eqb (substring 10 1 s) " "
     && String.eqb (substring 13 1 s) ":"
     && String.eqb (substring 16 1 s) ":"
     && String.eqb (substring 22 1 s) ":"
  then
    match parse_day (substring 0 10 s),
          field 24 (substring 11 2 s), field 60 (substring 14 2 s),
          field 60 (substring 17 2 s),
          field 24 (substring 20 2 s), field 60 (substring 23 2 s) with
    | Some d, Some h, Some mi, Some sec, Some oh, Some om =>
        let local := d * 86400 + h * 3600 + mi * 60 + sec in
        let off := oh * 3600 + om * 60 in
        if String.eqb (substring 19 1 s) "+"
        then Instant ((local - off) * 1000000000) (Some off)
        else if String.eqb (substring 19 1 s) "-"
        then Instant ((local + off) * 1000000000) (Some (- off))
        else Unparsed
    | _, _, _, _, _, _ => Unparsed
    end
  else Unparsed.

End IsoDate.

Import Validator.

(* ================================================================= *)
(** ** Statements of the specification, in its own words *)

Module Spec.

(** The valid dates of a dataset. *)
Definition stamps (df : DataFrame) : list Z :=
  flat_map (fun r => match date r with
                     | Stamp (Some t) => [t]
                     | _ => []
                     end) df.

(** [m] is [max(date)] of the dataset. *)
Definition is_latest (m : Z) (df : DataFrame) : Prop :=
  In m (stamps df) /\ forall t, In t (stamps df) -> t <= m.

(** The record's date is at or after [cutoff]. *)
Definition at_or_after (cutoff : Z) (r : ChurnRecord) : bool :=
  match date r with
  | Stamp (Some t) => cutoff <=? t
  | _ => false
  end.

(** The count of records with [date >= m - 90 days]. *)
Definition recent_count (m : Z) (df : DataFrame) : nat :=
  List.length (filter (at_or_after (m - days90)) df).

(** Every date of the frame is a datetime64 value: the [date] column has
    been converted. *)
Definition datetime64 (df : DataFrame) : Prop :=
  forall r, In r df -> exists t, date r = Stamp t.

(** Every date of the frame is a valid date. *)
Definition all_valid_dates (df : DataFrame) : Prop :=
  forall r, In r df -> exists t, date r = Stamp (Some t).

(** The row satisfies [loc_modified = loc_added + loc_deleted]. *)
Definition loc_consistent (r : ChurnRecord) : Prop :=
  exists a d, loc_added r = Num a /\ loc_deleted r = Num d /\
              loc_modified r = Num (a + d).

(** With [m] the maximum date, [m - 90 days] is a datetime: the
    subtraction stays above the least int64. *)
Definition cutoff_in_range (m : Z) : Prop := int64_min < m - days90.

(** No date of the frame is read as a timezone-aware datetime: the
    converted column is a datetime64 one. *)
Definition naive_dates (parse_datetime : string -> parsed) (df : DataFrame)
  : Prop :=
  datetime64 (coerce parse_datetime df).

(** A LOC cell that is a number is one both int64 and float64 hold and add
    exactly. *)
Definition small (c : cell) : Prop :=
  match c with
  | Num z => Z.abs z < 2 ^ 52
  | _ => True
  end.

Definition loc_small (df : DataFrame) : Prop :=
  forall r, In r df ->
    small (loc_added r) /\ small (loc_deleted r) /\ small (loc_modified r).

End Spec.

Import Spec.

(** *** What the scorer computes on a converted column *)

(** The greatest valid date, as [max] finds it. *)
Definition fold_max (m : Z) (l : list Z) : Z := fold_left Z.max l m.

Definition latest_of (df : DataFrame) : option Z :=
  match stamps df with
  | [] => None
  | t :: l => Some (fold_max t l)
  end.

(** The mask [df["date"] >= cutoff_date] on a converted column. *)
Definition recent_mask (cutoff : option Z) (r : ChurnRecord) : bool :=
  match cutoff with
  | None => false
  | Some c => at_or_after c r
  end.

Definition cutoff_of (df : DataFrame) : result (option Z) :=
  match latest_of df with
  | Some m => minus_days90 m
  | None => Ok None
  end.

(** The rows [max] does not skip. *)
Definition valid_rows (df : DataFrame) : DataFrame :=
  filter (fun r => dnotna (date r)) df.


(** No LOC cell of the frame is a text. *)
Definition no_text_loc (df : DataFrame) : Prop :=
  existsb is_str (col loc_added df) = false /\
  existsb is_str (col loc_deleted df) = false /\
  existsb is_str (col loc_modified df) = false.

(** What the battery computes once line 24 has converted the dates: [df]
    is the loaded frame, [df'] the frame after the assignment. *)
Definition checks_on (today : Z) (df df' : DataFrame) : result IQCheckResult :=
  rbind (dates_valid today df') (fun b2 =>
  rbind (non_negative_LOC df') (fun b4 =>
  rbind (LOC_consistency df') (fun b5 =>
  rbind (reasonable_LOC_bounds df') (fun b6 =>
    Ok [ ("missing_values", missing_values df);
         ("valid_dates", b2);
         ("no_duplicates", no_duplicates df');
         ("non_negative_LOC", b4);
         ("LOC_consistency", b5);
         ("reasonable_LOC_bounds", b6);
         ("valid_commit_hash", valid_commit_hash df');
         ("author_validity", author_validity df');
         ("module_field_presence", module_field_presence df');
         ("chronological_order", chronological_order df') ])))).

(** The two rows agree on every column but [date]. *)
Definition same_but_date (r r' : ChurnRecord) : Prop :=
  commit_hash r' = commit_hash r /\ author r' = author r /\
  file_path r' = file_path r /\ module r' = module r /\
  loc_added r' = loc_added r /\ loc_deleted r' = loc_deleted r /\
  loc_modified r' = loc_modified r.

(* ================================================================= *)
(** ** Sample data *)

Module Examples.

(** 2025-01-01, the clock of the examples. *)
Definition today0 : Z := 1735689600 * 1000000000.

(** A row as the extractor writes it, with the given date cell. *)
Definition clean (d : dcell) : ChurnRecord :=
  mkRecord (Str "a1b2c3d4") (Str "Ada") d (Str "src/main.py") (Str "src")
           (Num 3) (Num 2) (Num 5).

(** Midnight of the [n]-th day after the epoch. *)
Definition day (n : Z) : dcell := Stamp (Some (n * IsoDate.ns_per_day)).

(** Converted frames. *)
Definition three_dated : DataFrame :=
  [clean (day 0); clean (day 100); clean NaT].

Definition span90 : DataFrame := [clean (day 0); clean (day 90)].

Definition newer : ChurnRecord := clean (day 91).

Definition older : ChurnRecord := clean (day 50).

(** Freshly loaded frames. *)
Definition one_row : DataFrame := [clean (Raw (Str "2024-01-15"))].

Definition one_bad_date : DataFrame := [clean (Raw (Str "not-a-date"))].

Definition two_bad_dates : DataFrame :=
  [clean (Raw (Str "not-a-date")); clean (Raw (Str "2024-13-45"))].

Definition text_loc : DataFrame :=
  [mkRecord (Str "a1b2c3d4") (Str "Ada") (Raw (Str "2024-01-15"))
            (Str "src/main.py") (Str "src") (Str "abc") (Num 2) (Num 5)].

(** The scenarios of the specification. *)
Definition twice : DataFrame :=
  [clean (Raw (Str "2024-01-15")); clean (Raw (Str "2024-01-15"))].

Definition off_by_one : DataFrame :=
  [mkRecord (Str "a1b2c3d4") (Str "Ada") (Raw (Str "2024-01-15"))
            (Str "src/main.py") (Str "src") (Num 3) (Num 2) (Num 6)].

Definition short_hash : DataFrame :=
  [mkRecord (Str "abcd123") (Str "Ada") (Raw (Str "2024-01-15"))
            (Str "src/main.py") (Str "src") (Num 3) (Num 2) (Num 5)].

Definition same_day : DataFrame :=
  [clean (Raw (Str "2024-12-22")); clean (Raw (Str "2024-12-22"));
   clean (Raw (Str "2024-12-22"))].

(** The battery with the sample parser and clock. *)
Definition battery : M IQCheckResult :=
  free_of_error_checks IsoDate.parse today0.

(** A history of three commits; git fails on the second. *)
Definition commit1 : Extractor.Commit :=
  Extractor.mkCommit "a1b2c3d4e5f60718" (Some "Ada") "2024-01-15"
    (Ok [("src/main.py", Extractor.mkStats (Some 3) (Some 2));
         ("README.md", Extractor.mkStats (Some 1) None)]).

Definition commit2 : Extractor.Commit :=
  Extractor.mkCommit "0badc0de0badc0de" None "2024-01-14"
    (Raise GitCommandError).

Definition commit3 : Extractor.Commit :=
  Extractor.mkCommit "feedbeef00112233" (Some "Bob") "2024-01-13"
    (Ok [("docs/a.md", Extractor.mkStats None (Some 4))]).

End Examples.

(* ================================================================= *)
(** ** iq_system.py: reporting and the script entry *)

Module Report.

(** What a [print] call says; the wording and the emoji of the message are
    left out, the values it interpolates are kept. *)
Inductive line : Type :=
| NotFound
| Loaded (records : nat)
| SummaryTitle
| CheckLine (check : string) (passed : bool)
| OverallLine (passed_count total_checks : nat)
| TimelinessLine (score : Q)
| StaleWarning
| Satisfactory
| Reputability.

(** The bar chart saved as [iq_check_results.png]: the labels on the x
    axis and the bar heights. *)
Record chart : Type := mkChart {
  labels : list string;
  heights : list nat
}.

(** [sum(results.values())]: a true counts one. *)
Definition passed_count (results : IQCheckResult) : nat :=
  list_sum (map (fun kv : string * bool => if snd kv then 1%nat else 0%nat) results).

(** [summarize_check_results(results)] *)
Definition summarize_check_results (results : IQCheckResult) : list line :=
  [SummaryTitle]
  ++ map (fun kv : string * bool => CheckLine (fst kv) (snd kv)) results
  ++ [OverallLine (passed_count results) (List.length results)].

(** [timeliness_score < 0.5] *)
Definition below_half (score : Q) : bool := negb (Qle_bool (1 # 2) score).

(** [visualize_iq_results(check_results, timeliness_score)]: the chart it
    saves and the lines it prints. *)
Definition visualize_iq_results (check_results : IQCheckResult) (score : Q)
  : chart * list line :=
  ({| labels := map (fun kv : string * bool => fst kv) check_results;
      heights := map (fun kv : string * bool => if snd kv then 1%nat else 0%nat)
                     check_results |},
   [TimelinessLine score;
    if below_half score then StaleWarning else Satisfactory]).

(** [manual_check_reputability()] only prints its fixed note. *)
Definition manual_check_reputability : list line := [Reputability].

(** The outcome of a run: how it ended, what it printed, and the chart it
    saved, if any. *)
Record outcome : Type := mkOutcome {
  ended : result unit;
  printed : list line;
  saved : option chart
}.

(** [main()]: [csv] is the content of [churn_data.csv] as [pd.read_csv]
    loads it, [None] when the file does not exist. *)
Definition main (parse_datetime : string -> parsed) (today : Z)
                (csv : option DataFrame) : outcome :=
  match csv with
  | None => mkOutcome (Ok tt) [NotFound] None
  | Some df =>
      let out := [Loaded (List.length df)] in
      match free_of_error_checks parse_datetime today df with
      | (Raise e, _) => mkOutcome (Raise e) out None
      | (Ok results, df) =>
          let out := out ++ summarize_check_results results in
          match compute_timeliness df with
          | (Raise e, _) => mkOutcome (Raise e) out None
          | (Ok timeliness, _) =>
              let (fig, lines) := visualize_iq_results results timeliness in
              mkOutcome (Ok tt)
                        (out ++ lines ++ manual_check_reputability)
                        (Some fig)
          end
      end
  end.

End Report.

(* ================================================================= *)
(** ** code_churn_extractor.py: the whole of [extract_code_churn] *)

Module ExtractorRun.

Import Extractor.

(** How a run can end: the path check, or an exception that nothing
    catches. *)
Inductive failure : Type :=
| FileNotFoundError (repo_path : string)
| Uncaught (e : exn).

(** The messages printed. *)
Inductive message : Type :=
| Scanning (repo_path : string)
| Found (total_commits : nat)
| Skipping (short_hash : string) (e : exn)
| Processed (idx total_commits : nat)
| Complete (records : nat)
| Saved (output_csv : string).

(** The header row written first. *)
Definition header : list string :=
  ["commit_hash"; "author"; "date"; "file_path"; "module";
   "loc_added"; "loc_deleted"; "loc_modified"].

(** The loop over [enumerate(commits, start=1)], with what it prints. *)
Fixpoint loop (idx total_commits : nat) (commits : list Commit)
              (churn_records : list Row) (out : list message)
  : list Row * list message :=
  match commits with
  | [] => (churn_records, out)
  | commit :: rest =>
      let (r, churn_records) := try_body commit churn_records in
      let out := match r with
                 | Ok _ => out
                 | Raise e => out ++ [Skipping (prefix 8 (hexsha commit)) e]
                 end in
      let out := if Nat.eqb (idx mod 50) 0
                 then out ++ [Processed idx total_commits]
                 else out in
      loop (S idx) total_commits rest churn_records out
  end.

(** The file written: its header row and its data rows. *)
Definition csv_file : Type := (list string * list Row)%type.

(** [extract_code_churn(repo_path, output_csv)].  [path_exists] is
    [os.path.exists(repo_path)]; [history] is what
    [list(git.Repo(repo_path).iter_commits())] gives, which may raise.
    The result is how the call ended (the returned path when it returned),
    what it printed and the file it wrote, if any; opening and writing
    the output file are taken to succeed. *)
Definition extract_code_churn
  (repo_path output_csv : string) (path_exists : bool)
  (history : result (list Commit))
  : (failure + string) * list message * option csv_file :=
  if negb path_exists then (inl (FileNotFoundError repo_path), [], None)
  else
    let out := [Scanning repo_path] in
    match history with
    | Raise e => (inl (Uncaught e), out, None)
    | Ok commits =>
        let total_commits := List.length commits in
        let out := out ++ [Found total_commits] in
        let (churn_records, out) := loop 1 total_commits commits [] out in
        let out := out ++ [Complete (List.length churn_records)] in
        (inr output_csv, out ++ [Saved output_csv],
         Some (header, churn_records))
    end.

End ExtractorRun.

(* ================================================================= *)
(** ** Further statements about datasets *)

Module Spec2.

(** No field of the row is null. *)
Definition complete (r : ChurnRecord) : Prop :=
  isnull (commit_hash r) = false /\ isnull (author r) = false /\
  disnull (date r) = false /\ isnull (file_path r) = false /\
  isnull (module r) = false /\ isnull (loc_added r) = false /\
  isnull (loc_deleted r) = false /\ isnull (loc_modified r) = false.

(** The three LOC cells of the row are numbers, none negative. *)
Definition loc_non_negative (r : ChurnRecord) : Prop :=
  exists a d m, loc_added r = Num a /\ loc_deleted r = Num d /\
                loc_modified r = Num m /\ 0 <= a /\ 0 <= d /\ 0 <= m.

(** [loc_modified] is a number below 10000. *)
Definition loc_bounded (r : ChurnRecord) : Prop :=
  exists m, loc_modified r = Num m /\ m < 10000.

(** The row's date is a valid date, not later than [today]. *)
Definition on_time (today : Z) (r : ChurnRecord) : bool :=
  match date r with
  | Stamp (Some x) => x <=? today
  | _ => false
  end.



(** The frame holds the extractor's records verbatim: texts as texts,
    counts as numbers. *)
Definition holds (rec : Extractor.Row) (r : ChurnRecord) : Prop :=
  commit_hash r = Str (Extractor.commit_hash rec) /\
  author r = Str (Extractor.author rec) /\
  date r = Raw (Str (Extractor.date rec)) /\
  file_path r = Str (Extractor.file_path rec) /\
  module r = Str (Extractor.module rec) /\
  loc_added r = Num (Extractor.loc_added rec) /\
  loc_deleted r = Num (Extractor.loc_deleted rec) /\
  loc_modified r = Num (Extractor.loc_modified rec).

(** Git reported no negative count for any file of the commit, and the
    commit's hash has at least eight characters. *)
Definition well_formed (c : Extractor.Commit) : Prop :=
  (8 <= String.length (Extractor.hexsha c))%nat /\
  forall stats, Extractor.stats_files c = Ok stats ->
    forall kv, In kv stats ->
      0 <= Extractor.get0 (Extractor.insertions (snd kv)) /\
      0 <= Extractor.get0 (Extractor.deletions (snd kv)).



(** The warning a commit causes, if its statistics cannot be read. *)
Definition warning_of (c : Extractor.Commit) : list (string * exn) :=
  match Extractor.stats_files c with
  | Raise e => [(prefix 8 (Extractor.hexsha c), e)]
  | Ok _ => []
  end.

End Spec2.

Import Spec2.

(* ================================================================= *)
(** ** More sample data *)

Module Samples.


(** The two records of [Examples.commit1], as loaded from the CSV file. *)
Definition loaded_commit1 : DataFrame :=
  [ mkRecord (Str "a1b2c3d4") (Str "Ada") (Raw (Str "2024-01-15"))
             (Str "src/main.py") (Str "src") (Num 3) (Num 2) (Num 5);
    mkRecord (Str "a1b2c3d4") (Str "Ada") (Raw (Str "2024-01-15"))
             (Str "README.md") (Str "root") (Num 1) (Num 0) (Num 1) ].

(** 2024-12-22, the date of [Examples.same_day]. *)
Definition dec22 : Z := 20079 * IsoDate.ns_per_day.

(** One record dated 1677-09-22, the first whole day a nanosecond
    timestamp holds. *)
Definition ancient : DataFrame := [Examples.clean (Examples.day (-106751))].

(** The same day as the file gives it when its [date] column holds
    integers, which [pd.to_datetime] reads as nanoseconds. *)
Definition ancient_loaded : DataFrame :=
  [Examples.clean (Raw (Num (-106751 * IsoDate.ns_per_day)))].

(** One record whose date, given in nanoseconds, lies exactly 90 days
    after the least int64. *)
Definition edge_loaded : DataFrame :=
  [Examples.clean (Raw (Num (int64_min + days90)))].

(** A commit with counts of 2^62 lines, and its record as loaded. *)
Definition huge : Extractor.Commit :=
  Extractor.mkCommit "a1b2c3d4e5f60718" (Some "Ada") "2024-01-15"
    (Ok [("big.bin", Extractor.mkStats (Some (2 ^ 62)) (Some (2 ^ 62)))]).

Definition huge_loaded : DataFrame :=
  [mkRecord (Str "a1b2c3d4") (Str "Ada") (Raw (Str "2024-01-15"))
            (Str "big.bin") (Str "root")
            (Num (2 ^ 62)) (Num (2 ^ 62)) (Num (2 ^ 63))].

(** A row whose int64 sum wraps around: 2^62 + 2^62 against -2^63. *)
Definition wrapping : DataFrame :=
  [mkRecord (Str "a1b2c3d4") (Str "Ada") (Raw (Str "2024-01-15"))
            (Str "src/main.py") (Str "src")
            (Num (2 ^ 62)) (Num (2 ^ 62)) (Num (- 2 ^ 63))].

(** Dates written with their UTC offset, as [git log --date=iso] does. *)
Definition with_offset : DataFrame :=
  [Examples.clean (Raw (Str "2024-01-15 10:00:00+02:00"));
   Examples.clean (Raw (Str "2024-01-16 09:30:00+02:00"))].

Definition mixed_offsets : DataFrame :=
  [Examples.clean (Raw (Str "2024-01-15 10:00:00+02:00"));
   Examples.clean (Raw (Str "2024-01-16 09:30:00-05:00"))].




End Samples.

(* ================================================================= *)
(** ** Auxiliary facts *)

Section TimelinessFacts.

Lemma Zpos_of_nat_S (n : nat) : Z.pos (Pos.of_nat (S n)) = Z.of_nat (S n).
Proof.
  rewrite <- (Nat2Pos.id (S n)) at 2 by discriminate.
  now rewrite positive_nat_Z.
Qed.

Lemma select_map (p : ChurnRecord -> bool) (df : DataFrame) :
  select (map p df) df = filter p df.
Proof.
  induction df as [|r df IH]; simpl; [reflexivity|].
  destruct (p r); now rewrite IH.
Qed.

Lemma fold_max_ge (l : list Z) (m : Z) : m <= fold_max m l.
Proof.
  revert m; induction l as [|x l IH]; intro m; unfold fold_max in *; simpl.
  - lia.
  - specialize (IH (Z.max m x)). lia.
Qed.

Lemma fold_max_upper (l : list Z) (m t : Z) :
  In t l -> t <= fold_max m l.
Proof.
  revert m; induction l as [|x l IH]; intros m Hin; [destruct Hin|].
  unfold fold_max; simpl. destruct Hin as [->|Hin].
  - pose proof (fold_max_ge l (Z.max m t)) as H. unfold fold_max in H. lia.
  - apply IH, Hin.
Qed.

Lemma fold_max_in (l : list Z) (m : Z) :
  fold_max m l = m \/ In (fold_max m l) l.
Proof.
  revert m; induction l as [|x l IH]; intro m; unfold fold_max; simpl.
  - now left.
  - destruct (IH (Z.max m x)) as [H|H]; unfold fold_max in H.
    + rewrite H. destruct (Z.max_spec m x) as [[_ ->]|[_ ->]]; auto.
    + right; right; exact H.
Qed.

Lemma latest_of_is_latest (df : DataFrame) (m : Z) :
  latest_of df = Some m <-> is_latest m df.
Proof.
  unfold latest_of, is_latest. destruct (stamps df) as [|t l].
  - split; [discriminate|]. intros [[] _].
  - split.
    + intros [= <-]. split.
      * destruct (fold_max_in l t) as [->|H]; [now left|now right].
      * intros u [<-|Hu]; [apply fold_max_ge|now apply fold_max_upper].
    + intros [Hin Hub]. f_equal.
      assert (fold_max t l <= m).
      { apply Hub. destruct (fold_max_in l t) as [->|H]; [now left|now right]. }
      assert (m <= fold_max t l).
      { destruct Hin as [<-|Hin]; [apply fold_max_ge|now apply fold_max_upper]. }
      lia.
Qed.

(** [max] over a converted column. *)
Lemma max_from_stamps (l : DataFrame) (m : Z) :
  all_valid_dates l ->
  max_from (Stamp (Some m)) (col date l)
  = Ok (Stamp (Some (fold_max m (stamps l)))).
Proof.
  revert m; induction l as [|r l IH]; intros m Hv; [reflexivity|].
  destruct (Hv r (or_introl Logic.eq_refl)) as [t Ht].
  assert (Hl : all_valid_dates l) by (intros x Hx; apply Hv; now right).
  unfold stamps; simpl. rewrite Ht. simpl.
  fold (stamps l). unfold fold_max; simpl.
  destruct (t <=? m) eqn:E.
  - rewrite (IH m Hl). unfold fold_max.
    apply Z.leb_le in E. now rewrite Z.max_l by lia.
  - rewrite (IH t Hl). unfold fold_max.
    apply Z.leb_gt in E. now rewrite Z.max_r by lia.
Qed.

End TimelinessFacts.

Section ScoreFacts.

Lemma datetime64_tail (r : ChurnRecord) (df : DataFrame) :
  datetime64 (r :: df) -> datetime64 df.
Proof. intros H x Hx. apply H. now right. Qed.

Lemma filter_dnotna_col (df : DataFrame) :
  filter dnotna (col date df) = col date (valid_rows df).
Proof.
  induction df as [|r df IH]; simpl; [reflexivity|].
  destruct (dnotna (date r)); simpl; now rewrite IH.
Qed.

Lemma valid_rows_valid (df : DataFrame) :
  datetime64 df -> all_valid_dates (valid_rows df).
Proof.
  intros Hd r Hr. apply filter_In in Hr as [Hin Hn].
  destruct (Hd r Hin) as [[t|] Ht]; rewrite Ht in *; [now exists t|discriminate].
Qed.

Lemma stamps_valid_rows (df : DataFrame) :
  datetime64 df -> stamps (valid_rows df) = stamps df.
Proof.
  induction df as [|r df IH]; intro Hd; [reflexivity|].
  specialize (IH (datetime64_tail _ _ Hd)).
  destruct (Hd r (or_introl Logic.eq_refl)) as [[t|] Ht];
    unfold stamps, valid_rows in *; simpl; rewrite Ht; simpl.
  - rewrite Ht. simpl. now rewrite IH.
  - exact IH.
Qed.

Lemma datetime64_no_text (df : DataFrame) :
  datetime64 df -> existsb is_text (col date df) = false.
Proof.
  induction df as [|r df IH]; intro Hd; [reflexivity|].
  destruct (Hd r (or_introl Logic.eq_refl)) as [t Ht].
  simpl. rewrite Ht. simpl. apply IH. exact (datetime64_tail _ _ Hd).
Qed.

Lemma series_max_datetime64 (df : DataFrame) :
  datetime64 df -> series_max (col date df) = Ok (Stamp (latest_of df)).
Proof.
  intro Hd. unfold series_max, latest_of.
  rewrite (datetime64_no_text df Hd). cbn [andb].
  rewrite filter_dnotna_col, <- (stamps_valid_rows df Hd).
  pose proof (valid_rows_valid df Hd) as Hv.
  destruct (valid_rows df) as [|r l]; [reflexivity|].
  destruct (Hv r (or_introl Logic.eq_refl)) as [t Ht].
  assert (Hl : all_valid_dates l) by (intros x Hx; apply Hv; now right).
  unfold stamps; simpl. rewrite Ht; simpl. fold (stamps l).
  apply max_from_stamps, Hl.
Qed.

Lemma datetime64_no_raw (df : DataFrame) :
  datetime64 df -> existsb is_raw (col date df) = false.
Proof.
  induction df as [|r df IH]; intro Hd; [reflexivity|].
  destruct (Hd r (or_introl Logic.eq_refl)) as [t Ht].
  simpl. rewrite Ht. simpl. apply IH. exact (datetime64_tail _ _ Hd).
Qed.

Lemma mask_datetime64 (cutoff : option Z) (df : DataFrame) :
  datetime64 df ->
  series_ge_stamp cutoff (col date df) = Ok (map (recent_mask cutoff) df).
Proof.
  intro Hd. destruct cutoff as [c|]; unfold series_ge_stamp.
  - induction df as [|r df IH]; [reflexivity|].
    specialize (IH (datetime64_tail _ _ Hd)).
    destruct (Hd r (or_introl Logic.eq_refl)) as [t Ht].
    simpl. rewrite IH. unfold ge_instant, at_or_after. rewrite Ht.
    destruct t as [t|]; reflexivity.
  - rewrite (datetime64_no_raw df Hd). simpl. unfold col.
    now rewrite map_map.
Qed.

Lemma minus_days90_in_range (m : Z) :
  cutoff_in_range m -> minus_days90 m = Ok (Some (m - days90)).
Proof.
  unfold cutoff_in_range, minus_days90. intro H. cbv zeta.
  destruct (m - days90 <? int64_min) eqn:E1; [apply Z.ltb_lt in E1; lia|].
  destruct (m - days90 =? int64_min) eqn:E2; [apply Z.eqb_eq in E2; lia|].
  reflexivity.
Qed.

(** The score of a frame whose dates are converted. *)
Lemma compute_timeliness_datetime64 (df : DataFrame) :
  datetime64 df ->
  compute_timeliness df
  = (rbind (cutoff_of df) (fun cutoff =>
       truediv (List.length (filter (recent_mask cutoff) df))
               (List.length df)), df).
Proof.
  intro Hd.
  unfold compute_timeliness, bind, try_read, lift, ret.
  rewrite (series_max_datetime64 df Hd).
  unfold cutoff_of.
  assert (Hs : sub_days90 (Stamp (latest_of df))
               = match latest_of df with
                 | Some m => minus_days90 m
                 | None => Ok None
                 end)
    by (destruct (latest_of df); reflexivity).
  rewrite Hs.
  destruct (match latest_of df with
            | Some m => minus_days90 m
            | None => Ok None
            end) as [cutoff|e]; [|reflexivity].
  rewrite (mask_datetime64 _ df Hd). simpl. rewrite select_map.
  destruct (truediv _ _); reflexivity.
Qed.

Lemma truediv_bounds (a b : nat) (q : Q) :
  (a <= b)%nat -> truediv a b = Ok q -> (0 <= q /\ q <= 1)%Q.
Proof.
  intros Hab. destruct b as [|b]; [discriminate|].
  intro H. change (Ok (Z.of_nat a # Pos.of_nat (S b)) = Ok q) in H.
  injection H as <-. pose proof (Zpos_of_nat_S b) as Hb.
  change (Pos.of_nat (S b))
    with (match b with 0%nat => 1%positive | S _ => Pos.succ (Pos.of_nat b) end)
    in Hb.
  unfold Qle; cbn [Qnum Qden]. split; lia.
Qed.

Lemma filter_length_le' (p : ChurnRecord -> bool) (df : DataFrame) :
  (List.length (filter p df) <= List.length df)%nat.
Proof.
  induction df as [|r df IH]; simpl; [lia|]. destruct (p r); simpl; lia.
Qed.

Lemma filter_recent_none (df : DataFrame) : filter (recent_mask None) df = [].
Proof. induction df as [|r df IH]; simpl; auto. Qed.

End ScoreFacts.

(* ================================================================= *)
(** ** The timeliness scorer *)

(** C1, as the code has it.  For a non-empty dataset whose dates are
    converted to timezone-naive datetimes (as the battery leaves the dates
    the extractor writes) and whose maximum date [m] has [m - 90 days] in
    the range of a timestamp, the scorer returns, without raising and
    without touching the frame, a value in [0, 1]: it is
    (count of records with date >= m - 90 days) / (record count), and when
    no date is valid it is 0 over the record count. *)
Theorem compute_timeliness_contract (df : DataFrame) :
  df <> [] -> datetime64 df ->
  (forall m, is_latest m df -> cutoff_in_range m) ->
  exists q : Q,
    compute_timeliness df = (Ok q, df) /\
    (0 <= q /\ q <= 1)%Q /\
    (forall m, is_latest m df ->
       q = Z.of_nat (recent_count m df) # Pos.of_nat (List.length df)) /\
    (stamps df = [] -> q = 0 # Pos.of_nat (List.length df)).
Proof.
  intros Hne Hd Hc. rewrite (compute_timeliness_datetime64 df Hd).
  destruct df as [|r df]; [congruence|].
  set (d := r :: df) in *.
  assert (Hcut : exists c, cutoff_of d = Ok c /\
                   (forall m, is_latest m d -> c = Some (m - days90)) /\
                   (stamps d = [] -> c = None)).
  { unfold cutoff_of. destruct (latest_of d) as [m|] eqn:E.
    - apply latest_of_is_latest in E.
      exists (Some (m - days90)). split; [|split].
      + apply minus_days90_in_range, Hc, E.
      + intros m' Hm'. apply latest_of_is_latest in E, Hm'. congruence.
      + intro He. destruct E as [Hin _]. rewrite He in Hin. destruct Hin.
    - exists None. split; [reflexivity|]. split; [|reflexivity].
      intros m' Hm'. apply latest_of_is_latest in Hm'. congruence. }
  destruct Hcut as (c & -> & Hsome & Hnone). unfold rbind.
  assert (Hdiv : truediv (List.length (filter (recent_mask c) d))
                         (List.length d)
                 = Ok (Z.of_nat (List.length (filter (recent_mask c) d))
                       # Pos.of_nat (List.length d))) by reflexivity.
  eexists; split; [rewrite Hdiv; reflexivity|]. split; [|split].
  - eapply truediv_bounds; [apply filter_length_le'|exact Hdiv].
  - intros m Hm. rewrite (Hsome m Hm). reflexivity.
  - intro He. rewrite (Hnone He). now rewrite filter_recent_none.
Qed.

(** C1 as stated fails twice over: on a freshly loaded dataset, whose dates
    are texts, the scorer raises TypeError; on a converted dataset whose one
    date is 1677-09-22 the subtraction of 90 days leaves the range of a
    timestamp and the scorer raises OutOfBoundsDatetime. *)
Lemma timeliness_contract_fails :
  fst (compute_timeliness Examples.one_row) = Raise TypeError /\
  fst (compute_timeliness Samples.ancient) = Raise OutOfBoundsDatetime.
Proof. split; reflexivity. Qed.

Section MoreScoreFacts.

Lemma Zpos_of_nat (n : nat) : n <> 0%nat -> Z.pos (Pos.of_nat n) = Z.of_nat n.
Proof. destruct n; [congruence|]. intros _. apply Zpos_of_nat_S. Qed.

Lemma all_valid_datetime64 (df : DataFrame) :
  all_valid_dates df -> datetime64 df.
Proof. intros H r Hr. destruct (H r Hr) as [t Ht]. now exists (Some t). Qed.

Lemma stamps_app (a b : DataFrame) : stamps (a ++ b) = stamps a ++ stamps b.
Proof. unfold stamps. now rewrite flat_map_app. Qed.

Lemma in_stamps (df : DataFrame) (t : Z) :
  In t (stamps df) <-> exists r, In r df /\ date r = Stamp (Some t).
Proof.
  unfold stamps. rewrite in_flat_map. split.
  - intros (r & Hr & Ht). exists r. split; [exact Hr|].
    destruct (date r) as [c|[u|]|tz u]; simpl in Ht; try contradiction.
    destruct Ht as [->|[]]. reflexivity.
  - intros (r & Hr & Ht). exists r. split; [exact Hr|]. rewrite Ht. now left.
Qed.

Lemma filter_hit (p : ChurnRecord -> bool) (df : DataFrame) (r : ChurnRecord) :
  In r df -> p r = true -> (1 <= List.length (filter p df))%nat.
Proof.
  intros Hin Hp.
  assert (H : In r (filter p df)) by (apply filter_In; auto).
  destruct (filter p df); [destruct H|simpl; lia].
Qed.

Lemma days90_pos : 0 < days90.
Proof. reflexivity. Qed.

(** The score of a non-empty converted frame whose latest date is [m]. *)
Lemma score_with_latest (df : DataFrame) (m : Z) :
  df <> [] -> datetime64 df -> is_latest m df -> cutoff_in_range m ->
  compute_timeliness df
  = (Ok (Z.of_nat (recent_count m df) # Pos.of_nat (List.length df)), df).
Proof.
  intros Hne Hd Hm Hc. rewrite (compute_timeliness_datetime64 df Hd).
  apply latest_of_is_latest in Hm. unfold cutoff_of, recent_count.
  rewrite Hm, (minus_days90_in_range m Hc).
  destruct df; [congruence|reflexivity].
Qed.

(** Without a valid date the score is 0. *)
Lemma score_without_latest (df : DataFrame) :
  df <> [] -> datetime64 df -> latest_of df = None ->
  compute_timeliness df = (Ok (0 # Pos.of_nat (List.length df)), df).
Proof.
  intros Hne Hd Hm. rewrite (compute_timeliness_datetime64 df Hd).
  unfold cutoff_of. rewrite Hm. simpl rbind. rewrite filter_recent_none.
  destruct df; [congruence|reflexivity].
Qed.


Lemma recent_count_le (m : Z) (df : DataFrame) :
  (recent_count m df <= List.length df)%nat.
Proof. apply filter_length_le'. Qed.

Lemma recent_count_snoc (m : Z) (df : DataFrame) (r : ChurnRecord) :
  recent_count m (df ++ [r])
  = (recent_count m df + (if at_or_after (m - days90) r then 1 else 0))%nat.
Proof.
  unfold recent_count. rewrite filter_app, length_app. simpl.
  destruct (at_or_after (m - days90) r); reflexivity.
Qed.

Lemma is_latest_snoc (m d : Z) (df : DataFrame) (r : ChurnRecord) :
  is_latest m df -> date r = Stamp (Some d) -> d <= m ->
  is_latest m (df ++ [r]).
Proof.
  intros [Hin Hub] Hr Hd. unfold is_latest. rewrite stamps_app.
  assert (Hs : stamps [r] = [d]) by (unfold stamps; simpl; now rewrite Hr).
  rewrite Hs. split.
  - apply in_or_app. now left.
  - intros t Ht. apply in_app_or in Ht as [Ht|[<-|[]]]; auto.
Qed.

Lemma datetime64_snoc (df : DataFrame) (r : ChurnRecord) (t : option Z) :
  datetime64 df -> date r = Stamp t -> datetime64 (df ++ [r]).
Proof.
  intros Hd Hr x Hx. apply in_app_or in Hx as [Hx|[<-|[]]]; [auto|now exists t].
Qed.

(** A fraction [k/n] against the fraction after one more record. *)
Lemma frac_snoc_hit (k n : nat) :
  (k <= n)%nat -> n <> 0%nat ->
  (Z.of_nat k # Pos.of_nat n <= Z.of_nat (k + 1) # Pos.of_nat (S n))%Q.
Proof.
  intros Hk Hn. unfold Qle; cbn [Qnum Qden].
  rewrite (Zpos_of_nat n Hn), (Zpos_of_nat (S n)) by discriminate. nia.
Qed.

Lemma frac_snoc_miss (k n : nat) :
  n <> 0%nat ->
  (Z.of_nat (k + 0) # Pos.of_nat (S n) <= Z.of_nat k # Pos.of_nat n)%Q.
Proof.
  intros Hn. unfold Qle; cbn [Qnum Qden].
  rewrite (Zpos_of_nat n Hn), (Zpos_of_nat (S n)) by discriminate. nia.
Qed.

End MoreScoreFacts.

(** C10, as the code has it.  For a non-empty dataset whose dates are all
    valid and whose maximum date [m] has [m - 90 days] in the range of a
    timestamp, the score is strictly positive: the record holding the
    maximum date is counted. *)
Theorem timeliness_positive (df : DataFrame) :
  df <> [] -> all_valid_dates df ->
  (forall m, is_latest m df -> cutoff_in_range m) ->
  exists q : Q, compute_timeliness df = (Ok q, df) /\ (0 < q)%Q.
Proof.
  intros Hne Hv Hc.
  pose proof (all_valid_datetime64 df Hv) as Hd.
  assert (Hm : exists m, is_latest m df).
  { destruct (latest_of df) as [m|] eqn:E.
    - exists m. now apply latest_of_is_latest.
    - unfold latest_of in E. destruct (stamps df) eqn:Es; [|discriminate].
      destruct df as [|r df]; [congruence|].
      destruct (Hv r (or_introl Logic.eq_refl)) as [t Ht].
      unfold stamps in Es; simpl in Es. rewrite Ht in Es. discriminate. }
  destruct Hm as [m Hm].
  rewrite (score_with_latest df m Hne Hd Hm (Hc m Hm)).
  eexists; split; [reflexivity|].
  destruct Hm as [Hin _]. apply in_stamps in Hin as (r & Hr & Ht).
  assert (Hp : at_or_after (m - days90) r = true).
  { unfold at_or_after. rewrite Ht. apply Z.leb_le.
    pose proof days90_pos. lia. }
  pose proof (filter_hit _ df r Hr Hp) as Hk. fold (recent_count m df) in Hk.
  unfold Qlt; cbn [Qnum Qden]. lia.
Qed.

(** C10 as stated fails: the one date of the dataset is valid (it is
    what the battery leaves of a file whose date is that day, counted in
    nanoseconds), and the scorer raises instead of returning a positive
    score. *)
Lemma timeliness_positive_fails :
  snd (free_of_error_checks IsoDate.parse Examples.today0
         Samples.ancient_loaded) = Samples.ancient /\
  Samples.ancient <> [] /\ all_valid_dates Samples.ancient /\
  fst (compute_timeliness Samples.ancient) = Raise OutOfBoundsDatetime.
Proof.
  split; [reflexivity|]. split; [discriminate|]. split; [|reflexivity].
  intros r [<-|[]]. eexists. reflexivity.
Qed.

(** C4, as the code has it.  For a non-empty dataset with maximum date [m]
    such that [m - 90 days] is in the range of a timestamp: appending a
    record dated between [m - 90 days] and [m] never decreases the score,
    and appending a record dated before [m - 90 days] never increases
    it. *)
Theorem timeliness_monotonic
  (df : DataFrame) (r : ChurnRecord) (m d : Z) :
  df <> [] -> datetime64 df -> is_latest m df -> cutoff_in_range m ->
  date r = Stamp (Some d) ->
  exists q q' : Q,
    compute_timeliness df = (Ok q, df) /\
    compute_timeliness (df ++ [r]) = (Ok q', df ++ [r]) /\
    (m - days90 <= d <= m -> (q <= q')%Q) /\
    (d < m - days90 -> (q' <= q)%Q).
Proof.
  intros Hne Hd Hm Hc Hr.
  rewrite (score_with_latest df m Hne Hd Hm Hc).
  assert (Hlen : List.length df <> 0%nat) by (destruct df; [congruence|discriminate]).
  destruct (Z_le_gt_dec d m) as [Hle|Hgt].
  - assert (Hne' : df ++ [r] <> []) by (destruct df; discriminate).
    rewrite (score_with_latest (df ++ [r]) m Hne'
               (datetime64_snoc df r _ Hd Hr) (is_latest_snoc m d df r Hm Hr Hle)
               Hc).
    do 2 eexists. split; [reflexivity|]. split; [reflexivity|].
    rewrite recent_count_snoc, length_app. simpl List.length.
    replace (List.length df + 1)%nat with (S (List.length df)) by lia.
    unfold at_or_after. rewrite Hr. split; intro H.
    + assert (E : (m - days90 <=? d) = true) by (apply Z.leb_le; lia).
      rewrite E. apply frac_snoc_hit; [apply recent_count_le|exact Hlen].
    + assert (E : (m - days90 <=? d) = false) by (apply Z.leb_gt; lia).
      rewrite E. apply frac_snoc_miss; exact Hlen.
  - pose proof days90_pos.
    assert (Hne' : df ++ [r] <> []) by (destruct df; discriminate).
    assert (Hm' : is_latest d (df ++ [r])).
    { destruct Hm as [Hin Hub]. unfold is_latest. rewrite stamps_app.
      assert (Hs : stamps [r] = [d]) by (unfold stamps; simpl; now rewrite Hr).
      rewrite Hs. split.
      - apply in_or_app. right. now left.
      - intros t Ht. apply in_app_or in Ht as [Ht|[<-|[]]]; [|lia].
        specialize (Hub t Ht). lia. }
    assert (Hc' : cutoff_in_range d) by (unfold cutoff_in_range in *; lia).
    rewrite (score_with_latest (df ++ [r]) d Hne'
               (datetime64_snoc df r _ Hd Hr) Hm' Hc').
    do 2 eexists. split; [reflexivity|]. split; [reflexivity|].
    split; intro; lia.
Qed.

(** C3, as the code has it.  The scorer has no guard for a dataset of zero
    records: it raises ZeroDivisionError, and [main] lets it escape. *)
Theorem timeliness_empty_raises
  (parse_datetime : string -> parsed) (today : Z) :
  compute_timeliness [] = (Raise ZeroDivisionError, []) /\
  main parse_datetime today [] = (Raise ZeroDivisionError, []).
Proof. split; reflexivity. Qed.

(** C3 as stated fails: on the empty dataset no score is returned. *)
Lemma timeliness_empty_unguarded :
  ~ exists q : Q, fst (compute_timeliness []) = Ok q.
Proof. intros [q H]. discriminate H. Qed.

(* ================================================================= *)
(** ** The check battery *)

Section BatteryFacts.

Variable parse_datetime : string -> parsed.
Variable today : Z.

Lemma set_date_coerce (df : DataFrame) :
  set_date (map (to_datetime_cell parse_datetime) (col date df)) df
  = coerce parse_datetime df.
Proof.
  induction df as [|r df IH]; simpl; [reflexivity|]. now rewrite IH.
Qed.

Lemma col_date_coerce (df : DataFrame) :
  col date (coerce parse_datetime df)
  = map (to_datetime_cell parse_datetime) (col date df).
Proof. unfold col, coerce. now rewrite !map_map. Qed.

(** The conversion raises exactly when the converted dates do not share a
    timezone. *)
Lemma to_datetime_cases (df : DataFrame) :
  to_datetime parse_datetime (col date df)
  = if same_tz (col date (coerce parse_datetime df))
    then Ok (col date (coerce parse_datetime df))
    else Raise ValueError.
Proof. unfold to_datetime. now rewrite col_date_coerce. Qed.

(** Check 2, statement by statement. *)
Lemma valid_dates_run (df : DataFrame) :
  valid_dates parse_datetime today df
  = if same_tz (col date (coerce parse_datetime df))
    then (dates_valid today (coerce parse_datetime df),
          coerce parse_datetime df)
    else (Raise ValueError, df).
Proof.
  unfold valid_dates, bind, try_read, assign_date.
  rewrite to_datetime_cases.
  destruct (same_tz _); [|reflexivity].
  now rewrite col_date_coerce, set_date_coerce.
Qed.

(** The battery, statement by statement: when the conversion raises the
    frame is left as it was; otherwise the frame it leaves is the converted
    one whatever happens next, and only four of the checks can raise. *)
Lemma battery_run (df : DataFrame) :
  free_of_error_checks parse_datetime today df
  = if same_tz (col date (coerce parse_datetime df))
    then (checks_on today df (coerce parse_datetime df),
          coerce parse_datetime df)
    else (Raise ValueError, df).
Proof.
  unfold free_of_error_checks. unfold bind at 1. unfold read at 1.
  unfold bind at 1. rewrite valid_dates_run.
  destruct (same_tz _); [|reflexivity].
  unfold checks_on, bind, read, try_read, ret.
  destruct (dates_valid today _); [|reflexivity].
  destruct (non_negative_LOC _); [|reflexivity].
  destruct (LOC_consistency _); [|reflexivity].
  destruct (reasonable_LOC_bounds _); reflexivity.
Qed.

Lemma battery_run_ok (df : DataFrame) :
  same_tz (col date (coerce parse_datetime df)) = true ->
  free_of_error_checks parse_datetime today df
  = (checks_on today df (coerce parse_datetime df), coerce parse_datetime df).
Proof. intro H. now rewrite battery_run, H. Qed.

(** When the battery returns, the conversion did not raise. *)
Lemma battery_ok_same_tz (df : DataFrame) (checks : IQCheckResult) :
  fst (free_of_error_checks parse_datetime today df) = Ok checks ->
  same_tz (col date (coerce parse_datetime df)) = true.
Proof.
  rewrite battery_run. destruct (same_tz _); [reflexivity|discriminate].
Qed.

Lemma battery_ok_run (df : DataFrame) (checks : IQCheckResult) :
  fst (free_of_error_checks parse_datetime today df) = Ok checks ->
  checks_on today df (coerce parse_datetime df) = Ok checks.
Proof.
  intro H. pose proof (battery_ok_same_tz df checks H) as Htz.
  now rewrite (battery_run_ok df Htz) in H.
Qed.

Lemma battery_frame (df : DataFrame) :
  snd (free_of_error_checks parse_datetime today df)
  = if same_tz (col date (coerce parse_datetime df))
    then coerce parse_datetime df else df.
Proof. rewrite battery_run. now destruct (same_tz _). Qed.

(** Datetimes that are all timezone-naive share their timezone. *)
Lemma datetime64_same_tz (df : DataFrame) :
  datetime64 df -> same_tz (col date df) = true.
Proof.
  intro Hd. unfold same_tz.
  assert (H : forall k, In k (flat_map tz_of (col date df)) -> k = None).
  { intros k Hk. apply in_flat_map in Hk as (c & Hc & Hk).
    apply in_map_iff in Hc as (r & <- & Hr).
    destruct (Hd r Hr) as [t Ht]. rewrite Ht in Hk.
    destruct t; simpl in Hk; [destruct Hk as [<-|[]]; reflexivity|destruct Hk]. }
  destruct (flat_map tz_of (col date df)) as [|k ks]; [reflexivity|].
  apply forallb_forall. intros x Hx.
  rewrite (H k (or_introl Logic.eq_refl)), (H x (or_intror Hx)). reflexivity.
Qed.

Lemma naive_same_tz (df : DataFrame) :
  naive_dates parse_datetime df ->
  same_tz (col date (coerce parse_datetime df)) = true.
Proof. apply datetime64_same_tz. Qed.

Lemma tz_eqb_eq (a b : option Z) : tz_eqb a b = true -> a = b.
Proof.
  destruct a, b; simpl; try discriminate; try reflexivity.
  intro H. apply Z.eqb_eq in H. now subst.
Qed.

(** In a column of one timezone that holds a naive datetime, no value
    carries an offset. *)
Lemma same_tz_stamp (s : list dcell) (t : Z) :
  same_tz s = true -> In (Stamp (Some t)) s ->
  forall tz x, ~ In (Aware tz x) s.
Proof.
  unfold same_tz. intros Htz Hin tz x Hin'.
  assert (H1 : In None (flat_map tz_of s))
    by (apply in_flat_map; exists (Stamp (Some t)); split; [exact Hin|now left]).
  assert (H2 : In (Some tz) (flat_map tz_of s))
    by (apply in_flat_map; exists (Aware tz x); split; [exact Hin'|now left]).
  destruct (flat_map tz_of s) as [|k ks]; [destruct H1|].
  rewrite forallb_forall in Htz.
  assert (Hk : forall y, In y (k :: ks) -> y = k).
  { intros y [<-|Hy]; [reflexivity|]. symmetry. apply tz_eqb_eq, Htz, Hy. }
  pose proof (Hk _ H1). pose proof (Hk _ H2). congruence.
Qed.

Lemma battery_run_naive (df : DataFrame) :
  naive_dates parse_datetime df ->
  free_of_error_checks parse_datetime today df
  = (checks_on today df (coerce parse_datetime df), coerce parse_datetime df).
Proof. intro H. apply battery_run_ok, naive_same_tz, H. Qed.

(** The conversion touches the [date] column only. *)
Lemma col_coerce {X} (f : ChurnRecord -> X) (df : DataFrame) :
  (forall d r, f (with_date d r) = f r) ->
  col f (coerce parse_datetime df) = col f df.
Proof.
  intro Hf. unfold col, coerce. rewrite map_map. apply map_ext.
  intro r. apply Hf.
Qed.

Lemma non_negative_LOC_coerce (df : DataFrame) :
  non_negative_LOC (coerce parse_datetime df) = non_negative_LOC df.
Proof.
  unfold non_negative_LOC.
  now rewrite !col_coerce by reflexivity.
Qed.

Lemma LOC_consistency_coerce (df : DataFrame) :
  LOC_consistency (coerce parse_datetime df) = LOC_consistency df.
Proof.
  unfold LOC_consistency. now rewrite !col_coerce by reflexivity.
Qed.

Lemma reasonable_LOC_bounds_coerce (df : DataFrame) :
  reasonable_LOC_bounds (coerce parse_datetime df) = reasonable_LOC_bounds df.
Proof.
  unfold reasonable_LOC_bounds. now rewrite !col_coerce by reflexivity.
Qed.

Lemma valid_commit_hash_coerce (df : DataFrame) :
  valid_commit_hash (coerce parse_datetime df) = valid_commit_hash df.
Proof.
  unfold valid_commit_hash. now rewrite !col_coerce by reflexivity.
Qed.

Lemma author_validity_coerce (df : DataFrame) :
  author_validity (coerce parse_datetime df) = author_validity df.
Proof.
  unfold author_validity. now rewrite !col_coerce by reflexivity.
Qed.

Lemma module_field_presence_coerce (df : DataFrame) :
  module_field_presence (coerce parse_datetime df) = module_field_presence df.
Proof.
  unfold module_field_presence. now rewrite !col_coerce by reflexivity.
Qed.

(** The conversion leaves no value unconverted. *)
Lemma to_datetime_cell_converted (c : dcell) :
  is_raw (to_datetime_cell parse_datetime c) = false.
Proof.
  destruct c as [[|z|s]|t|tz t]; simpl; try reflexivity.
  - now destruct (in_bounds z).
  - now destruct (parse_datetime s) as [|t [tz|]].
Qed.

Lemma coerce_converted (df : DataFrame) :
  existsb is_raw (col date (coerce parse_datetime df)) = false.
Proof.
  rewrite col_date_coerce.
  induction (col date df) as [|c l IH]; [reflexivity|].
  simpl. now rewrite to_datetime_cell_converted.
Qed.

(** Over a converted column the date comparison does not raise. *)
Lemma dates_valid_datetime64 (df : DataFrame) :
  datetime64 df -> exists b, dates_valid today df = Ok b.
Proof.
  intro Hd. unfold dates_valid, and_then. simpl.
  destruct (all (map dnotna (col date df))); [|now eexists].
  assert (H : exists m, mapM (le_stamp today) (col date df) = Ok m).
  { induction df as [|r df IH]; [now eexists|].
    destruct (IH (datetime64_tail _ _ Hd)) as [m Hm].
    destruct (Hd r (or_introl Logic.eq_refl)) as [t Ht].
    simpl. rewrite Hm, Ht. destruct t; simpl; eexists; reflexivity. }
  destruct H as [m ->]. simpl. now eexists.
Qed.

(** When the conversion returned and the converted frame has a latest
    naive date, all its dates are naive. *)
Lemma latest_naive (df : DataFrame) (m : Z) :
  same_tz (col date (coerce parse_datetime df)) = true ->
  is_latest m (coerce parse_datetime df) ->
  naive_dates parse_datetime df.
Proof.
  intros Htz [Hin _]. apply in_stamps in Hin as (r0 & Hr0 & Hm).
  assert (Hin : In (Stamp (Some m)) (col date (coerce parse_datetime df))).
  { rewrite <- Hm. unfold col. now apply in_map. }
  intros r Hr.
  assert (Hc : In (date r) (col date (coerce parse_datetime df)))
    by (unfold col; now apply in_map).
  pose proof (coerce_converted df) as Hraw.
  destruct (date r) as [c|t|tz x] eqn:E.
  - assert (existsb is_raw (col date (coerce parse_datetime df)) = true)
      by (apply existsb_exists; exists (Raw c); split; [exact Hc|reflexivity]).
    congruence.
  - now exists t.
  - exfalso. exact (same_tz_stamp _ m Htz Hin tz x Hc).
Qed.

End BatteryFacts.

Section LocFacts.

Lemma series_ge_total (s : list cell) (k : Z) :
  existsb is_str s = false -> exists m, series_ge s k = Ok m.
Proof.
  unfold series_ge. induction s as [|c s IH]; simpl; intro H; [now eexists|].
  apply orb_false_iff in H as [Hc Hs]. destruct (IH Hs) as [m ->].
  destruct c; try discriminate; simpl; eexists; reflexivity.
Qed.

Lemma series_lt_total (s : list cell) (k : Z) :
  existsb is_str s = false -> exists m, series_lt s k = Ok m.
Proof.
  unfold series_lt. induction s as [|c s IH]; simpl; intro H; [now eexists|].
  apply orb_false_iff in H as [Hc Hs]. destruct (IH Hs) as [m ->].
  destruct c; try discriminate; simpl; eexists; reflexivity.
Qed.

Lemma series_ge_no_text (s : list cell) (k : Z) (m : list bool) :
  series_ge s k = Ok m -> existsb is_str s = false.
Proof.
  unfold series_ge. revert m; induction s as [|c s IH]; simpl; intros m H;
    [reflexivity|].
  destruct c; simpl in *; try discriminate;
    (destruct (mapM (ge_int k) s) as [m'|] eqn:E; [|discriminate]);
    eapply IH; reflexivity.
Qed.

Lemma zip_add_total (dt : dtype) (a b : list cell) :
  existsb is_str a = false -> existsb is_str b = false ->
  exists s, zipM (add dt) a b = Ok s.
Proof.
  revert b; induction a as [|x a IH]; intros [|y b] Ha Hb;
    simpl in *; try (now eexists).
  apply orb_false_iff in Ha as [Hx Ha]. apply orb_false_iff in Hb as [Hy Hb].
  destruct (IH b Ha Hb) as [s ->].
  destruct x, y; try discriminate; simpl; eexists; reflexivity.
Qed.

Lemma series_add_total (a b : list cell) :
  existsb is_str a = false -> existsb is_str b = false ->
  exists s, series_add a b = Ok s.
Proof. apply zip_add_total. Qed.

(** The three fallible LOC checks return when no LOC cell is a text. *)
Lemma loc_checks_total (df : DataFrame) :
  no_text_loc df ->
  exists b4 b5 b6,
    non_negative_LOC df = Ok b4 /\ LOC_consistency df = Ok b5 /\
    reasonable_LOC_bounds df = Ok b6.
Proof.
  intros (Ha & Hd & Hm).
  unfold non_negative_LOC, LOC_consistency, reasonable_LOC_bounds, and_then.
  destruct (series_ge_total _ 0 Ha) as [ma ->].
  destruct (series_ge_total _ 0 Hd) as [md ->].
  destruct (series_ge_total _ 0 Hm) as [mm ->].
  destruct (series_lt_total _ 10000 Hm) as [ml ->].
  destruct (series_add_total _ _ Ha Hd) as [s ->]. simpl.
  destruct (all ma); simpl; [destruct (all md); simpl|]; do 3 eexists; eauto.
Qed.

Lemma consistent_no_text (df : DataFrame) :
  (forall r, In r df -> loc_consistent r) -> no_text_loc df.
Proof.
  intro H. unfold no_text_loc.
  induction df as [|r df IH]; simpl; [auto|].
  destruct IH as (Ha & Hd & Hm); [intros x Hx; apply H; now right|].
  destruct (H r (or_introl Logic.eq_refl)) as (a & d & -> & -> & ->).
  simpl. auto.
Qed.

(** Where int64 and float64 are exact. *)
Lemma wrap64_small (z : Z) : - 2 ^ 63 <= z < 2 ^ 63 -> wrap64 z = z.
Proof.
  intro H. unfold wrap64. rewrite Z.mod_small; lia.
Qed.

Lemma round53_small (z : Z) : Z.abs z < 2 ^ 53 -> round53 z = z.
Proof.
  intro H. unfold round53. cbv zeta.
  apply Z.ltb_lt in H. now rewrite H.
Qed.

Lemma add_small (dt : dtype) (a d : Z) :
  Z.abs a < 2 ^ 52 -> Z.abs d < 2 ^ 52 ->
  add dt (Num a) (Num d) = Ok (Num (a + d)).
Proof.
  intros Ha Hd. unfold add. do 2 f_equal. destruct dt.
  - apply wrap64_small. lia.
  - rewrite (round53_small a), (round53_small d) by lia.
    apply round53_small. lia.
  - reflexivity.
Qed.

Lemma eq_small (dm ds : dtype) (m v : Z) :
  Z.abs m < 2 ^ 52 -> Z.abs v < 2 ^ 53 ->
  eq dm ds (Num m) (Num v) = (m =? v).
Proof.
  intros Hm Hv. unfold eq.
  rewrite (round53_small m), (round53_small v) by lia.
  destruct dm, ds; reflexivity.
Qed.

Lemma loc_small_tail (r : ChurnRecord) (df : DataFrame) :
  loc_small (r :: df) -> loc_small df.
Proof. intros H x Hx. apply H. now right. Qed.

(** The sum and the comparison of check 5 on small numbers, whatever the
    dtypes of the three columns. *)
Lemma zip_consistent_true (dt dm ds : dtype) (df : DataFrame) :
  loc_small df -> (forall r, In r df -> loc_consistent r) ->
  exists s, zipM (add dt) (col loc_added df) (col loc_deleted df) = Ok s /\
            all (series_eq dm ds (col loc_modified df) s) = true.
Proof.
  induction df as [|r df IH]; intros Hs H; [now exists []|].
  assert (Hdf : forall x, In x df -> loc_consistent x)
    by (intros x Hx; apply H; now right).
  destruct (IH (loc_small_tail _ _ Hs) Hdf) as (s & Es & Et).
  destruct (H r (or_introl Logic.eq_refl)) as (a & d & Ea & Ed & Em).
  destruct (Hs r (or_introl Logic.eq_refl)) as (Sa & Sd & Sm).
  rewrite Ea in Sa. rewrite Ed in Sd. rewrite Em in Sm. simpl in Sa, Sd, Sm.
  exists (Num (a + d) :: s). simpl col. rewrite Ea, Ed, Em.
  cbn [zipM]. rewrite (add_small dt a d Sa Sd). cbn [rbind]. rewrite Es.
  split; [reflexivity|].
  cbn [series_eq]. rewrite (eq_small dm ds (a + d) (a + d)) by lia.
  rewrite Z.eqb_refl. exact Et.
Qed.

Lemma zip_true_consistent (dt dm ds : dtype) (df : DataFrame) (s : list cell) :
  loc_small df ->
  existsb is_str (col loc_added df) = false ->
  zipM (add dt) (col loc_added df) (col loc_deleted df) = Ok s ->
  all (series_eq dm ds (col loc_modified df) s) = true ->
  forall r, In r df -> loc_consistent r.
Proof.
  revert s; induction df as [|r df IH]; intros s Hs Ha Es Et x Hx;
    [destruct Hx|].
  simpl in Ha. apply orb_false_iff in Ha as [Hr Ha].
  destruct (Hs r (or_introl Logic.eq_refl)) as (Sa & Sd & Sm).
  simpl col in Es, Et. cbn [zipM] in Es.
  destruct (add dt (loc_added r) (loc_deleted r)) as [z|] eqn:Ez;
    [|discriminate].
  cbn [rbind] in Es.
  destruct (zipM (add dt) (col loc_added df) (col loc_deleted df))
    as [s'|] eqn:Es'; [|discriminate].
  cbn [rbind] in Es. injection Es as <-.
  cbn [series_eq] in Et. apply andb_true_iff in Et as [Hz Ht].
  destruct Hx as [<-|Hx].
  - unfold loc_consistent.
    destruct (loc_added r) as [|a|sa]; [| |discriminate Hr].
    + simpl in Ez. injection Ez as <-.
      destruct (loc_modified r); simpl in Hz; discriminate.
    + destruct (loc_deleted r) as [|d|sd].
      * simpl in Ez. injection Ez as <-.
        destruct (loc_modified r); simpl in Hz; discriminate.
      * simpl in Sa, Sd. rewrite (add_small dt a d Sa Sd) in Ez.
        injection Ez as <-.
        destruct (loc_modified r) as [|m|sm]; try (simpl in Hz; discriminate).
        simpl in Sm. rewrite (eq_small dm ds m (a + d)) in Hz by lia.
        apply Z.eqb_eq in Hz. subst m. now exists a, d.
      * discriminate Ez.
  - eapply IH; eauto. exact (loc_small_tail _ _ Hs).
Qed.

Lemma consistent_check_true (df : DataFrame) :
  loc_small df ->
  (forall r, In r df -> loc_consistent r) -> LOC_consistency df = Ok true.
Proof.
  intros Hs H. unfold LOC_consistency, series_add.
  destruct (zip_consistent_true
              (sum_dtype (dtype_of (col loc_added df))
                         (dtype_of (col loc_deleted df)))
              (dtype_of (col loc_modified df))
              (sum_dtype (dtype_of (col loc_added df))
                         (dtype_of (col loc_deleted df)))
              df Hs H) as (s & -> & Et).
  simpl. now rewrite Et.
Qed.

Lemma check_true_consistent (df : DataFrame) :
  loc_small df ->
  existsb is_str (col loc_added df) = false ->
  LOC_consistency df = Ok true ->
  forall r, In r df -> loc_consistent r.
Proof.
  unfold LOC_consistency, series_add. intros Hs Ha Hc.
  destruct (zipM _ (col loc_added df) (col loc_deleted df)) as [s|] eqn:Es;
    [|discriminate].
  simpl in Hc. injection Hc as Hc.
  eapply zip_true_consistent; eauto.
Qed.

Lemma non_negative_ok_added (df : DataFrame) (b : bool) :
  non_negative_LOC df = Ok b -> existsb is_str (col loc_added df) = false.
Proof.
  unfold non_negative_LOC, and_then. intro H.
  destruct (series_ge (col loc_added df) 0) as [m|] eqn:E; [|discriminate].
  eapply series_ge_no_text, E.
Qed.

End LocFacts.

(** C9. On a dataset of zero records the battery returns true for each of
    the ten named checks. *)
Theorem empty_dataset_passes
  (parse_datetime : string -> parsed) (today : Z) :
  fst (free_of_error_checks parse_datetime today [])
  = Ok [ ("missing_values", true); ("valid_dates", true);
         ("no_duplicates", true); ("non_negative_LOC", true);
         ("LOC_consistency", true); ("reasonable_LOC_bounds", true);
         ("valid_commit_hash", true); ("author_validity", true);
         ("module_field_presence", true); ("chronological_order", true) ].
Proof. reflexivity. Qed.

(** C5, as the code has it.  When the battery returns, the entry of every
    check except [no_duplicates] and [chronological_order] is the boolean
    that check yields when evaluated alone on the freshly loaded dataset;
    the entries of those two are the checks evaluated on the dataset with
    its [date] column converted. *)
Theorem battery_entries
  (parse_datetime : string -> parsed) (today : Z)
  (df : DataFrame) (checks : IQCheckResult) :
  fst (free_of_error_checks parse_datetime today df) = Ok checks ->
  (forall name check,
     In (name, check) (the_checks parse_datetime today) ->
     name <> "no_duplicates" -> name <> "chronological_order" ->
     exists b, fst (check df) = Ok b /\ dict_get name checks = Some b) /\
  dict_get "no_duplicates" checks
    = Some (no_duplicates (coerce parse_datetime df)) /\
  dict_get "chronological_order" checks
    = Some (chronological_order (coerce parse_datetime df)).
Proof.
  intro H. pose proof (battery_ok_same_tz _ _ _ _ H) as Htz.
  apply battery_ok_run in H. unfold checks_on in H. revert H.
  rewrite non_negative_LOC_coerce, LOC_consistency_coerce,
    reasonable_LOC_bounds_coerce, valid_commit_hash_coerce,
    author_validity_coerce, module_field_presence_coerce.
  destruct (dates_valid today _) as [b2|] eqn:E2; [|discriminate].
  destruct (non_negative_LOC df) as [b4|] eqn:E4; [|discriminate].
  destruct (LOC_consistency df) as [b5|] eqn:E5; [|discriminate].
  destruct (reasonable_LOC_bounds df) as [b6|] eqn:E6; [|discriminate].
  simpl. intros [= <-]. split; [|split; reflexivity].
  intros name check Hin Hdup Hchr. simpl in Hin.
  repeat (destruct Hin as [Hin|Hin];
          [injection Hin as Hn Hc; subst name check;
           first [ congruence
                 | eexists; split; [|reflexivity];
                   rewrite ?valid_dates_run, ?Htz;
                   unfold read, try_read;
                   simpl; rewrite ?E2; auto ]|]).
  destruct Hin.
Qed.

(** C5 as stated fails: two rows that differ only in their (unparseable)
    date texts are distinct on the freshly loaded dataset, yet the battery
    reports duplicates, because it compares the rows after the conversion
    has turned both dates into NaT. *)
Lemma no_duplicates_entry_differs :
  In ("no_duplicates", read no_duplicates)
     (the_checks IsoDate.parse Examples.today0) /\
  fst (read no_duplicates Examples.two_bad_dates) = Ok true /\
  exists checks,
    fst (free_of_error_checks IsoDate.parse Examples.today0
           Examples.two_bad_dates) = Ok checks /\
    dict_get "no_duplicates" checks = Some false.
Proof.
  split; [simpl; auto|]. split; [reflexivity|].
  eexists. split; vm_compute; reflexivity.
Qed.

Section FrameFacts.

Variable parse_datetime : string -> parsed.
Variable today : Z.

Lemma timeliness_frame (df : DataFrame) : snd (compute_timeliness df) = df.
Proof.
  unfold compute_timeliness, bind, try_read, lift, ret.
  destruct (series_max (col date df)) as [latest|]; [|reflexivity].
  destruct (sub_days90 latest) as [cutoff|]; [|reflexivity].
  destruct (rbind (series_ge_stamp cutoff (col date df)) _) as [recent|];
    [|reflexivity].
  destruct (truediv _ _); reflexivity.
Qed.

Lemma main_frame (df : DataFrame) :
  snd (main parse_datetime today df)
  = snd (free_of_error_checks parse_datetime today df).
Proof.
  unfold main, bind, ret.
  destruct (free_of_error_checks parse_datetime today df) as [[checks|e] df'];
    [|reflexivity].
  pose proof (timeliness_frame df') as Ht.
  destruct (compute_timeliness df') as [[q|e] df''];
    simpl in Ht; subst df''; reflexivity.
Qed.

Lemma coerce_rows (df : DataFrame) :
  Forall2 (fun r r' => same_but_date r r' /\
                       date r' = to_datetime_cell parse_datetime (date r))
          df (coerce parse_datetime df).
Proof.
  induction df as [|r df IH]; simpl; constructor; [|exact IH].
  unfold same_but_date; simpl. repeat split.
Qed.

End FrameFacts.

(** C6, as the code has it.  Running the battery and the scorer leaves the
    rows in place and every field but [date] unchanged.  When the
    conversion of line 24 returns, each date is replaced by its conversion
    to a datetime (NaT when it does not parse); when it raises, the frame
    is left as it was loaded.  The scorer itself assigns nothing. *)
Theorem validator_frame
  (parse_datetime : string -> parsed) (today : Z) (df : DataFrame) :
  match to_datetime parse_datetime (col date df) with
  | Ok converted =>
      Forall2 (fun r r' => same_but_date r r' /\
                           date r' = to_datetime_cell parse_datetime (date r))
              df (snd (main parse_datetime today df)) /\
      col date (snd (main parse_datetime today df)) = converted
  | Raise _ => snd (main parse_datetime today df) = df
  end /\
  snd (free_of_error_checks parse_datetime today df)
    = snd (main parse_datetime today df) /\
  (forall d, snd (compute_timeliness d) = d).
Proof.
  rewrite main_frame, battery_frame, to_datetime_cases.
  split; [|split; [reflexivity|apply timeliness_frame]].
  destruct (same_tz _); [|reflexivity].
  split; [apply coerce_rows|reflexivity].
Qed.

(** C6 as stated fails: a date text that does not parse is overwritten by
    NaT in the loaded dataset. *)
Lemma validator_mutates_date :
  snd (main IsoDate.parse Examples.today0 Examples.one_bad_date)
    = [Examples.clean NaT] /\
  snd (main IsoDate.parse Examples.today0 Examples.one_bad_date)
    <> Examples.one_bad_date.
Proof. split; [reflexivity|vm_compute; discriminate]. Qed.

(* ================================================================= *)
(** ** The extractor *)

Section ExtractorFacts.

Import Extractor.

Lemma inner_loop (commit : Commit) (stats : list (string * FileStats))
      (acc : list Row) :
  fold_left (fun acc kv => acc ++ [record_of commit (fst kv) (snd kv)])
            stats acc
  = acc ++ map (fun kv => record_of commit (fst kv) (snd kv)) stats.
Proof.
  revert acc; induction stats as [|kv stats IH]; intro acc; simpl.
  - now rewrite app_nil_r.
  - rewrite IH, <- app_assoc. reflexivity.
Qed.

Lemma loop_step_records (st : State) (commit : Commit) :
  fst (loop_step st commit) = fst st ++ records_of commit.
Proof.
  destruct st as [acc w]. unfold loop_step, try_body, records_of.
  destruct (stats_files commit) as [stats|e]; simpl.
  - apply inner_loop.
  - now rewrite app_nil_r.
Qed.

Lemma loop_records (commits : list Commit) (st : State) :
  fst (fold_left loop_step commits st)
  = fst st ++ flat_map records_of commits.
Proof.
  revert st; induction commits as [|c commits IH]; intro st; simpl.
  - now rewrite app_nil_r.
  - rewrite IH, loop_step_records, <- app_assoc. reflexivity.
Qed.

Lemma churn_records_flat (commits : list Commit) :
  churn_records commits = flat_map records_of commits.
Proof. apply (loop_records commits ([], [])). Qed.

Lemma loop_warnings_keep (commits : list Commit) (st : State) (w : string * exn) :
  In w (snd st) -> In w (snd (fold_left loop_step commits st)).
Proof.
  revert st; induction commits as [|c commits IH]; intros st Hw; [exact Hw|].
  simpl. apply IH. destruct st as [acc ws]. unfold loop_step.
  destruct (try_body c acc) as [[u|e] recs]; simpl in *; [exact Hw|].
  apply in_or_app. now left.
Qed.

Lemma record_of_consistent (commit : Commit) (path : string) (fs : FileStats) :
  loc_modified (record_of commit path fs)
  = loc_added (record_of commit path fs) + loc_deleted (record_of commit path fs).
Proof. reflexivity. Qed.

End ExtractorFacts.

(** C7, as the code has it.  Every record the extractor emits satisfies
    [loc_modified = loc_added + loc_deleted].  For a dataset whose LOC
    numbers are below 2^52 in magnitude, where the arithmetic of an int64
    and of a float64 column is exact, the entry the battery returns for
    [LOC_consistency] is true exactly when every row satisfies that
    equation. *)
Theorem loc_consistency_invariant
  (parse_datetime : string -> parsed) (today : Z) :
  (forall commits row,
     In row (Extractor.churn_records commits) ->
     Extractor.loc_modified row
     = Extractor.loc_added row + Extractor.loc_deleted row) /\
  (forall df checks,
     loc_small df ->
     fst (free_of_error_checks parse_datetime today df) = Ok checks ->
     (dict_get "LOC_consistency" checks = Some true
      <-> (forall r, In r df -> loc_consistent r))).
Proof.
  split.
  - intros commits row Hin. rewrite churn_records_flat in Hin.
    apply in_flat_map in Hin as (c & _ & Hrow).
    unfold Extractor.records_of in Hrow.
    destruct (Extractor.stats_files c) as [stats|e]; [|destruct Hrow].
    apply in_map_iff in Hrow as (kv & <- & _). apply record_of_consistent.
  - intros df checks Hs Hrun. apply battery_ok_run in Hrun.
    unfold checks_on in Hrun. revert Hrun.
    rewrite non_negative_LOC_coerce, LOC_consistency_coerce,
      reasonable_LOC_bounds_coerce.
    destruct (dates_valid today _) as [b2|]; [|discriminate].
    destruct (non_negative_LOC df) as [b4|] eqn:E4; [|discriminate].
    destruct (LOC_consistency df) as [b5|] eqn:E5; [|discriminate].
    destruct (reasonable_LOC_bounds df) as [b6|]; [|discriminate].
    simpl. intros [= <-]. simpl. split.
    + intros [= ->]. apply check_true_consistent; [exact Hs| |exact E5].
      eapply non_negative_ok_added, E4.
    + intro Hrows. rewrite (consistent_check_true df Hs Hrows) in E5.
      congruence.
Qed.

(** C7 as stated fails where int64 wraps around: the sum 2^62 + 2^62 is
    computed as -2^63, which is what the row holds in [loc_modified]; the
    battery reports the row consistent, and the equation does not hold. *)
Lemma wrapped_sum_passes :
  (exists checks,
     fst (free_of_error_checks IsoDate.parse Examples.today0 Samples.wrapping)
     = Ok checks /\
     dict_get "LOC_consistency" checks = Some true) /\
  ~ (forall r, In r Samples.wrapping -> loc_consistent r).
Proof.
  split.
  - eexists. split; vm_compute; reflexivity.
  - intro H. destruct (H _ (or_introl Logic.eq_refl)) as (a & d & Ea & Ed & Em).
    simpl in Ea, Ed, Em. injection Ea as <-. injection Ed as <-.
    discriminate Em.
Qed.

Section BodyFacts.

Lemma for_items_run (c : Body.Commit) (items : list Body.item)
      (acc : list Extractor.Row) :
  Body.for_items c items acc
  = (match Body.first_fault items with
     | Some e => Raise e
     | None => Ok tt
     end, acc ++ Body.processed c items).
Proof.
  revert acc; induction items as [|[path fs|e] items IH]; intro acc; simpl.
  - now rewrite app_nil_r.
  - rewrite IH, <- app_assoc. reflexivity.
  - now rewrite app_nil_r.
Qed.

Lemma body_step (st : Extractor.State) (c : Body.Commit) :
  Body.loop_step st c
  = (fst st ++ Body.records_of c, snd st ++ Body.warning_of c).
Proof.
  destruct st as [acc w].
  unfold Body.loop_step, Body.try_body, Body.records_of, Body.warning_of,
    Body.failure_of.
  destruct (Body.stats_files c) as [items|e]; simpl.
  - rewrite for_items_run. destruct (Body.first_fault items); simpl;
      now rewrite ?app_nil_r.
  - now rewrite app_nil_r.
Qed.




(** On commits typed as GitPython types them, the loop is that of
    [Extractor]. *)
Lemma of_typed_items (c : Extractor.Commit)
      (l : list (string * Extractor.FileStats)) :
  Body.first_fault (map (fun kv => Body.File (fst kv) (snd kv)) l) = None /\
  Body.processed (Body.of_typed c)
                 (map (fun kv => Body.File (fst kv) (snd kv)) l)
  = map (fun kv => Extractor.record_of c (fst kv) (snd kv)) l.
Proof.
  induction l as [|kv l [H1 H2]]; [split; reflexivity|].
  split; [exact H1|]. simpl. rewrite H2. reflexivity.
Qed.

Lemma of_typed_records (c : Extractor.Commit) :
  Body.records_of (Body.of_typed c) = Extractor.records_of c.
Proof.
  unfold Body.records_of, Extractor.records_of.
  change (Body.stats_files (Body.of_typed c))
    with (match Extractor.stats_files c with
          | Ok stats => Ok (map (fun kv => Body.File (fst kv) (snd kv)) stats)
          | Raise e => Raise e
          end).
  destruct (Extractor.stats_files c) as [stats|e]; [|reflexivity].
  apply of_typed_items.
Qed.

Lemma of_typed_warning (c : Extractor.Commit) :
  Body.warning_of (Body.of_typed c) = warning_of c.
Proof.
  unfold Body.warning_of, Body.failure_of, warning_of.
  change (Body.stats_files (Body.of_typed c))
    with (match Extractor.stats_files c with
          | Ok stats => Ok (map (fun kv => Body.File (fst kv) (snd kv)) stats)
          | Raise e => Raise e
          end).
  destruct (Extractor.stats_files c) as [stats|e]; [|reflexivity].
  now rewrite (proj1 (of_typed_items c stats)).
Qed.

Lemma body_of_typed (commits : list Extractor.Commit) :
  Body.extract_code_churn (map Body.of_typed commits)
  = Extractor.extract_code_churn commits.
Proof.
  unfold Body.extract_code_churn, Extractor.extract_code_churn.
  generalize (@nil Extractor.Row, @nil (string * exn)).
  induction commits as [|c commits IH]; intro st; [reflexivity|].
  simpl. rewrite <- IH. f_equal.
  destruct st as [acc w]. rewrite body_step.
  rewrite of_typed_records, of_typed_warning.
  unfold Extractor.loop_step, Extractor.try_body, Extractor.records_of,
    warning_of. simpl.
  destruct (Extractor.stats_files c) as [stats|e]; simpl.
  - now rewrite inner_loop, app_nil_r.
  - now rewrite app_nil_r.
Qed.

End BodyFacts.




(* ================================================================= *)
(** ** Malformed values in the battery *)

Section DirtyData.

Variable parse_datetime : string -> parsed.
Variable today : Z.

(** A date that does not convert makes [valid_dates] false, without any
    exception, whenever the conversion itself returns. *)
Lemma unparseable_date_fails_check (df : DataFrame) (r : ChurnRecord) :
  In r df -> to_datetime_cell parse_datetime (date r) = NaT ->
  same_tz (col date (coerce parse_datetime df)) = true ->
  fst (valid_dates parse_datetime today df) = Ok false.
Proof.
  intros Hin Hnat Htz. rewrite valid_dates_run, Htz.
  unfold dates_valid, and_then. simpl.
  assert (H : all (map dnotna (col date (coerce parse_datetime df))) = false).
  { clear Htz. induction df as [|x df IH]; [destruct Hin|]. simpl.
    destruct Hin as [->|Hin].
    - rewrite Hnat. reflexivity.
    - rewrite (IH Hin). apply andb_false_r. }
  now rewrite H.
Qed.

(** The comparison of check 2 can only raise TypeError. *)
Lemma dates_valid_raises (df : DataFrame) (e : exn) :
  dates_valid today df = Raise e -> e = TypeError.
Proof.
  unfold dates_valid, and_then. simpl.
  destruct (all (map dnotna (col date df))); [|discriminate].
  assert (H : forall l e', mapM (le_stamp today) l = Raise e' -> e' = TypeError).
  { induction l as [|c l IH]; intros e' He; [discriminate|].
    simpl in He. destruct (le_stamp today c) as [x|e0] eqn:Ec.
    - simpl in He. destruct (mapM (le_stamp today) l) as [m|e1] eqn:El;
        simpl in He; [discriminate|]. injection He as <-. now apply IH.
    - simpl in He. injection He as <-.
      destruct c as [c|[t|]|tz t]; simpl in Ec; congruence. }
  destruct (mapM (le_stamp today) (col date df)) as [m|e'] eqn:Em;
    simpl; [discriminate|]. intros [= <-]. eapply H, Em.
Qed.

(** When no LOC cell is a text and no date carries a UTC offset, the
    battery returns its ten results. *)
Lemma battery_total_without_text (df : DataFrame) :
  no_text_loc df -> naive_dates parse_datetime df ->
  exists checks,
    fst (free_of_error_checks parse_datetime today df) = Ok checks.
Proof.
  intros Hn Hd. rewrite (battery_run_naive _ _ _ Hd). unfold checks_on.
  simpl fst.
  rewrite non_negative_LOC_coerce, LOC_consistency_coerce,
    reasonable_LOC_bounds_coerce.
  destruct (dates_valid_datetime64 today _ Hd) as [b2 ->].
  destruct (loc_checks_total df Hn) as (b4 & b5 & b6 & -> & -> & ->).
  simpl. now eexists.
Qed.

Lemma series_ge_text (s : list cell) (k : Z) :
  existsb is_str s = true -> series_ge s k = Raise TypeError.
Proof.
  unfold series_ge. induction s as [|c s IH]; [discriminate|]. simpl.
  destruct c; simpl; try reflexivity; intro Hs; rewrite (IH Hs); reflexivity.
Qed.

(** A text anywhere in [loc_added] makes the battery raise: ValueError if
    the conversion of the dates raised already, TypeError otherwise. *)
Lemma battery_raises_on_text_added (df : DataFrame) :
  existsb is_str (col loc_added df) = true ->
  fst (free_of_error_checks parse_datetime today df)
  = Raise (if same_tz (col date (coerce parse_datetime df))
           then TypeError else ValueError).
Proof.
  intro Hs. rewrite battery_run.
  destruct (same_tz _); [|reflexivity]. unfold checks_on. simpl fst.
  rewrite non_negative_LOC_coerce.
  destruct (dates_valid today _) as [b2|e] eqn:E2.
  - unfold non_negative_LOC, and_then.
    rewrite (series_ge_text _ 0 Hs). reflexivity.
  - simpl. now rewrite (dates_valid_raises _ _ E2).
Qed.

End DirtyData.

(** C2, on the failing input.  One row whose [loc_added] is the text "abc":
    the battery raises TypeError instead of returning a false result. *)
Theorem battery_raises_on_text_loc :
  fst (free_of_error_checks IsoDate.parse Examples.today0 Examples.text_loc)
  = Raise TypeError.
Proof. reflexivity. Qed.

(* ================================================================= *)
(** ** Instances *)

(** Witness for C1: two dated records and one without a valid date. *)
Lemma compute_timeliness_contract_witness :
  Examples.three_dated <> [] /\ datetime64 Examples.three_dated /\
  (forall m, is_latest m Examples.three_dated -> cutoff_in_range m) /\
  exists q : Q,
    compute_timeliness Examples.three_dated = (Ok q, Examples.three_dated) /\
    (0 <= q /\ q <= 1)%Q /\
    (forall m, is_latest m Examples.three_dated ->
       q = Z.of_nat (recent_count m Examples.three_dated)
           # Pos.of_nat (List.length Examples.three_dated)) /\
    (stamps Examples.three_dated = [] ->
       q = 0 # Pos.of_nat (List.length Examples.three_dated)).
Proof.
  assert (H1 : Examples.three_dated <> []) by discriminate.
  assert (H2 : datetime64 Examples.three_dated)
    by (intros r [<-|[<-|[<-|[]]]]; eexists; reflexivity).
  assert (H3 : forall m, is_latest m Examples.three_dated -> cutoff_in_range m).
  { intros m [Hin _]. unfold cutoff_in_range.
    destruct Hin as [<-|[<-|[]]]; reflexivity. }
  split; [exact H1|]. split; [exact H2|]. split; [exact H3|].
  exact (compute_timeliness_contract Examples.three_dated H1 H2 H3).
Defined.

Example three_dated_score :
  compute_timeliness Examples.three_dated = (Ok (1 # 3), Examples.three_dated).
Proof. reflexivity. Qed.

(** Witness for C10. *)
Lemma timeliness_positive_witness :
  Examples.span90 <> [] /\ all_valid_dates Examples.span90 /\
  (forall m, is_latest m Examples.span90 -> cutoff_in_range m) /\
  exists q : Q,
    compute_timeliness Examples.span90 = (Ok q, Examples.span90) /\ (0 < q)%Q.
Proof.
  assert (H1 : Examples.span90 <> []) by discriminate.
  assert (H2 : all_valid_dates Examples.span90)
    by (intros r [<-|[<-|[]]]; eexists; reflexivity).
  assert (H3 : forall m, is_latest m Examples.span90 -> cutoff_in_range m).
  { intros m [Hin _]. unfold cutoff_in_range.
    destruct Hin as [<-|[<-|[]]]; reflexivity. }
  split; [exact H1|]. split; [exact H2|]. split; [exact H3|].
  exact (timeliness_positive Examples.span90 H1 H2 H3).
Defined.

(** Witness for C4: a record dated day 50 appended to days 0 and 90. *)
Lemma timeliness_monotonic_witness :
  Examples.span90 <> [] /\ datetime64 Examples.span90 /\
  is_latest (90 * IsoDate.ns_per_day) Examples.span90 /\
  cutoff_in_range (90 * IsoDate.ns_per_day) /\
  date Examples.older = Stamp (Some (50 * IsoDate.ns_per_day)) /\
  exists q q' : Q,
    compute_timeliness Examples.span90 = (Ok q, Examples.span90) /\
    compute_timeliness (Examples.span90 ++ [Examples.older])
      = (Ok q', Examples.span90 ++ [Examples.older]) /\
    (90 * IsoDate.ns_per_day - days90 <= 50 * IsoDate.ns_per_day
       <= 90 * IsoDate.ns_per_day -> (q <= q')%Q) /\
    (50 * IsoDate.ns_per_day < 90 * IsoDate.ns_per_day - days90 -> (q' <= q)%Q).
Proof.
  assert (H1 : Examples.span90 <> []) by discriminate.
  assert (H2 : datetime64 Examples.span90)
    by (intros r [<-|[<-|[]]]; eexists; reflexivity).
  assert (H3 : is_latest (90 * IsoDate.ns_per_day) Examples.span90).
  { split; [right; left; reflexivity|].
    intros t [<-|[<-|[]]]; apply Z.leb_le; reflexivity. }
  assert (H4 : date Examples.older = Stamp (Some (50 * IsoDate.ns_per_day)))
    by reflexivity.
  assert (H5 : cutoff_in_range (90 * IsoDate.ns_per_day)) by reflexivity.
  split; [exact H1|]. split; [exact H2|]. split; [exact H3|].
  split; [exact H5|]. split; [exact H4|].
  exact (timeliness_monotonic Examples.span90 Examples.older _ _
           H1 H2 H3 H5 H4).
Defined.

(** C4 as stated fails: a record dated one day after the current maximum
    is within 90 days of it, yet appending it moves the cutoff forward and
    lowers the score from 2/2 to 2/3. *)
Lemma newer_record_lowers_score :
  is_latest (90 * IsoDate.ns_per_day) Examples.span90 /\
  date Examples.newer = Stamp (Some (91 * IsoDate.ns_per_day)) /\
  Z.abs (91 * IsoDate.ns_per_day - 90 * IsoDate.ns_per_day) <= days90 /\
  compute_timeliness Examples.span90 = (Ok (2 # 2), Examples.span90) /\
  compute_timeliness (Examples.span90 ++ [Examples.newer])
    = (Ok (2 # 3), Examples.span90 ++ [Examples.newer]) /\
  (2 # 3 < 2 # 2)%Q.
Proof.
  split.
  { split; [right; left; reflexivity|].
    intros t [<-|[<-|[]]]; apply Z.leb_le; reflexivity. }
  split; [reflexivity|]. split; [apply Z.leb_le; reflexivity|].
  split; [reflexivity|]. split; reflexivity.
Qed.

(** Witness for C5: the battery on one clean row. *)
Lemma battery_entries_witness :
  let checks :=
    [ ("missing_values", true); ("valid_dates", true);
      ("no_duplicates", true); ("non_negative_LOC", true);
      ("LOC_consistency", true); ("reasonable_LOC_bounds", true);
      ("valid_commit_hash", true); ("author_validity", true);
      ("module_field_presence", true); ("chronological_order", true) ] in
  fst (free_of_error_checks IsoDate.parse Examples.today0 Examples.one_row)
    = Ok checks /\
  (forall name check,
     In (name, check) (the_checks IsoDate.parse Examples.today0) ->
     name <> "no_duplicates" -> name <> "chronological_order" ->
     exists b, fst (check Examples.one_row) = Ok b /\
               dict_get name checks = Some b) /\
  dict_get "no_duplicates" checks
    = Some (no_duplicates (coerce IsoDate.parse Examples.one_row)) /\
  dict_get "chronological_order" checks
    = Some (chronological_order (coerce IsoDate.parse Examples.one_row)).
Proof.
  intro checks.
  assert (H : fst (free_of_error_checks IsoDate.parse Examples.today0
                     Examples.one_row) = Ok checks) by reflexivity.
  split; [exact H|].
  exact (battery_entries IsoDate.parse Examples.today0 Examples.one_row
           checks H).
Defined.

(* ================================================================= *)
(** ** The scenarios of the specification, run on the model *)

Section Scenarios.

Example scenario_duplicate_rows :
  rbind (fst (Examples.battery Examples.twice)) (fun c => Ok (dict_get "no_duplicates" c))
  = Ok (Some false).
Proof. reflexivity. Qed.

Example scenario_inconsistent_loc :
  fst (Examples.battery Examples.off_by_one)
  = Ok [ ("missing_values", true); ("valid_dates", true);
         ("no_duplicates", true); ("non_negative_LOC", true);
         ("LOC_consistency", false); ("reasonable_LOC_bounds", true);
         ("valid_commit_hash", true); ("author_validity", true);
         ("module_field_presence", true); ("chronological_order", true) ].
Proof. reflexivity. Qed.

Example scenario_short_hash :
  rbind (fst (Examples.battery Examples.short_hash))
        (fun c => Ok (dict_get "valid_commit_hash" c))
  = Ok (Some false).
Proof. reflexivity. Qed.

Example scenario_same_day :
  fst (main IsoDate.parse Examples.today0 Examples.same_day)
  = Ok ([ ("missing_values", true); ("valid_dates", true);
          ("no_duplicates", false); ("non_negative_LOC", true);
          ("LOC_consistency", true); ("reasonable_LOC_bounds", true);
          ("valid_commit_hash", true); ("author_validity", true);
          ("module_field_presence", true); ("chronological_order", true) ],
        3 # 3).
Proof. reflexivity. Qed.

Example scenario_extraction :
  Extractor.extract_code_churn
    [Examples.commit1; Examples.commit2; Examples.commit3]
  = ([ Extractor.mkRow "a1b2c3d4" "Ada" "2024-01-15" "src/main.py" "src" 3 2 5;
       Extractor.mkRow "a1b2c3d4" "Ada" "2024-01-15" "README.md" "root" 1 0 1;
       Extractor.mkRow "feedbeef" "Bob" "2024-01-13" "docs/a.md" "docs" 0 4 4 ],
     [ ("0badc0de", GitCommandError) ]).
Proof. reflexivity. Qed.

End Scenarios.

(* ================================================================= *)
(** ** The pipeline of [main] *)

(** The scorer on a non-empty converted frame whose cutoff is in range. *)
Lemma scorer_returns (df : DataFrame) :
  df <> [] -> datetime64 df ->
  (forall m, is_latest m df -> cutoff_in_range m) ->
  exists q : Q, compute_timeliness df = (Ok q, df) /\ (0 <= q /\ q <= 1)%Q.
Proof.
  intros Hne Hd Hc.
  assert (Hlen : exists n, List.length df = S n)
    by (destruct df; [congruence|now eexists]).
  destruct Hlen as [n Hn].
  destruct (latest_of df) as [m|] eqn:E.
  - pose proof (proj1 (latest_of_is_latest df m) E) as Hm.
    rewrite (score_with_latest df m Hne Hd Hm (Hc m Hm)).
    eexists. split; [reflexivity|].
    apply (truediv_bounds (recent_count m df) (List.length df));
      [apply recent_count_le|]. rewrite Hn. reflexivity.
  - rewrite (score_without_latest df Hne Hd E).
    eexists. split; [reflexivity|].
    apply (truediv_bounds 0 (List.length df)); [lia|].
    rewrite Hn. reflexivity.
Qed.

(** On a non-empty loaded dataset on which the battery returns, [main]
    reaches the scorer with the converted frame; when the dates are
    timezone-naive and the cutoff is in range it gets a score in [0, 1]:
    the conversion done by check 2 is what the scorer reads. *)
Lemma main_returns
  (parse_datetime : string -> parsed) (today : Z)
  (df : DataFrame) (checks : IQCheckResult) :
  df <> [] -> naive_dates parse_datetime df ->
  (forall m, is_latest m (coerce parse_datetime df) -> cutoff_in_range m) ->
  fst (free_of_error_checks parse_datetime today df) = Ok checks ->
  exists q : Q,
    fst (main parse_datetime today df) = Ok (checks, q) /\
    (0 <= q /\ q <= 1)%Q.
Proof.
  intros Hne Hd Hc Hrun. unfold main, bind, ret.
  rewrite (battery_run_naive _ _ _ Hd) in *. simpl in Hrun. rewrite Hrun.
  assert (Hne' : coerce parse_datetime df <> [])
    by (destruct df; [congruence|discriminate]).
  destruct (scorer_returns _ Hne' Hd Hc) as (q & -> & Hq).
  exists q. split; [reflexivity|exact Hq].
Qed.

(** Called on a dataset whose dates were never converted, the scorer
    raises: the subtraction of 90 days needs a datetime. *)
Example scorer_needs_converted_dates :
  fst (compute_timeliness Examples.one_row) = Raise TypeError.
Proof. reflexivity. Qed.

(* ================================================================= *)
(** ** What each check decides *)

Section CheckFacts.

Lemma cell_eqb_eq (a b : cell) : cell_eqb a b = true <-> a = b.
Proof.
  destruct a, b; simpl; split; intro H; try discriminate; try reflexivity.
  - apply Z.eqb_eq in H. now subst.
  - injection H as ->. apply Z.eqb_refl.
  - apply String.eqb_eq in H. now subst.
  - injection H as ->. apply String.eqb_refl.
Qed.

Lemma dcell_eqb_eq (a b : dcell) : dcell_eqb a b = true <-> a = b.
Proof.
  destruct a as [x|[x|]|tz x], b as [y|[y|]|tz' y]; simpl; split; intro H;
    try discriminate; try reflexivity.
  - apply cell_eqb_eq in H. now subst.
  - injection H as ->. now apply cell_eqb_eq.
  - apply Z.eqb_eq in H. now subst.
  - injection H as ->. apply Z.eqb_refl.
  - apply andb_true_iff in H as [H1 H2].
    apply Z.eqb_eq in H1, H2. now subst.
  - injection H as -> ->. now rewrite !Z.eqb_refl.
Qed.

Lemma row_eqb_eq (a b : ChurnRecord) : row_eqb a b = true <-> a = b.
Proof.
  unfold row_eqb. rewrite !andb_true_iff, !cell_eqb_eq, dcell_eqb_eq.
  destruct a, b; simpl. split.
  - intros [[[[[[[-> ->] ->] ->] ->] ->] ->] ->]. reflexivity.
  - intros [= -> -> -> -> -> -> -> ->]. repeat split.
Qed.

Lemma existsb_row_eqb (r : ChurnRecord) (l : list ChurnRecord) :
  existsb (row_eqb r) l = true <-> In r l.
Proof.
  rewrite existsb_exists. split.
  - intros (x & Hx & E). apply row_eqb_eq in E. now subst.
  - intro H. exists r. split; [exact H|now apply row_eqb_eq].
Qed.

Lemma duplicated_from_none (seen : list ChurnRecord) (df : DataFrame) :
  any (duplicated_from seen df) = false
  <-> NoDup df /\ forall r, In r df -> ~ In r seen.
Proof.
  revert seen; induction df as [|r df IH]; intro seen; simpl.
  - split; [intros _; split; [constructor|intros r []]|reflexivity].
  - rewrite orb_false_iff, IH. split.
    + intros [Hr [Hnd Hseen]].
      assert (Hnot : ~ In r seen).
      { intro Hin. apply existsb_row_eqb in Hin. congruence. }
      split.
      * constructor; [|exact Hnd]. intro Hin. apply (Hseen r Hin). now left.
      * intros x [<-|Hx]; [exact Hnot|].
        intro Hin. apply (Hseen x Hx). now right.
    + intros [Hnd Hseen]. inversion Hnd as [|? ? Hnin Hnd']; subst.
      split; [|split; [exact Hnd'|]].
      * destruct (existsb (row_eqb r) seen) eqn:E; [|reflexivity].
        apply existsb_row_eqb in E. exfalso. apply (Hseen r); auto.
      * intros x Hx [<-|Hin]; [contradiction|].
        apply (Hseen x); auto.
Qed.

Lemma count_true_zero (l : list bool) :
  count_true l = 0%nat <-> forall b, In b l -> b = false.
Proof.
  unfold count_true. induction l as [|b l IH]; simpl.
  - split; [intros _ b []|reflexivity].
  - destruct b; simpl.
    + split; [discriminate|]. intro H. specialize (H true (or_introl Logic.eq_refl)).
      discriminate.
    + rewrite IH. split.
      * intros H b [<-|Hb]; auto.
      * intros H b Hb. apply H. now right.
Qed.

Lemma column_no_null {X} (f : ChurnRecord -> X) (null : X -> bool)
      (df : DataFrame) :
  count_true (map null (col f df)) = 0%nat
  <-> forall r, In r df -> null (f r) = false.
Proof.
  rewrite count_true_zero. unfold col. rewrite map_map. split.
  - intros H r Hr. apply H. apply in_map_iff. now exists r.
  - intros H b Hb. apply in_map_iff in Hb as (r & <- & Hr). now apply H.
Qed.

End CheckFacts.

(** X1. [no_duplicates] is true exactly when the rows of the frame it is
    evaluated on are pairwise distinct on all columns. *)
Theorem no_duplicates_iff_distinct (df : DataFrame) :
  no_duplicates df = true <-> NoDup df.
Proof.
  unfold no_duplicates, duplicated. rewrite negb_true_iff, duplicated_from_none.
  split; [intros [H _]; exact H|]. intro H. split; [exact H|]. intros r _ [].
Qed.

Lemma missing_values_complete (df : DataFrame) :
  missing_values df = true <-> forall r, In r df -> complete r.
Proof.
  unfold missing_values, isnull_sum. rewrite Nat.eqb_eq. simpl list_sum.
  rewrite Nat.add_0_r.
  pose proof (column_no_null commit_hash isnull df) as H1.
  pose proof (column_no_null author isnull df) as H2.
  pose proof (column_no_null date disnull df) as H3.
  pose proof (column_no_null file_path isnull df) as H4.
  pose proof (column_no_null module isnull df) as H5.
  pose proof (column_no_null loc_added isnull df) as H6.
  pose proof (column_no_null loc_deleted isnull df) as H7.
  pose proof (column_no_null loc_modified isnull df) as H8.
  unfold complete. split.
  - intro H.
    assert (E : count_true (map isnull (col commit_hash df)) = 0%nat /\
                count_true (map isnull (col author df)) = 0%nat /\
                count_true (map disnull (col date df)) = 0%nat /\
                count_true (map isnull (col file_path df)) = 0%nat /\
                count_true (map isnull (col module df)) = 0%nat /\
                count_true (map isnull (col loc_added df)) = 0%nat /\
                count_true (map isnull (col loc_deleted df)) = 0%nat /\
                count_true (map isnull (col loc_modified df)) = 0%nat) by lia.
    destruct E as (E1 & E2 & E3 & E4 & E5 & E6 & E7 & E8).
    intros r Hr. repeat split;
      [apply H1|apply H2|apply H3|apply H4|apply H5|apply H6|apply H7|apply H8];
      assumption.
  - intro H.
    assert (E1 : count_true (map isnull (col commit_hash df)) = 0%nat)
      by (apply H1; intros r Hr; apply (H r Hr)).
    assert (E2 : count_true (map isnull (col author df)) = 0%nat)
      by (apply H2; intros r Hr; apply (H r Hr)).
    assert (E3 : count_true (map disnull (col date df)) = 0%nat)
      by (apply H3; intros r Hr; apply (H r Hr)).
    assert (E4 : count_true (map isnull (col file_path df)) = 0%nat)
      by (apply H4; intros r Hr; apply (H r Hr)).
    assert (E5 : count_true (map isnull (col module df)) = 0%nat)
      by (apply H5; intros r Hr; apply (H r Hr)).
    assert (E6 : count_true (map isnull (col loc_added df)) = 0%nat)
      by (apply H6; intros r Hr; apply (H r Hr)).
    assert (E7 : count_true (map isnull (col loc_deleted df)) = 0%nat)
      by (apply H7; intros r Hr; apply (H r Hr)).
    assert (E8 : count_true (map isnull (col loc_modified df)) = 0%nat)
      by (apply H8; intros r Hr; apply (H r Hr)).
    lia.
Qed.

Section DateCheckFacts.

Variable parse_datetime : string -> parsed.
Variable today : Z.

Lemma le_stamp_datetime64 (df : DataFrame) :
  datetime64 df ->
  mapM (le_stamp today) (col date df) = Ok (map (on_time today) df).
Proof.
  induction df as [|r df IH]; intro Hd; [reflexivity|].
  specialize (IH (datetime64_tail _ _ Hd)).
  destruct (Hd r (or_introl Logic.eq_refl)) as [t Ht].
  simpl. rewrite IH. unfold le_stamp, on_time. rewrite Ht.
  destruct t; reflexivity.
Qed.

Lemma all_map_forallb {X} (p : X -> bool) (l : list X) :
  all (map p l) = forallb p l.
Proof. unfold all. induction l; simpl; [reflexivity|]. now rewrite IHl. Qed.

Lemma forallb_over_map {X Y} (f : X -> Y) (p : Y -> bool) (l : list X) :
  forallb p (map f l) = forallb (fun x => p (f x)) l.
Proof. induction l; simpl; [reflexivity|]. now rewrite IHl. Qed.

Lemma on_time_notna (r : ChurnRecord) :
  on_time today r = true -> dnotna (date r) = true.
Proof.
  unfold on_time. destruct (date r) as [c|[t|]|tz t]; try discriminate.
  reflexivity.
Qed.

(** The expression of check 2 on a converted frame. *)
Lemma dates_valid_value (df : DataFrame) :
  datetime64 df -> dates_valid today df = Ok (forallb (on_time today) df).
Proof.
  intro Hd. unfold dates_valid, and_then, rbind, col.
  rewrite (all_map_forallb (fun d => dnotna d)).
  rewrite forallb_over_map.
  fold (col date df). rewrite (le_stamp_datetime64 df Hd), all_map_forallb.
  destruct (forallb (fun r => dnotna (date r)) df) eqn:E; [reflexivity|].
  f_equal. symmetry. apply not_true_is_false. intro H.
  rewrite forallb_forall in H.
  assert (forallb (fun r => dnotna (date r)) df = true)
    by (apply forallb_forall; intros r Hr; apply on_time_notna, H, Hr).
  congruence.
Qed.

Lemma on_time_coerce (r : ChurnRecord) :
  on_time today (with_date (to_datetime_cell parse_datetime (date r)) r) = true
  <-> exists t, to_datetime_cell parse_datetime (date r) = Stamp (Some t)
                /\ t <= today.
Proof.
  unfold on_time; simpl.
  destruct (to_datetime_cell parse_datetime (date r)) as [c|[t|]|tz t]; split;
    try discriminate.
  - intros (t & E & _). discriminate.
  - intro H. exists t. split; [reflexivity|now apply Z.leb_le].
  - intros (u & [= <-] & Hu). now apply Z.leb_le.
  - intros (t & E & _). discriminate.
  - intros (u & E & _). discriminate.
Qed.

(** One NaT makes the expression of check 2 false: the comparison is not
    evaluated. *)
Lemma dates_valid_nat (df : DataFrame) :
  In NaT (col date df) -> dates_valid today df = Ok false.
Proof.
  intro Hin. unfold dates_valid, and_then. simpl.
  assert (H : all (map dnotna (col date df)) = false).
  { unfold all. rewrite forallb_over_map.
    destruct (forallb (fun x => dnotna x) (col date df)) eqn:E; [|reflexivity].
    rewrite forallb_forall in E. specialize (E _ Hin). discriminate. }
  now rewrite H.
Qed.

(** Datetimes with a UTC offset, none missing: the comparison with the
    timezone-naive [today] raises. *)
Lemma dates_valid_aware (df : DataFrame) (tz t : Z) :
  existsb is_raw (col date df) = false -> ~ In NaT (col date df) ->
  In (Aware tz t) (col date df) ->
  dates_valid today df = Raise TypeError.
Proof.
  intros Hraw Hnat Hin. unfold dates_valid, and_then. simpl.
  assert (Hall : all (map dnotna (col date df)) = true).
  { unfold all. rewrite forallb_over_map. apply forallb_forall.
    intros c Hc. destruct c as [c|[x|]|tz' x]; try reflexivity.
    - assert (existsb is_raw (col date df) = true)
        by (apply existsb_exists; exists (Raw c); split; [exact Hc|reflexivity]).
      congruence.
    - contradiction. }
  rewrite Hall.
  assert (H : mapM (le_stamp today) (col date df) = Raise TypeError).
  { induction (col date df) as [|c l IH]; [destruct Hin|].
    simpl in Hraw. apply orb_false_iff in Hraw as [Hc Hl].
    assert (Hnat' : ~ In NaT l) by (intro; apply Hnat; now right).
    destruct c as [c|[x|]|tz' x]; simpl; try reflexivity.
    - destruct Hin as [Hin|Hin]; [discriminate|].
      now rewrite (IH Hl Hnat' Hin).
    - exfalso. apply Hnat. now left. }
  now rewrite H.
Qed.




End DateCheckFacts.

(** X3. What check 2 does with the dates.  When the datetimes the
    conversion yields do not share one timezone, the conversion raises
    ValueError and nothing is assigned.  Otherwise the converted column is
    assigned, and: a date that does not convert (NaT) makes the check
    false; when every date converts and one carries a UTC offset, the
    comparison with the timezone-naive [today] raises TypeError; when every
    date converts to a timezone-naive datetime or to NaT, the check returns,
    and it is true exactly when every date converts to a datetime that is
    not later than [today]. *)
Theorem valid_dates_decides
  (parse_datetime : string -> parsed) (today : Z) (df : DataFrame) :
  (same_tz (col date (coerce parse_datetime df)) = false ->
   valid_dates parse_datetime today df = (Raise ValueError, df)) /\
  (same_tz (col date (coerce parse_datetime df)) = true ->
   snd (valid_dates parse_datetime today df) = coerce parse_datetime df /\
   (In NaT (col date (coerce parse_datetime df)) ->
    fst (valid_dates parse_datetime today df) = Ok false) /\
   (~ In NaT (col date (coerce parse_datetime df)) ->
    (exists tz t, In (Aware tz t) (col date (coerce parse_datetime df))) ->
    fst (valid_dates parse_datetime today df) = Raise TypeError) /\
   (naive_dates parse_datetime df ->
    exists b,
      fst (valid_dates parse_datetime today df) = Ok b /\
      (b = true <->
       forall r, In r df ->
         exists t, to_datetime_cell parse_datetime (date r) = Stamp (Some t)
                   /\ t <= today))).
Proof.
  rewrite valid_dates_run. split; intro Htz; rewrite Htz; [reflexivity|].
  split; [reflexivity|]. simpl fst. split; [|split].
  - apply dates_valid_nat.
  - intros Hnat (tz & t & Hin).
    apply (dates_valid_aware today _ tz t); auto.
    apply coerce_converted.
  - intro Hd. rewrite (dates_valid_value today _ Hd).
    eexists. split; [reflexivity|].
    unfold coerce. rewrite forallb_over_map, forallb_forall. split.
    + intros H r Hr. apply on_time_coerce, H, Hr.
    + intros H r Hr. apply on_time_coerce, H, Hr.
Qed.


Section LocCheckFacts.

Lemma series_ge_all (s : list cell) (k : Z) :
  (exists m, series_ge s k = Ok m /\ all m = true)
  <-> forall c, In c s -> exists z, c = Num z /\ k <= z.
Proof.
  unfold series_ge, all. induction s as [|c s IH]; simpl.
  - split; [intros _ c []|]. intros _. now exists [].
  - split.
    + intros (m & Hm & Ha).
      destruct c as [|z|t]; simpl in Hm; try discriminate;
        (destruct (mapM (ge_int k) s) as [m'|] eqn:E; [|discriminate]);
        simpl in Hm; injection Hm as <-; simpl in Ha; try discriminate;
        apply andb_true_iff in Ha as [Hz Ha].
      intros x [<-|Hx].
      * exists z. split; [reflexivity|now apply Z.leb_le].
      * apply IH; [|exact Hx]. now exists m'.
    + intro H.
      destruct (H c (or_introl Logic.eq_refl)) as (z & -> & Hz).
      destruct IH as [_ IH].
      destruct IH as (m & Hm & Ha); [intros x Hx; apply H; now right|].
      simpl. rewrite Hm. simpl. eexists. split; [reflexivity|].
      simpl. rewrite Ha. apply Z.leb_le in Hz. now rewrite Hz.
Qed.

Lemma series_lt_all (s : list cell) (k : Z) :
  (exists m, series_lt s k = Ok m /\ all m = true)
  <-> forall c, In c s -> exists z, c = Num z /\ z < k.
Proof.
  unfold series_lt, all. induction s as [|c s IH]; simpl.
  - split; [intros _ c []|]. intros _. now exists [].
  - split.
    + intros (m & Hm & Ha).
      destruct c as [|z|t]; simpl in Hm; try discriminate;
        (destruct (mapM (lt_int k) s) as [m'|] eqn:E; [|discriminate]);
        simpl in Hm; injection Hm as <-; simpl in Ha; try discriminate;
        apply andb_true_iff in Ha as [Hz Ha].
      intros x [<-|Hx].
      * exists z. split; [reflexivity|now apply Z.ltb_lt].
      * apply IH; [|exact Hx]. now exists m'.
    + intro H.
      destruct (H c (or_introl Logic.eq_refl)) as (z & -> & Hz).
      destruct IH as [_ IH].
      destruct IH as (m & Hm & Ha); [intros x Hx; apply H; now right|].
      simpl. rewrite Hm. simpl. eexists. split; [reflexivity|].
      simpl. rewrite Ha. apply Z.ltb_lt in Hz. now rewrite Hz.
Qed.

(** [(series >= 0).all()] as one operand of the chain of [and]. *)
Lemma ge_operand_true (s : list cell) :
  rbind (series_ge s 0) (fun m => Ok (all m)) = Ok true
  <-> forall c, In c s -> exists z, c = Num z /\ 0 <= z.
Proof.
  rewrite <- series_ge_all. split.
  - destruct (series_ge s 0) as [m|]; [|discriminate]. simpl.
    intros [= H]. now exists m.
  - intros (m & -> & Ha). simpl. now rewrite Ha.
Qed.

Lemma and_then_true (a b : result bool) :
  and_then a b = Ok true <-> a = Ok true /\ b = Ok true.
Proof.
  unfold and_then. destruct a as [[|]|e]; simpl; split;
    try (intros [H1 H2]); try intro H; try discriminate; auto.
Qed.

Lemma in_col {X} (f : ChurnRecord -> X) (df : DataFrame) (P : X -> Prop) :
  (forall c, In c (col f df) -> P c) <-> (forall r, In r df -> P (f r)).
Proof.
  unfold col. split.
  - intros H r Hr. apply H, in_map, Hr.
  - intros H c Hc. apply in_map_iff in Hc as (r & <- & Hr). now apply H.
Qed.

End LocCheckFacts.

Lemma non_negative_LOC_true (df : DataFrame) :
  non_negative_LOC df = Ok true <-> forall r, In r df -> loc_non_negative r.
Proof.
  unfold non_negative_LOC. rewrite !and_then_true, !ge_operand_true.
  rewrite (in_col loc_added df (fun c => exists z, c = Num z /\ 0 <= z)).
  rewrite (in_col loc_deleted df (fun c => exists z, c = Num z /\ 0 <= z)).
  rewrite (in_col loc_modified df (fun c => exists z, c = Num z /\ 0 <= z)).
  unfold loc_non_negative. split.
  - intros [[Ha Hd] Hm] r Hr.
    destruct (Ha r Hr) as (a & Ea & Pa). destruct (Hd r Hr) as (d & Ed & Pd).
    destruct (Hm r Hr) as (m & Em & Pm). exists a, d, m. auto 10.
  - intro H. repeat split; intros r Hr;
      destruct (H r Hr) as (a & d & m & Ea & Ed & Em & Pa & Pd & Pm); eauto.
Qed.

(** X5. [non_negative_LOC] returns true exactly when the three LOC cells of
    every row are numbers and none is negative. *)
Theorem non_negative_LOC_decides (df : DataFrame) :
  non_negative_LOC df = Ok true <-> forall r, In r df -> loc_non_negative r.
Proof. apply non_negative_LOC_true. Qed.

(** X6. [reasonable_LOC_bounds] returns true exactly when [loc_modified]
    is, in every row, a number below 10000. *)
Theorem reasonable_LOC_bounds_decides (df : DataFrame) :
  reasonable_LOC_bounds df = Ok true <-> forall r, In r df -> loc_bounded r.
Proof.
  unfold reasonable_LOC_bounds, loc_bounded.
  rewrite <- (in_col loc_modified df (fun c => exists z, c = Num z /\ z < 10000)).
  rewrite <- series_lt_all. split.
  - destruct (series_lt _ _) as [m|]; [|discriminate]. simpl.
    intros [= H]. now exists m.
  - intros (m & -> & Ha). simpl. now rewrite Ha.
Qed.

(** X2. [missing_values] is true exactly when no field of any row is
    null. *)
Theorem missing_values_iff_complete (df : DataFrame) :
  missing_values df = true <-> forall r, In r df -> complete r.
Proof. apply missing_values_complete. Qed.

(* ================================================================= *)
(** ** How the battery ends *)

Section BatteryOutcome.

Variable parse_datetime : string -> parsed.
Variable today : Z.

Lemma mapM_raises {A B} (f : A -> result B) (l : list A) (e : exn) :
  (forall x e', f x = Raise e' -> e' = TypeError) ->
  mapM f l = Raise e -> e = TypeError.
Proof.
  intro Hf. induction l as [|x l IH]; simpl; [discriminate|].
  destruct (f x) as [y|e'] eqn:E; simpl.
  - destruct (mapM f l) as [ys|e'']; simpl; [discriminate|].
    intros [= <-]. now apply IH.
  - intros [= <-]. eapply Hf, E.
Qed.

Lemma zipM_raises {A B C} (f : A -> B -> result C)
      (l1 : list A) (l2 : list B) (e : exn) :
  (forall x y e', f x y = Raise e' -> e' = TypeError) ->
  zipM f l1 l2 = Raise e -> e = TypeError.
Proof.
  intro Hf. revert l2; induction l1 as [|x l1 IH]; intros [|y l2]; simpl;
    try discriminate.
  destruct (f x y) as [z|e'] eqn:E; simpl.
  - destruct (zipM f l1 l2) as [zs|e''] eqn:E2; simpl; [discriminate|].
    intros [= <-]. eapply IH, E2.
  - intros [= <-]. eapply Hf, E.
Qed.

Lemma ge_int_raises (k : Z) (c : cell) (e : exn) :
  ge_int k c = Raise e -> e = TypeError.
Proof. destruct c; simpl; congruence. Qed.

Lemma lt_int_raises (k : Z) (c : cell) (e : exn) :
  lt_int k c = Raise e -> e = TypeError.
Proof. destruct c; simpl; congruence. Qed.

Lemma add_raises (dt : dtype) (a b : cell) (e : exn) :
  add dt a b = Raise e -> e = TypeError.
Proof. destruct a, b; simpl; congruence. Qed.

Lemma ge_operand_raises (s : list cell) (e : exn) :
  rbind (series_ge s 0) (fun m => Ok (all m)) = Raise e -> e = TypeError.
Proof.
  destruct (series_ge s 0) as [m|e'] eqn:E; simpl; [discriminate|].
  intros [= <-]. eapply mapM_raises; [apply ge_int_raises|exact E].
Qed.

Lemma and_then_raises (a b : result bool) (e : exn) :
  (forall e', a = Raise e' -> e' = TypeError) ->
  (forall e', b = Raise e' -> e' = TypeError) ->
  and_then a b = Raise e -> e = TypeError.
Proof.
  intros Ha Hb. unfold and_then. destruct a as [[|]|e']; simpl.
  - apply Hb.
  - discriminate.
  - intros [= <-]. now apply Ha.
Qed.

Lemma non_negative_LOC_raises (df : DataFrame) (e : exn) :
  non_negative_LOC df = Raise e -> e = TypeError.
Proof.
  unfold non_negative_LOC.
  apply and_then_raises; [intro e'; apply and_then_raises|];
    intro e''; apply ge_operand_raises.
Qed.

Lemma LOC_consistency_raises (df : DataFrame) (e : exn) :
  LOC_consistency df = Raise e -> e = TypeError.
Proof.
  unfold LOC_consistency, series_add.
  destruct (zipM _ _ _) as [s|e'] eqn:E; simpl; [discriminate|].
  intros [= <-]. eapply zipM_raises; [apply add_raises|exact E].
Qed.

Lemma reasonable_LOC_bounds_raises (df : DataFrame) (e : exn) :
  reasonable_LOC_bounds df = Raise e -> e = TypeError.
Proof.
  unfold reasonable_LOC_bounds.
  destruct (series_lt _ _) as [m|e'] eqn:E; simpl; [discriminate|].
  intros [= <-]. eapply mapM_raises; [apply lt_int_raises|exact E].
Qed.

(** What the battery raises: the ValueError of the conversion, or a
    TypeError of check 2 or of one of the LOC checks. *)
Lemma battery_raises_which (df : DataFrame) (e : exn) :
  fst (free_of_error_checks parse_datetime today df) = Raise e ->
  e = if same_tz (col date (coerce parse_datetime df))
      then TypeError else ValueError.
Proof.
  rewrite battery_run. destruct (same_tz _); [|simpl; congruence].
  unfold checks_on. simpl fst.
  rewrite non_negative_LOC_coerce, LOC_consistency_coerce,
    reasonable_LOC_bounds_coerce.
  destruct (dates_valid today _) as [b2|e2] eqn:E2; simpl;
    [|intros [= <-]; eapply dates_valid_raises, E2].
  destruct (non_negative_LOC df) as [b4|e4] eqn:E4; simpl;
    [|intros [= <-]; eapply non_negative_LOC_raises, E4].
  destruct (LOC_consistency df) as [b5|e5] eqn:E5; simpl;
    [|intros [= <-]; eapply LOC_consistency_raises, E5].
  destruct (reasonable_LOC_bounds df) as [b6|e6] eqn:E6; simpl;
    [discriminate|intros [= <-]; eapply reasonable_LOC_bounds_raises, E6].
Qed.

Lemma series_lt_no_text (s : list cell) (k : Z) (m : list bool) :
  series_lt s k = Ok m -> existsb is_str s = false.
Proof.
  unfold series_lt. revert m; induction s as [|c s IH]; simpl; intros m H;
    [reflexivity|].
  destruct c; simpl in *; try discriminate;
    (destruct (mapM (lt_int k) s) as [m'|] eqn:E; [|discriminate]);
    eapply IH; reflexivity.
Qed.

(** When the battery returns, neither [loc_added] nor [loc_modified]
    holds a text. *)
Lemma battery_ok_no_text (df : DataFrame) (checks : IQCheckResult) :
  fst (free_of_error_checks parse_datetime today df) = Ok checks ->
  existsb is_str (col loc_added df) = false /\
  existsb is_str (col loc_modified df) = false.
Proof.
  intro H. apply battery_ok_run in H. unfold checks_on in H. revert H.
  rewrite non_negative_LOC_coerce, LOC_consistency_coerce,
    reasonable_LOC_bounds_coerce.
  destruct (dates_valid today _) as [b2|]; [|discriminate]. simpl.
  destruct (non_negative_LOC df) as [b4|] eqn:E4; [|discriminate]. simpl.
  destruct (LOC_consistency df) as [b5|]; [|discriminate]. simpl.
  destruct (reasonable_LOC_bounds df) as [b6|] eqn:E6; [|discriminate].
  intros _. split; [eapply non_negative_ok_added, E4|].
  unfold reasonable_LOC_bounds in E6.
  destruct (series_lt (col loc_modified df) 10000) as [m|] eqn:E;
    [|discriminate].
  eapply series_lt_no_text, E.
Qed.

(** With no text among the LOC cells, the battery returns as soon as
    check 2 does. *)
Lemma battery_returns_after_dates (df : DataFrame) (b : bool) :
  no_text_loc df ->
  fst (valid_dates parse_datetime today df) = Ok b ->
  exists checks,
    fst (free_of_error_checks parse_datetime today df) = Ok checks.
Proof.
  intros Hn. rewrite valid_dates_run, battery_run.
  destruct (same_tz _); [|discriminate]. simpl. intro E2.
  unfold checks_on. rewrite E2.
  rewrite non_negative_LOC_coerce, LOC_consistency_coerce,
    reasonable_LOC_bounds_coerce.
  destruct (loc_checks_total df Hn) as (b4 & b5 & b6 & -> & -> & ->).
  simpl. now eexists.
Qed.

Lemma battery_ok_dates (df : DataFrame) (checks : IQCheckResult) :
  fst (free_of_error_checks parse_datetime today df) = Ok checks ->
  exists b, fst (valid_dates parse_datetime today df) = Ok b.
Proof.
  rewrite valid_dates_run, battery_run.
  destruct (same_tz _); [|discriminate]. unfold checks_on. simpl.
  destruct (dates_valid today _) as [b2|]; [|discriminate]. now eexists.
Qed.

Lemma to_datetime_cell_idem (c : dcell) :
  to_datetime_cell parse_datetime (to_datetime_cell parse_datetime c)
  = to_datetime_cell parse_datetime c.
Proof.
  destruct c as [[|z|s]|t|tz t]; simpl; try reflexivity.
  - now destruct (in_bounds z).
  - now destruct (parse_datetime s) as [|t [tz|]].
Qed.

Lemma coerce_idem (df : DataFrame) :
  coerce parse_datetime (coerce parse_datetime df) = coerce parse_datetime df.
Proof.
  unfold coerce. rewrite map_map. apply map_ext. intro r.
  unfold with_date; simpl. now rewrite to_datetime_cell_idem.
Qed.

Lemma complete_coerce (df : DataFrame) :
  (forall r, In r (coerce parse_datetime df) -> complete r) ->
  forall r, In r df -> complete r.
Proof.
  intros H r Hr.
  specialize (H _ (in_map (fun r => with_date
                             (to_datetime_cell parse_datetime (date r)) r)
                          df r Hr)).
  unfold complete in *; simpl in *.
  destruct H as (H1 & H2 & H3 & H4 & H5 & H6 & H7 & H8).
  repeat split; try assumption.
  destruct (date r) as [[|z|s]|[t|]|tz t]; simpl in *; auto.
Qed.

(** One NaT breaks the monotonicity tests. *)
Lemma monotonic_from_nat (up : bool) (prev : dcell) (l : list dcell) :
  In NaT l -> monotonic_from up prev l = false.
Proof.
  revert prev; induction l as [|cur l IH]; intros prev Hin; [destruct Hin|].
  simpl. destruct Hin as [->|Hin].
  - destruct prev as [[|z|s]|[t|]|tz t], up; reflexivity.
  - destruct (if up then dcell_le prev cur else dcell_le cur prev)
      as [[|]|]; try reflexivity. now apply IH.
Qed.

Lemma chronological_order_nat (df : DataFrame) :
  In NaT (col date df) -> chronological_order df = false.
Proof.
  intro Hin. unfold chronological_order, is_monotonic_increasing,
    is_monotonic_decreasing, is_monotonic.
  destruct (col date df) as [|x l]; [destruct Hin|].
  destruct Hin as [->|Hin]; [reflexivity|].
  rewrite !(monotonic_from_nat _ x l Hin), !andb_false_r. reflexivity.
Qed.

(** A later clock: the comparison of check 2 raises or returns as before,
    and what was not later than the clock still is not. *)
Lemma le_stamp_clock (today' : Z) (l : list dcell) (m : list bool) :
  today <= today' ->
  mapM (le_stamp today) l = Ok m ->
  exists m', mapM (le_stamp today') l = Ok m' /\
             (all m = true -> all m' = true).
Proof.
  intro Hle. revert m; induction l as [|c l IH]; intros m H.
  - injection H as <-. now exists [].
  - simpl in H. destruct (le_stamp today c) as [x|] eqn:Ec; [|discriminate].
    simpl in H. destruct (mapM (le_stamp today) l) as [m0|] eqn:El;
      [|discriminate].
    simpl in H. injection H as <-.
    destruct (IH m0 Logic.eq_refl) as (m' & Em' & Hall).
    destruct c as [c|[t|]|tz t]; simpl in Ec; try discriminate;
      injection Ec as <-; simpl; rewrite Em'; simpl;
      eexists; (split; [reflexivity|]); simpl.
    + intro H. apply andb_true_iff in H as [H1 H2].
      apply Z.leb_le in H1. rewrite (Hall H2), andb_true_r.
      apply Z.leb_le. lia.
    + discriminate.
Qed.

Lemma dates_valid_clock (today' : Z) (df : DataFrame) (b : bool) :
  today <= today' ->
  dates_valid today df = Ok b ->
  exists b', dates_valid today' df = Ok b' /\ (b = true -> b' = true).
Proof.
  intro Hle. unfold dates_valid, and_then. simpl.
  destruct (all (map dnotna (col date df)));
    [|intros [= <-]; exists false; split; [reflexivity|discriminate]].
  destruct (mapM (le_stamp today) (col date df)) as [m|] eqn:E;
    [|discriminate].
  simpl. intros [= <-].
  destruct (le_stamp_clock today' _ m Hle E) as (m' & -> & Hall).
  simpl. eexists. split; [reflexivity|exact Hall].
Qed.

End BatteryOutcome.

(** X7. When the battery returns, its result holds exactly the ten check
    names, in the order the checks are made. *)
Theorem battery_keys
  (parse_datetime : string -> parsed) (today : Z)
  (df : DataFrame) (checks : IQCheckResult) :
  fst (free_of_error_checks parse_datetime today df) = Ok checks ->
  map fst checks
  = [ "missing_values"; "valid_dates"; "no_duplicates"; "non_negative_LOC";
      "LOC_consistency"; "reasonable_LOC_bounds"; "valid_commit_hash";
      "author_validity"; "module_field_presence"; "chronological_order" ].
Proof.
  intro H. apply battery_ok_run in H. unfold checks_on in H. revert H.
  destruct (dates_valid today _) as [b2|]; [|discriminate]. simpl.
  destruct (non_negative_LOC _) as [b4|]; [|discriminate]. simpl.
  destruct (LOC_consistency _) as [b5|]; [|discriminate]. simpl.
  destruct (reasonable_LOC_bounds _) as [b6|]; [|discriminate]. simpl.
  intros [= <-]. reflexivity.
Qed.

(** X8. On a frame that has the eight columns, two exceptions can escape
    the battery.  ValueError comes from the conversion of the dates, when
    the datetimes it yields do not share one timezone; the frame is then
    left as it was loaded.  TypeError comes after the conversion, from the
    comparison of dates with [today] or from a LOC comparison or
    addition. *)
Theorem battery_raises_two_errors
  (parse_datetime : string -> parsed) (today : Z)
  (df : DataFrame) (e : exn) :
  fst (free_of_error_checks parse_datetime today df) = Raise e ->
  (e = ValueError /\
   to_datetime parse_datetime (col date df) = Raise ValueError /\
   snd (free_of_error_checks parse_datetime today df) = df) \/
  (e = TypeError /\
   to_datetime parse_datetime (col date df)
   = Ok (col date (coerce parse_datetime df)) /\
   snd (free_of_error_checks parse_datetime today df)
   = coerce parse_datetime df).
Proof.
  intro H. apply battery_raises_which in H.
  rewrite to_datetime_cases, battery_frame.
  destruct (same_tz _); [right|left]; auto.
Qed.

(** X9. A text anywhere in the [loc_added] or the [loc_modified] column
    makes the battery raise: TypeError when the conversion of the dates
    returned, the ValueError of the conversion otherwise. *)
Theorem battery_raises_on_text
  (parse_datetime : string -> parsed) (today : Z) (df : DataFrame) :
  existsb is_str (col loc_added df) = true \/
  existsb is_str (col loc_modified df) = true ->
  fst (free_of_error_checks parse_datetime today df)
  = match to_datetime parse_datetime (col date df) with
    | Ok _ => Raise TypeError
    | Raise e => Raise e
    end.
Proof.
  intro H. rewrite to_datetime_cases.
  destruct (fst (free_of_error_checks parse_datetime today df))
    as [checks|e] eqn:E.
  - destruct (battery_ok_no_text parse_datetime today df checks E) as [Ha Hm].
    destruct H as [H|H]; congruence.
  - rewrite (battery_raises_which parse_datetime today df e E).
    now destruct (same_tz _).
Qed.

(** X10. When no LOC cell is a text, the battery returns its results
    exactly when check 2 returns; it does whenever no date carries a UTC
    offset: missing values, dates that do not parse and numbers out of
    range make checks fail but raise nothing. *)
Theorem battery_returns_without_text
  (parse_datetime : string -> parsed) (today : Z) (df : DataFrame) :
  no_text_loc df ->
  ((exists checks,
      fst (free_of_error_checks parse_datetime today df) = Ok checks)
   <-> (exists b, fst (valid_dates parse_datetime today df) = Ok b)) /\
  (naive_dates parse_datetime df ->
   exists checks,
     fst (free_of_error_checks parse_datetime today df) = Ok checks).
Proof.
  intro Hn. split; [split|].
  - intros [checks H]. eapply battery_ok_dates, H.
  - intros [b H]. eapply battery_returns_after_dates; eauto.
  - intro Hd. now apply battery_total_without_text.
Qed.

(** X11. In the battery, one date that does not convert fails both
    [valid_dates] and [chronological_order]. *)
Theorem unparseable_date_fails_two_checks
  (parse_datetime : string -> parsed) (today : Z)
  (df : DataFrame) (checks : IQCheckResult) (r : ChurnRecord) :
  fst (free_of_error_checks parse_datetime today df) = Ok checks ->
  In r df -> to_datetime_cell parse_datetime (date r) = NaT ->
  dict_get "valid_dates" checks = Some false /\
  dict_get "chronological_order" checks = Some false.
Proof.
  intros Hrun Hin Hnat.
  assert (Hn : In NaT (col date (coerce parse_datetime df))).
  { rewrite col_date_coerce. rewrite <- Hnat.
    apply in_map. unfold col. now apply in_map. }
  apply battery_ok_run in Hrun. unfold checks_on in Hrun. revert Hrun.
  rewrite (dates_valid_nat today _ Hn), (chronological_order_nat _ Hn).
  simpl.
  destruct (non_negative_LOC _) as [b4|]; [|discriminate]. simpl.
  destruct (LOC_consistency _) as [b5|]; [|discriminate]. simpl.
  destruct (reasonable_LOC_bounds _) as [b6|]; [|discriminate]. simpl.
  intros [= <-]. simpl. split; reflexivity.
Qed.

(** X12. Running the battery again, at a clock that is not earlier, on
    the frame it left: the frame does not change any more, and every entry
    is reproduced but two.  [missing_values] may turn from true to false
    (a date that was a text is now NaT); [valid_dates], for which each call
    reads the clock anew, may turn from false to true, and is reproduced
    too when the clock reads the same. *)
Theorem battery_rerun
  (parse_datetime : string -> parsed) (today today' : Z)
  (df : DataFrame) (checks : IQCheckResult) :
  today <= today' ->
  fst (free_of_error_checks parse_datetime today df) = Ok checks ->
  let df1 := snd (free_of_error_checks parse_datetime today df) in
  exists checks',
    free_of_error_checks parse_datetime today' df1 = (Ok checks', df1) /\
    (forall name, name <> "missing_values" -> name <> "valid_dates" ->
       dict_get name checks' = dict_get name checks) /\
    (dict_get "missing_values" checks' = Some true ->
     dict_get "missing_values" checks = Some true) /\
    (dict_get "valid_dates" checks = Some true ->
     dict_get "valid_dates" checks' = Some true) /\
    (today' = today ->
     dict_get "valid_dates" checks' = dict_get "valid_dates" checks).
Proof.
  intros Hle Hrun df1. subst df1.
  pose proof (battery_ok_same_tz _ _ _ _ Hrun) as Htz.
  rewrite battery_frame, Htz.
  assert (Htz' : same_tz (col date (coerce parse_datetime
                                      (coerce parse_datetime df))) = true)
    by now rewrite coerce_idem.
  rewrite (battery_run_ok parse_datetime today' _ Htz'), coerce_idem.
  apply battery_ok_run in Hrun. unfold checks_on in *. revert Hrun.
  destruct (dates_valid today _) as [b2|] eqn:E2; [|discriminate]. simpl.
  destruct (dates_valid_clock today today' _ b2 Hle E2) as (b2' & E2' & Hb2).
  rewrite E2'. simpl.
  destruct (non_negative_LOC _) as [b4|]; [|discriminate]. simpl.
  destruct (LOC_consistency _) as [b5|]; [|discriminate]. simpl.
  destruct (reasonable_LOC_bounds _) as [b6|]; [|discriminate]. simpl.
  intros [= <-]. eexists. split; [reflexivity|]. split; [|split; [|split]].
  - intros name Hname Hname'. simpl.
    destruct (String.eqb name "missing_values") eqn:E;
      [apply String.eqb_eq in E; contradiction|].
    destruct (String.eqb name "valid_dates") eqn:E';
      [apply String.eqb_eq in E'; contradiction|].
    reflexivity.
  - simpl. intros [= H]. f_equal.
    apply missing_values_complete. apply (complete_coerce parse_datetime).
    now apply missing_values_complete.
  - simpl. intros [= ->]. now rewrite Hb2.
  - intros ->. simpl. congruence.
Qed.

(* ================================================================= *)
(** ** More on the timeliness score *)

Section ScoreShape.




Lemma filter_all_length {X} (p : X -> bool) (l : list X) :
  List.length (filter p l) = List.length l <-> forall x, In x l -> p x = true.
Proof.
  induction l as [|x l IH]; simpl.
  - split; [intros _ x []|reflexivity].
  - destruct (p x) eqn:E; simpl.
    + split.
      * intros [= H] y [<-|Hy]; [exact E|]. now apply IH.
      * intro H. f_equal. apply IH. intros y Hy. apply H. now right.
    + split.
      * intro H. exfalso.
        assert (List.length (filter p l) <= List.length l)%nat.
        { clear. induction l as [|y l IH]; simpl; [lia|].
          destruct (p y); simpl; lia. }
        lia.
      * intro H. specialize (H x (or_introl Logic.eq_refl)). congruence.
Qed.

Lemma frac_is_one (k n : nat) :
  n <> 0%nat -> ((Z.of_nat k # Pos.of_nat n) == 1)%Q <-> k = n.
Proof.
  intro Hn. unfold Qeq; cbn [Qnum Qden]. rewrite (Zpos_of_nat n Hn). lia.
Qed.

End ScoreShape.

Section RawDates.





End RawDates.


(** X14. On a non-empty dataset with converted dates and maximum date [m],
    [m - 90 days] being in the range of a timestamp, the score equals 1
    exactly when every record is dated at or after [m - 90 days]; a record
    without a valid date keeps it below 1. *)
Theorem timeliness_full_iff_all_recent (df : DataFrame) (m : Z) :
  df <> [] -> datetime64 df -> is_latest m df -> cutoff_in_range m ->
  exists q : Q,
    compute_timeliness df = (Ok q, df) /\
    ((q == 1)%Q <-> forall r, In r df -> at_or_after (m - days90) r = true).
Proof.
  intros Hne Hd Hm Hc. rewrite (score_with_latest df m Hne Hd Hm Hc).
  eexists. split; [reflexivity|].
  assert (Hlen : List.length df <> 0%nat) by (destruct df; [congruence|discriminate]).
  rewrite (frac_is_one _ _ Hlen). unfold recent_count.
  apply filter_all_length.
Qed.



(* ================================================================= *)
(** ** The report *)

Section ReportFacts.

Import Report.

Lemma passed_count_le (results : IQCheckResult) :
  (passed_count results <= List.length results)%nat.
Proof.
  unfold passed_count. induction results as [|[k v] results IH]; simpl; [lia|].
  destruct v; lia.
Qed.

Lemma passed_count_all (results : IQCheckResult) :
  passed_count results = List.length results
  <-> forall k v, In (k, v) results -> v = true.
Proof.
  unfold passed_count. induction results as [|[k v] results IH]; simpl.
  - split; [intros _ k v []|reflexivity].
  - pose proof (passed_count_le results) as Hle. unfold passed_count in Hle.
    destruct v; simpl.
    + split.
      * intros [= H] k' v' [[= <- <-]|Hin]; [reflexivity|].
        eapply IH; eauto.
      * intro H. f_equal. apply IH. intros k' v' Hin. eapply H. right. exact Hin.
    + split; [lia|]. intro H.
      specialize (H k false (or_introl Logic.eq_refl)). discriminate.
Qed.

Lemma below_half_spec (k n : nat) :
  n <> 0%nat ->
  below_half (Z.of_nat k # Pos.of_nat n) = true <-> (2 * k < n)%nat.
Proof.
  intro Hn. unfold below_half. rewrite negb_true_iff.
  rewrite <- not_true_iff_false, Qle_bool_iff.
  unfold Qle; cbn [Qnum Qden]. rewrite (Zpos_of_nat n Hn). lia.
Qed.

(** What [main] does once the file is loaded, read off the battery and
    the scorer on the converted frame. *)
Lemma report_main_loaded
  (parse_datetime : string -> parsed) (today : Z) (df : DataFrame) :
  Report.main parse_datetime today (Some df)
  = let out := [Loaded (List.length df)] in
    match fst (free_of_error_checks parse_datetime today df) with
    | Raise e => mkOutcome (Raise e) out None
    | Ok results =>
        let out := out ++ summarize_check_results results in
        match fst (compute_timeliness (coerce parse_datetime df)) with
        | Raise e => mkOutcome (Raise e) out None
        | Ok timeliness =>
            mkOutcome (Ok tt)
              (out ++ snd (visualize_iq_results results timeliness)
                   ++ manual_check_reputability)
              (Some (fst (visualize_iq_results results timeliness)))
        end
    end.
Proof.
  unfold Report.main.
  destruct (free_of_error_checks parse_datetime today df)
    as [[results|e] df'] eqn:E; simpl; [|reflexivity].
  assert (Hf : df' = coerce parse_datetime df).
  { pose proof (battery_frame parse_datetime today df) as Hf.
    rewrite (battery_ok_same_tz parse_datetime today df results) in Hf
      by now rewrite E.
    now rewrite E in Hf. }
  subst df'.
  destruct (compute_timeliness (coerce parse_datetime df)) as [[q|e] df'];
    reflexivity.
Qed.



Lemma summary_has_title (results : IQCheckResult) :
  In SummaryTitle (summarize_check_results results).
Proof. now left. Qed.

End ReportFacts.

(** X16. The summary of any result has one line per check between its
    title and its tally; the tally counts the passed checks out of the
    number of checks, never more, and equals it exactly when every check
    passed. *)
Theorem summary_tally (results : IQCheckResult) :
  Report.summarize_check_results results
  = Report.SummaryTitle
    :: map (fun kv : string * bool => Report.CheckLine (fst kv) (snd kv)) results
    ++ [Report.OverallLine (Report.passed_count results) (List.length results)]
  /\ (Report.passed_count results <= List.length results)%nat
  /\ (Report.passed_count results = List.length results
      <-> forall k v, In (k, v) results -> v = true).
Proof.
  split; [reflexivity|]. split; [apply passed_count_le|apply passed_count_all].
Qed.


(** X18. The advisory of a run that ends well: with [m] the maximum of
    the converted dates and [m - 90 days] in the range of a timestamp, the
    staleness warning is printed exactly when fewer than half of the
    records are dated at or after [m - 90 days]; otherwise the run prints
    that timeliness is satisfactory. *)
Theorem report_advisory
  (parse_datetime : string -> parsed) (today : Z) (df : DataFrame) (m : Z) :
  let run := Report.main parse_datetime today (Some df) in
  let df' := coerce parse_datetime df in
  Report.ended run = Ok tt -> is_latest m df' -> cutoff_in_range m ->
  (In Report.StaleWarning (Report.printed run)
   <-> (2 * recent_count m df' < List.length df')%nat) /\
  (In Report.Satisfactory (Report.printed run)
   <-> (List.length df' <= 2 * recent_count m df')%nat).
Proof.
  cbv zeta. rewrite report_main_loaded. cbv zeta. intros Hend Hm Hc.
  destruct (fst (free_of_error_checks parse_datetime today df))
    as [results|e] eqn:Eb; [|discriminate Hend].
  pose proof (latest_naive parse_datetime df m
                (battery_ok_same_tz parse_datetime today df results Eb) Hm)
    as Hd.
  assert (Hne : coerce parse_datetime df <> []).
  { destruct Hm as [Hin _]. intro E. rewrite E in Hin. destruct Hin. }
  rewrite (score_with_latest _ m Hne Hd Hm Hc).
  simpl fst. cbn [Report.printed Report.visualize_iq_results snd].
  assert (Hlen : List.length (coerce parse_datetime df) <> 0%nat).
  { destruct (coerce parse_datetime df); [congruence|discriminate]. }
  pose proof (below_half_spec (recent_count m (coerce parse_datetime df))
                _ Hlen) as Hb.
  assert (Hsum : forall l : Report.line,
             In l (Report.summarize_check_results results) ->
             l <> Report.StaleWarning /\ l <> Report.Satisfactory).
  { intros l [<-|Hl]; [split; discriminate|]. simpl in Hl.
    apply in_app_or in Hl as [Hl|[<-|[]]]; [|split; discriminate].
    apply in_map_iff in Hl as (kv & <- & _). split; discriminate. }
  destruct (Report.below_half _) eqn:E.
  - split; split.
    + intros _. now apply Hb.
    + intros _. right. apply in_or_app. right. right. now left.
    + intros [H|H]; [discriminate H|].
      apply in_app_or in H as [H|H].
      * destruct (Hsum _ H) as [_ Hc']. congruence.
      * destruct H as [H|[H|[H|[]]]]; discriminate H.
    + intro H. assert (2 * recent_count m (coerce parse_datetime df)
                       < List.length (coerce parse_datetime df))%nat
        by now apply Hb. lia.
  - assert (Hnb : ~ (2 * recent_count m (coerce parse_datetime df)
                     < List.length (coerce parse_datetime df))%nat).
    { intro H. apply Hb in H. discriminate H. }
    split; split.
    + intros [H|H]; [discriminate H|].
      apply in_app_or in H as [H|H].
      * destruct (Hsum _ H) as [Hc' _]. congruence.
      * destruct H as [H|[H|[H|[]]]]; discriminate H.
    + intro H. contradiction.
    + intros _. lia.
    + intros _. right. apply in_or_app. right. right. now left.
Qed.

(* ================================================================= *)
(** ** More on the extractor *)

Section ExtractorShape.

Import Extractor.

Lemma substring_0_length (n : nat) (s : string) :
  String.length (substring 0 n s) = Nat.min n (String.length s).
Proof.
  revert s; induction n as [|n IH]; intro s.
  - destruct s; reflexivity.
  - destruct s as [|a s]; [reflexivity|]. simpl. now rewrite IH.
Qed.

Lemma before_slash_no_slash (s : string) : has_slash (before_slash s) = false.
Proof.
  induction s as [|a s IH]; [reflexivity|]. simpl.
  destruct (Ascii.eqb a "/") eqn:E; [reflexivity|]. simpl. now rewrite E.
Qed.

Lemma before_slash_split (s : string) :
  has_slash s = true ->
  exists rest, s = (before_slash s ++ String "/" rest)%string.
Proof.
  induction s as [|a s IH]; [discriminate|]. simpl.
  destruct (Ascii.eqb a "/") eqn:E; simpl.
  - intros _. apply Ascii.eqb_eq in E. subst a. now exists s.
  - intro H. destruct (IH H) as [rest Hr]. exists rest. now rewrite <- Hr.
Qed.



(** Where a record comes from. *)
Lemma record_origin (commits : list Commit) (row : Row) :
  In row (churn_records commits) ->
  exists c stats path fs,
    In c commits /\ stats_files c = Ok stats /\ In (path, fs) stats /\
    row = record_of c path fs.
Proof.
  rewrite churn_records_flat. intro Hin.
  apply in_flat_map in Hin as (c & Hc & Hrow). unfold records_of in Hrow.
  destruct (stats_files c) as [stats|e] eqn:E; [|destruct Hrow].
  apply in_map_iff in Hrow as ([path fs] & <- & Hkv).
  exists c, stats, path, fs. auto.
Qed.

End ExtractorShape.



(** X21. Every record carries a hash of at most eight characters (exactly
    eight when the commit's hash has at least eight), a module without any
    slash, which is "root" for a path without a slash and otherwise the
    part of the path before its first slash; and missing counts are 0. *)
Theorem record_fields
  (c : Extractor.Commit) (path : string) (fs : Extractor.FileStats) :
  let row := Extractor.record_of c path fs in
  String.length (Extractor.commit_hash row)
    = Nat.min 8 (String.length (Extractor.hexsha c)) /\
  has_slash (Extractor.module row) = false /\
  (has_slash path = false -> Extractor.module row = "root") /\
  (has_slash path = true ->
   exists rest, path = (Extractor.module row ++ String "/" rest)%string) /\
  (Extractor.insertions fs = None -> Extractor.loc_added row = 0) /\
  (Extractor.deletions fs = None -> Extractor.loc_deleted row = 0).
Proof.
  cbv zeta. unfold Extractor.record_of; simpl.
  split; [apply substring_0_length|].
  destruct (has_slash path) eqn:E.
  - split; [apply before_slash_no_slash|]. split; [discriminate|].
    split; [intros _; now apply before_slash_split|].
    split; intros ->; reflexivity.
  - split; [reflexivity|]. split; [reflexivity|].
    split; [discriminate|]. split; intros ->; reflexivity.
Qed.

(** X22. When git reports no negative count and full hashes, every
    record has an eight-character hash, non-negative LOC fields, and a
    [loc_modified] that is at least [loc_added] and at least
    [loc_deleted]. *)
Theorem records_of_well_formed_history
  (commits : list Extractor.Commit) (row : Extractor.Row) :
  (forall c, In c commits -> well_formed c) ->
  In row (Extractor.churn_records commits) ->
  String.length (Extractor.commit_hash row) = 8%nat /\
  0 <= Extractor.loc_added row /\ 0 <= Extractor.loc_deleted row /\
  Extractor.loc_added row <= Extractor.loc_modified row /\
  Extractor.loc_deleted row <= Extractor.loc_modified row.
Proof.
  intros Hwf Hin.
  destruct (record_origin commits row Hin)
    as (c & stats & path & fs & Hc & Hs & Hkv & ->).
  destruct (Hwf c Hc) as [Hlen Hcounts].
  destruct (Hcounts stats Hs (path, fs) Hkv) as [Ha Hd]. simpl in Ha, Hd.
  unfold Extractor.record_of; simpl.
  split; [rewrite substring_0_length; lia|]. lia.
Qed.

(* ================================================================= *)
(** ** A whole run of the extractor *)

Section RunFacts.

Import Extractor ExtractorRun.

#[local] Arguments Nat.modulo : simpl never.
#[local] Arguments Nat.div : simpl never.






End RunFacts.



(* ================================================================= *)
(** ** From the extractor to the validator *)

Section Pipeline.

Lemma Forall2_in_right {A B} (R : A -> B -> Prop) (l : list A) (l' : list B)
      (y : B) :
  Forall2 R l l' -> In y l' -> exists x, In x l /\ R x y.
Proof.
  induction 1 as [|a b l l' Hab _ IH]; intro Hin; [destruct Hin|].
  destruct Hin as [<-|Hin].
  - exists a. split; [now left|exact Hab].
  - destruct (IH Hin) as (x & Hx & Hr). exists x. split; [now right|exact Hr].
Qed.

Lemma held_row_facts (commits : list Extractor.Commit) (df : DataFrame)
      (r : ChurnRecord) :
  (forall c, In c commits -> well_formed c) ->
  Forall2 holds (Extractor.churn_records commits) df ->
  In r df ->
  complete r /\ loc_non_negative r /\ loc_consistent r /\
  (exists h, commit_hash r = Str h /\ String.length h = 8%nat) /\
  notna (module r) = true.
Proof.
  intros Hwf Hall Hr.
  destruct (Forall2_in_right _ _ _ _ Hall Hr) as (rec & Hrec & Hh).
  destruct (record_origin commits rec Hrec)
    as (c & stats & path & fs & Hc & Hs & Hkv & ->).
  destruct (Hwf c Hc) as [Hlen Hcounts].
  destruct (Hcounts stats Hs (path, fs) Hkv) as [Ha Hd]. simpl in Ha, Hd.
  destruct Hh as (E1 & E2 & E3 & E4 & E5 & E6 & E7 & E8).
  simpl in E1, E2, E3, E4, E5, E6, E7, E8.
  split; [|split; [|split; [|split]]].
  - unfold complete. rewrite E1, E2, E3, E4, E5, E6, E7, E8. repeat split.
  - unfold loc_non_negative. rewrite E6, E7, E8.
    do 3 eexists. repeat split; lia.
  - unfold loc_consistent. rewrite E6, E7, E8. do 2 eexists. repeat split.
  - eexists. split; [exact E1|]. unfold prefix.
    rewrite substring_0_length. lia.
  - rewrite E5. reflexivity.
Qed.

End Pipeline.

(** X25. A dataset that holds, verbatim, the records extracted from a
    history in which git reports no negative count and hashes of at least
    eight characters, with counts below 2^52 and dates that are read as
    timezone-naive, goes through the battery without an exception, and
    passes [missing_values], [non_negative_LOC], [LOC_consistency],
    [valid_commit_hash] and [module_field_presence]. *)
Theorem extracted_data_passes
  (parse_datetime : string -> parsed) (today : Z)
  (commits : list Extractor.Commit) (df : DataFrame) :
  (forall c, In c commits -> well_formed c) ->
  Forall2 holds (Extractor.churn_records commits) df ->
  loc_small df -> naive_dates parse_datetime df ->
  exists checks,
    fst (free_of_error_checks parse_datetime today df) = Ok checks /\
    dict_get "missing_values" checks = Some true /\
    dict_get "non_negative_LOC" checks = Some true /\
    dict_get "LOC_consistency" checks = Some true /\
    dict_get "valid_commit_hash" checks = Some true /\
    dict_get "module_field_presence" checks = Some true.
Proof.
  intros Hwf Hall Hsmall Hd.
  pose proof (fun r Hr => held_row_facts commits df r Hwf Hall Hr) as Hrow.
  assert (Hcons : forall r, In r df -> loc_consistent r)
    by (intros r Hr; apply (Hrow r Hr)).
  assert (Hnn : non_negative_LOC df = Ok true)
    by (apply non_negative_LOC_true; intros r Hr; apply (Hrow r Hr)).
  assert (Hmiss : missing_values df = true)
    by (apply missing_values_complete; intros r Hr; apply (Hrow r Hr)).
  assert (Hhash : valid_commit_hash df = true).
  { unfold valid_commit_hash. rewrite all_map_forallb, forallb_forall.
    intros x Hx. unfold col in Hx. apply in_map_iff in Hx as (r & <- & Hr).
    destruct (Hrow r Hr) as (_ & _ & _ & (h & -> & Hlen) & _).
    simpl. now rewrite Hlen. }
  assert (Hmod : module_field_presence df = true).
  { unfold module_field_presence. rewrite all_map_forallb, forallb_forall.
    intros x Hx. unfold col in Hx. apply in_map_iff in Hx as (r & <- & Hr).
    apply (Hrow r Hr). }
  rewrite (battery_run_naive _ today _ Hd). unfold checks_on. simpl fst.
  rewrite non_negative_LOC_coerce, LOC_consistency_coerce,
    reasonable_LOC_bounds_coerce, valid_commit_hash_coerce,
    module_field_presence_coerce.
  destruct (dates_valid_datetime64 today _ Hd) as [b2 ->].
  destruct (loc_checks_total df (consistent_no_text df Hcons))
    as (b4 & b5 & b6 & _ & _ & ->).
  rewrite Hnn, (consistent_check_true df Hsmall Hcons), Hmiss, Hhash, Hmod.
  simpl. eexists. split; [reflexivity|]. repeat split.
Qed.

(* ================================================================= *)
(** ** Instances of the further properties *)


(** Witness for X7. *)
Lemma battery_keys_witness :
  let checks :=
    [ ("missing_values", true); ("valid_dates", true);
      ("no_duplicates", true); ("non_negative_LOC", true);
      ("LOC_consistency", true); ("reasonable_LOC_bounds", true);
      ("valid_commit_hash", true); ("author_validity", true);
      ("module_field_presence", true); ("chronological_order", true) ] in
  fst (Examples.battery Examples.one_row) = Ok checks /\
  map fst checks
  = [ "missing_values"; "valid_dates"; "no_duplicates"; "non_negative_LOC";
      "LOC_consistency"; "reasonable_LOC_bounds"; "valid_commit_hash";
      "author_validity"; "module_field_presence"; "chronological_order" ].
Proof.
  intro checks.
  assert (H : fst (Examples.battery Examples.one_row) = Ok checks)
    by reflexivity.
  split; [exact H|].
  exact (battery_keys IsoDate.parse Examples.today0 Examples.one_row checks H).
Defined.

(** Witness for X8: dates of two different UTC offsets. *)
Lemma battery_raises_two_errors_witness :
  fst (free_of_error_checks IsoDate.parse_offset Examples.today0
         Samples.mixed_offsets) = Raise ValueError /\
  ((ValueError = ValueError /\
    to_datetime IsoDate.parse_offset (col date Samples.mixed_offsets)
    = Raise ValueError /\
    snd (free_of_error_checks IsoDate.parse_offset Examples.today0
           Samples.mixed_offsets) = Samples.mixed_offsets) \/
   (ValueError = TypeError /\
    to_datetime IsoDate.parse_offset (col date Samples.mixed_offsets)
    = Ok (col date (coerce IsoDate.parse_offset Samples.mixed_offsets)) /\
    snd (free_of_error_checks IsoDate.parse_offset Examples.today0
           Samples.mixed_offsets)
    = coerce IsoDate.parse_offset Samples.mixed_offsets)).
Proof.
  assert (H : fst (free_of_error_checks IsoDate.parse_offset Examples.today0
                     Samples.mixed_offsets) = Raise ValueError)
    by reflexivity.
  split; [exact H|].
  exact (battery_raises_two_errors IsoDate.parse_offset Examples.today0
           Samples.mixed_offsets ValueError H).
Defined.

(** Dates that all carry the same UTC offset convert, and then cannot be
    compared with [today]. *)
Example offset_dates_raise :
  free_of_error_checks IsoDate.parse_offset Examples.today0 Samples.with_offset
  = (Raise TypeError, coerce IsoDate.parse_offset Samples.with_offset) /\
  col date (coerce IsoDate.parse_offset Samples.with_offset)
  = [Aware 7200 (1705305600 * 1000000000);
     Aware 7200 (1705390200 * 1000000000)].
Proof. split; reflexivity. Qed.

(** Witness for X9. *)
Lemma battery_raises_on_text_witness :
  (existsb is_str (col loc_added Examples.text_loc) = true \/
   existsb is_str (col loc_modified Examples.text_loc) = true) /\
  fst (free_of_error_checks IsoDate.parse Examples.today0 Examples.text_loc)
  = match to_datetime IsoDate.parse (col date Examples.text_loc) with
    | Ok _ => Raise TypeError
    | Raise e => Raise e
    end.
Proof.
  assert (H : existsb is_str (col loc_added Examples.text_loc) = true \/
              existsb is_str (col loc_modified Examples.text_loc) = true)
    by (left; reflexivity).
  split; [exact H|].
  exact (battery_raises_on_text IsoDate.parse Examples.today0
           Examples.text_loc H).
Defined.

(** Witness for X10: a bad date and no text among the LOC cells. *)
Lemma battery_returns_without_text_witness :
  no_text_loc Examples.one_bad_date /\
  ((exists checks,
      fst (free_of_error_checks IsoDate.parse Examples.today0
             Examples.one_bad_date) = Ok checks)
   <-> (exists b, fst (valid_dates IsoDate.parse Examples.today0
                         Examples.one_bad_date) = Ok b)) /\
  (naive_dates IsoDate.parse Examples.one_bad_date ->
   exists checks,
     fst (free_of_error_checks IsoDate.parse Examples.today0
            Examples.one_bad_date) = Ok checks).
Proof.
  assert (H : no_text_loc Examples.one_bad_date)
    by (repeat split; reflexivity).
  split; [exact H|].
  exact (battery_returns_without_text IsoDate.parse Examples.today0
           Examples.one_bad_date H).
Defined.

(** Witness for X11. *)
Lemma unparseable_date_fails_two_checks_witness :
  let checks :=
    [ ("missing_values", true); ("valid_dates", false);
      ("no_duplicates", true); ("non_negative_LOC", true);
      ("LOC_consistency", true); ("reasonable_LOC_bounds", true);
      ("valid_commit_hash", true); ("author_validity", true);
      ("module_field_presence", true); ("chronological_order", false) ] in
  let r := Examples.clean (Raw (Str "not-a-date")) in
  fst (Examples.battery Examples.one_bad_date) = Ok checks /\
  In r Examples.one_bad_date /\
  to_datetime_cell IsoDate.parse (date r) = NaT /\
  dict_get "valid_dates" checks = Some false /\
  dict_get "chronological_order" checks = Some false.
Proof.
  intros checks r.
  assert (H1 : fst (Examples.battery Examples.one_bad_date) = Ok checks)
    by reflexivity.
  assert (H2 : In r Examples.one_bad_date) by (left; reflexivity).
  assert (H3 : to_datetime_cell IsoDate.parse (date r) = NaT) by reflexivity.
  split; [exact H1|]. split; [exact H2|]. split; [exact H3|].
  exact (unparseable_date_fails_two_checks IsoDate.parse Examples.today0
           Examples.one_bad_date checks r H1 H2 H3).
Defined.

(** Witness for X12: on the second run, one day later, [missing_values]
    has turned false, since the bad date is now NaT. *)
Lemma battery_rerun_witness :
  let checks :=
    [ ("missing_values", true); ("valid_dates", false);
      ("no_duplicates", true); ("non_negative_LOC", true);
      ("LOC_consistency", true); ("reasonable_LOC_bounds", true);
      ("valid_commit_hash", true); ("author_validity", true);
      ("module_field_presence", true); ("chronological_order", false) ] in
  let tomorrow := Examples.today0 + IsoDate.ns_per_day in
  let df1 := snd (Examples.battery Examples.one_bad_date) in
  Examples.today0 <= tomorrow /\
  fst (Examples.battery Examples.one_bad_date) = Ok checks /\
  exists checks',
    free_of_error_checks IsoDate.parse tomorrow df1 = (Ok checks', df1) /\
    (forall name, name <> "missing_values" -> name <> "valid_dates" ->
       dict_get name checks' = dict_get name checks) /\
    (dict_get "missing_values" checks' = Some true ->
     dict_get "missing_values" checks = Some true) /\
    (dict_get "valid_dates" checks = Some true ->
     dict_get "valid_dates" checks' = Some true) /\
    (tomorrow = Examples.today0 ->
     dict_get "valid_dates" checks' = dict_get "valid_dates" checks).
Proof.
  intros checks tomorrow df1.
  assert (H0 : Examples.today0 <= tomorrow) by (apply Z.leb_le; reflexivity).
  assert (H : fst (Examples.battery Examples.one_bad_date) = Ok checks)
    by reflexivity.
  split; [exact H0|]. split; [exact H|].
  exact (battery_rerun IsoDate.parse Examples.today0 tomorrow
           Examples.one_bad_date checks H0 H).
Defined.

Example rerun_loses_missing_values :
  rbind (fst (Examples.battery (snd (Examples.battery Examples.one_bad_date))))
        (fun c => Ok (dict_get "missing_values" c))
  = Ok (Some false).
Proof. reflexivity. Qed.


(** Witness for X14. *)
Lemma timeliness_full_iff_all_recent_witness :
  Examples.span90 <> [] /\ datetime64 Examples.span90 /\
  is_latest (90 * IsoDate.ns_per_day) Examples.span90 /\
  cutoff_in_range (90 * IsoDate.ns_per_day) /\
  exists q : Q,
    compute_timeliness Examples.span90 = (Ok q, Examples.span90) /\
    ((q == 1)%Q <->
     forall r, In r Examples.span90 ->
       at_or_after (90 * IsoDate.ns_per_day - days90) r = true).
Proof.
  assert (H1 : Examples.span90 <> []) by discriminate.
  assert (H2 : datetime64 Examples.span90)
    by (intros r [<-|[<-|[]]]; eexists; reflexivity).
  assert (H3 : is_latest (90 * IsoDate.ns_per_day) Examples.span90).
  { split; [right; left; reflexivity|].
    intros t [<-|[<-|[]]]; apply Z.leb_le; reflexivity. }
  assert (H4 : cutoff_in_range (90 * IsoDate.ns_per_day)) by reflexivity.
  split; [exact H1|]. split; [exact H2|]. split; [exact H3|].
  split; [exact H4|].
  exact (timeliness_full_iff_all_recent Examples.span90 _ H1 H2 H3 H4).
Defined.


(** A date column of the text "NaT", never converted: the scorer returns
    0. *)
Example scorer_on_nat_text :
  fst (compute_timeliness [Examples.clean (Raw (Str "NaT"))]) = Ok (0 # 1).
Proof. reflexivity. Qed.


(** A file whose one date is 1677-09-22, given in nanoseconds: the battery
    passes it, and the run ends with OutOfBoundsDatetime. *)
Example ancient_run_overflows :
  Report.ended (Report.main IsoDate.parse Examples.today0
                  (Some Samples.ancient_loaded))
  = Raise OutOfBoundsDatetime /\
  rbind (fst (free_of_error_checks IsoDate.parse Examples.today0
                Samples.ancient_loaded))
        (fun c => Ok (dict_get "valid_dates" c))
  = Ok (Some true).
Proof. split; reflexivity. Qed.

(** Witness for X18: three records of the same day. *)
Lemma report_advisory_witness :
  let run := Report.main IsoDate.parse Examples.today0
               (Some Examples.same_day) in
  let df' := coerce IsoDate.parse Examples.same_day in
  Report.ended run = Ok tt /\ is_latest Samples.dec22 df' /\
  cutoff_in_range Samples.dec22 /\
  (In Report.StaleWarning (Report.printed run)
   <-> (2 * recent_count Samples.dec22 df' < List.length df')%nat) /\
  (In Report.Satisfactory (Report.printed run)
   <-> (List.length df' <= 2 * recent_count Samples.dec22 df')%nat).
Proof.
  intros run df'.
  assert (H1 : Report.ended run = Ok tt) by reflexivity.
  assert (H2 : is_latest Samples.dec22 df').
  { split; [left; reflexivity|].
    intros t [<-|[<-|[<-|[]]]]; apply Z.leb_le; reflexivity. }
  assert (H3 : cutoff_in_range Samples.dec22) by reflexivity.
  split; [exact H1|]. split; [exact H2|]. split; [exact H3|].
  exact (report_advisory IsoDate.parse Examples.today0 Examples.same_day
           Samples.dec22 H1 H2 H3).
Defined.

(** Why the advisory is stated for [m - 90 days] in range: when the
    subtraction gives exactly the least int64, the cutoff is NaT, no record
    compares at or after it, and the run warns although its one record
    holds the maximum date. *)
Example advisory_at_the_edge :
  Report.ended (Report.main IsoDate.parse Examples.today0
                  (Some Samples.edge_loaded)) = Ok tt /\
  is_latest (int64_min + days90) (coerce IsoDate.parse Samples.edge_loaded) /\
  In Report.StaleWarning
     (Report.printed (Report.main IsoDate.parse Examples.today0
                        (Some Samples.edge_loaded))) /\
  recent_count (int64_min + days90) (coerce IsoDate.parse Samples.edge_loaded)
  = 1%nat.
Proof.
  split; [reflexivity|]. split.
  { split; [left; reflexivity|].
    intros t [<-|[]]. apply Z.leb_le. reflexivity. }
  split; [|reflexivity].
  vm_compute. tauto.
Qed.

(** Witness for X22. *)
Lemma records_of_well_formed_history_witness :
  let commits := [Examples.commit1; Examples.commit3] in
  let row := Extractor.mkRow "a1b2c3d4" "Ada" "2024-01-15" "src/main.py"
                             "src" 3 2 5 in
  (forall c, In c commits -> well_formed c) /\
  In row (Extractor.churn_records commits) /\
  String.length (Extractor.commit_hash row) = 8%nat /\
  0 <= Extractor.loc_added row /\ 0 <= Extractor.loc_deleted row /\
  Extractor.loc_added row <= Extractor.loc_modified row /\
  Extractor.loc_deleted row <= Extractor.loc_modified row.
Proof.
  intros commits row.
  assert (H1 : forall c, In c commits -> well_formed c).
  { intros c [<-|[<-|[]]]; (split; [simpl; lia|]);
      intros stats [= <-] kv Hkv; simpl in Hkv;
      repeat (destruct Hkv as [<-|Hkv]; [simpl; lia|]); destruct Hkv. }
  assert (H2 : In row (Extractor.churn_records commits))
    by (left; reflexivity).
  split; [exact H1|]. split; [exact H2|].
  exact (records_of_well_formed_history commits row H1 H2).
Defined.

(** Why the counts of the extracted history are bounded: Python adds 2^62
    and 2^62 exactly, the int64 sum of the loaded columns wraps around, and
    the check fails. *)
Example huge_counts_fail :
  well_formed Samples.huge /\
  Forall2 holds (Extractor.churn_records [Samples.huge]) Samples.huge_loaded /\
  rbind (fst (free_of_error_checks IsoDate.parse Examples.today0
                Samples.huge_loaded))
        (fun c => Ok (dict_get "LOC_consistency" c))
  = Ok (Some false).
Proof.
  split; [|split].
  - split; [simpl; lia|].
    intros stats [= <-] kv [<-|[]]. simpl. lia.
  - repeat constructor.
  - vm_compute. reflexivity.
Qed.

(** Witness for X25. *)
Lemma extracted_data_passes_witness :
  (forall c, In c [Examples.commit1] -> well_formed c) /\
  Forall2 holds (Extractor.churn_records [Examples.commit1])
          Samples.loaded_commit1 /\
  loc_small Samples.loaded_commit1 /\
  naive_dates IsoDate.parse Samples.loaded_commit1 /\
  exists checks,
    fst (free_of_error_checks IsoDate.parse Examples.today0
           Samples.loaded_commit1) = Ok checks /\
    dict_get "missing_values" checks = Some true /\
    dict_get "non_negative_LOC" checks = Some true /\
    dict_get "LOC_consistency" checks = Some true /\
    dict_get "valid_commit_hash" checks = Some true /\
    dict_get "module_field_presence" checks = Some true.
Proof.
  assert (H1 : forall c, In c [Examples.commit1] -> well_formed c).
  { intros c [<-|[]]. split; [simpl; lia|].
    intros stats [= <-] kv Hkv; simpl in Hkv;
      repeat (destruct Hkv as [<-|Hkv]; [simpl; lia|]); destruct Hkv. }
  assert (H2 : Forall2 holds (Extractor.churn_records [Examples.commit1])
                       Samples.loaded_commit1).
  { repeat constructor. }
  assert (H3 : loc_small Samples.loaded_commit1)
    by (intros r [<-|[<-|[]]]; repeat split; reflexivity).
  assert (H4 : naive_dates IsoDate.parse Samples.loaded_commit1)
    by (intros r [<-|[<-|[]]]; eexists; reflexivity).
  split; [exact H1|]. split; [exact H2|]. split; [exact H3|].
  split; [exact H4|].
  exact (extracted_data_passes IsoDate.parse Examples.today0
           [Examples.commit1] Samples.loaded_commit1 H1 H2 H3 H4).
Defined.
